(** * KISS ESC telemetry sensor (src/main/sensors/esc_sensor.c)

    A shallow embedding of the ESC telemetry acquisition code: the CRC-8
    frame check, the byte-receive callback that assembles 10-byte frames,
    the per-motor telemetry store with its combined reading, and the
    WAIT / READY / PENDING request scheduler with its link-failure
    teardown.

    The file-scope [static] variables of the C file are the fields of
    [esc_state]; every C function becomes a computation in the small
    state-and-fault monad [M]. An array access whose index is outside the
    array is a [Fault]. *)

From Stdlib Require Import ZArith List Bool Lia.
From stdpp Require Import base list.
Import ListNotations.

Local Open Scope Z_scope.

(** ** Fixed-width unsigned integers *)

Definition u8 (x : Z) : Z := x mod 256.
Definition u16 (x : Z) : Z := x mod 65536.
Definition u32 (x : Z) : Z := x mod 4294967296.

Definition is_u8 (x : Z) : Prop := 0 <= x < 256.
Definition is_u16 (x : Z) : Prop := 0 <= x < 65536.
Definition is_u32 (x : Z) : Prop := 0 <= x < 4294967296.

(** ** Constants of the C file *)

Definition ESC_SENSOR_FRAME_PENDING : Z := Z.shiftl 1 0.
Definition ESC_SENSOR_FRAME_COMPLETE : Z := Z.shiftl 1 1.

Inductive escSensorTriggerState_t : Type :=
| ESC_SENSOR_TRIGGER_WAIT
| ESC_SENSOR_TRIGGER_READY
| ESC_SENSOR_TRIGGER_PENDING.

Definition ESC_SENSOR_BUFFSIZE : Z := 10.
Definition ESC_BOOTTIME : Z := 5000.
Definition ESC_REQUEST_TIMEOUT : Z := 100.

(** ** Data model *)

(** Modelled from the spec: the declaration of [escSensorData_t] lives in
    esc_sensor.h, outside esc_sensor.c. The spec gives a reading as
    [stale: bool], [temperature: u8] and 16-bit unsigned [voltage],
    [current], [consumption], [rpm]. *)
Record escSensorData_t : Type := mkData {
  stale : bool;
  temperature : Z;
  voltage : Z;
  current : Z;
  consumption : Z;
  rpm : Z
}.

Definition wf_data (r : escSensorData_t) : Prop :=
  is_u8 (temperature r) /\ is_u16 (voltage r) /\ is_u16 (current r) /\
  is_u16 (consumption r) /\ is_u16 (rpm r).

(** A zero-initialised entry of the static array [escSensorData]. *)
Definition zeroData : escSensorData_t := mkData false 0 0 0 0 0.

(** The file-scope variables. [escSensorPort] is [None] for the NULL
    handle. The last field is not a variable of the file: it records,
    most recent first, the motor indices whose telemetry request flag
    [escSensorProcess] has raised in the motor-output driver (see
    [requestTelemetry]). *)
Record esc_state : Type := mkState {
  tlmFrameDone : bool;
  tlm : list Z;
  tlmFramePosition : Z;
  escSensorPort : option Z;
  escSensorData : list escSensorData_t;
  escTriggerTimestamp : Z;
  escLastResponseTimestamp : Z;
  timeoutRetryCount : Z;
  totalRetryCount : Z;
  escSensorMotor : Z;
  escSensorEnabled : bool;
  escSensorTriggerState : escSensorTriggerState_t;
  telemetryRequests : list Z
}.

Definition set_tlmFrameDone (v : bool) (s : esc_state) : esc_state :=
  mkState v (tlm s) (tlmFramePosition s) (escSensorPort s) (escSensorData s)
    (escTriggerTimestamp s) (escLastResponseTimestamp s) (timeoutRetryCount s)
    (totalRetryCount s) (escSensorMotor s) (escSensorEnabled s)
    (escSensorTriggerState s) (telemetryRequests s).

Definition set_tlm (v : list Z) (s : esc_state) : esc_state :=
  mkState (tlmFrameDone s) v (tlmFramePosition s) (escSensorPort s) (escSensorData s)
    (escTriggerTimestamp s) (escLastResponseTimestamp s) (timeoutRetryCount s)
    (totalRetryCount s) (escSensorMotor s) (escSensorEnabled s)
    (escSensorTriggerState s) (telemetryRequests s).

Definition set_tlmFramePosition (v : Z) (s : esc_state) : esc_state :=
  mkState (tlmFrameDone s) (tlm s) v (escSensorPort s) (escSensorData s)
    (escTriggerTimestamp s) (escLastResponseTimestamp s) (timeoutRetryCount s)
    (totalRetryCount s) (escSensorMotor s) (escSensorEnabled s)
    (escSensorTriggerState s) (telemetryRequests s).

Definition set_escSensorPort (v : option Z) (s : esc_state) : esc_state :=
  mkState (tlmFrameDone s) (tlm s) (tlmFramePosition s) v (escSensorData s)
    (escTriggerTimestamp s) (escLastResponseTimestamp s) (timeoutRetryCount s)
    (totalRetryCount s) (escSensorMotor s) (escSensorEnabled s)
    (escSensorTriggerState s) (telemetryRequests s).

Definition set_escSensorData (v : list escSensorData_t) (s : esc_state) : esc_state :=
  mkState (tlmFrameDone s) (tlm s) (tlmFramePosition s) (escSensorPort s) v
    (escTriggerTimestamp s) (escLastResponseTimestamp s) (timeoutRetryCount s)
    (totalRetryCount s) (escSensorMotor s) (escSensorEnabled s)
    (escSensorTriggerState s) (telemetryRequests s).

Definition set_escTriggerTimestamp (v : Z) (s : esc_state) : esc_state :=
  mkState (tlmFrameDone s) (tlm s) (tlmFramePosition s) (escSensorPort s) (escSensorData s)
    v (escLastResponseTimestamp s) (timeoutRetryCount s)
    (totalRetryCount s) (escSensorMotor s) (escSensorEnabled s)
    (escSensorTriggerState s) (telemetryRequests s).

Definition set_escLastResponseTimestamp (v : Z) (s : esc_state) : esc_state :=
  mkState (tlmFrameDone s) (tlm s) (tlmFramePosition s) (escSensorPort s) (escSensorData s)
    (escTriggerTimestamp s) v (timeoutRetryCount s)
    (totalRetryCount s) (escSensorMotor s) (escSensorEnabled s)
    (escSensorTriggerState s) (telemetryRequests s).

Definition set_timeoutRetryCount (v : Z) (s : esc_state) : esc_state :=
  mkState (tlmFrameDone s) (tlm s) (tlmFramePosition s) (escSensorPort s) (escSensorData s)
    (escTriggerTimestamp s) (escLastResponseTimestamp s) v
    (totalRetryCount s) (escSensorMotor s) (escSensorEnabled s)
    (escSensorTriggerState s) (telemetryRequests s).

Definition set_totalRetryCount (v : Z) (s : esc_state) : esc_state :=
  mkState (tlmFrameDone s) (tlm s) (tlmFramePosition s) (escSensorPort s) (escSensorData s)
    (escTriggerTimestamp s) (escLastResponseTimestamp s) (timeoutRetryCount s)
    v (escSensorMotor s) (escSensorEnabled s)
    (escSensorTriggerState s) (telemetryRequests s).

Definition set_escSensorMotor (v : Z) (s : esc_state) : esc_state :=
  mkState (tlmFrameDone s) (tlm s) (tlmFramePosition s) (escSensorPort s) (escSensorData s)
    (escTriggerTimestamp s) (escLastResponseTimestamp s) (timeoutRetryCount s)
    (totalRetryCount s) v (escSensorEnabled s)
    (escSensorTriggerState s) (telemetryRequests s).

Definition set_escSensorEnabled (v : bool) (s : esc_state) : esc_state :=
  mkState (tlmFrameDone s) (tlm s) (tlmFramePosition s) (escSensorPort s) (escSensorData s)
    (escTriggerTimestamp s) (escLastResponseTimestamp s) (timeoutRetryCount s)
    (totalRetryCount s) (escSensorMotor s) v
    (escSensorTriggerState s) (telemetryRequests s).

Definition set_escSensorTriggerState (v : escSensorTriggerState_t) (s : esc_state) : esc_state :=
  mkState (tlmFrameDone s) (tlm s) (tlmFramePosition s) (escSensorPort s) (escSensorData s)
    (escTriggerTimestamp s) (escLastResponseTimestamp s) (timeoutRetryCount s)
    (totalRetryCount s) (escSensorMotor s) (escSensorEnabled s)
    v (telemetryRequests s).

Definition set_telemetryRequests (v : list Z) (s : esc_state) : esc_state :=
  mkState (tlmFrameDone s) (tlm s) (tlmFramePosition s) (escSensorPort s) (escSensorData s)
    (escTriggerTimestamp s) (escLastResponseTimestamp s) (timeoutRetryCount s)
    (totalRetryCount s) (escSensorMotor s) (escSensorEnabled s)
    (escSensorTriggerState s) v.

(** What the rest of the firmware supplies during one call: the value
    [getMotorCount()] returns, the value [millis()] returns, the
    content the uninitialised loop variable [i] of [resetEscSensorData]
    happens to hold ([for (int i; i < MAX_SUPPORTED_MOTORS; ...)] never
    assigns it before the first test), and whether the debug mode selected
    is that of the ESC sensor (see [DEBUG_SET]). *)
Record env : Type := mkEnv {
  getMotorCount : Z;
  millis : Z;
  uninit_i : Z;
  debugModeEscSensor : bool
}.

(** ** Arrays with bounds *)

Definition array_get {A : Type} (a : list A) (i : Z) : option A :=
  if i <? 0 then None else a !! Z.to_nat i.

Definition array_set {A : Type} (a : list A) (i : Z) (x : A) : option (list A) :=
  if (0 <=? i) && (i <? Z.of_nat (length a))
  then Some (<[Z.to_nat i := x]> a) else None.

(** ** The state-and-fault monad *)

Inductive outcome (A : Type) : Type :=
| Done (a : A)
| Fault.
Arguments Done {A} a.
Arguments Fault {A}.

Definition M (A : Type) : Type := esc_state -> outcome (A * esc_state).

Definition ret {A : Type} (a : A) : M A := fun s => Done (a, s).

Definition bind {A B : Type} (m : M A) (k : A -> M B) : M B :=
  fun s => match m s with
           | Done (a, s') => k a s'
           | Fault => Fault
           end.

Definition get : M esc_state := fun s => Done (s, s).
Definition put (s : esc_state) : M unit := fun _ => Done (tt, s).
Definition modify (f : esc_state -> esc_state) : M unit := fun s => Done (tt, f s).
Definition fault {A : Type} : M A := fun _ => Fault.

Declare Scope esc_scope.
Delimit Scope esc_scope with esc.
Notation "'do' x <- m ;; k" := (bind m (fun x => k))
  (at level 10, x name, m at level 99, k at level 200, only parsing) : esc_scope.
Local Open Scope esc_scope.

(** An assignment to fields of [escSensorData[i]]: [f] gives the new entry
    from the old one. An index outside the array is a fault. *)
Definition write_escSensorData (i : Z) (f : escSensorData_t -> escSensorData_t) : M unit :=
  do s <- get ;;
  match array_get (escSensorData s) i with
  | Some r =>
      match array_set (escSensorData s) i (f r) with
      | Some d => put (set_escSensorData d s)
      | None => fault
      end
  | None => fault
  end.

(** ** CRC *)

Definition crc8_shift (crc_u : Z) : Z :=
  u8 (if negb (Z.land crc_u 0x80 =? 0)
      then Z.lxor 0x7 (Z.shiftl crc_u 1)
      else Z.shiftl crc_u 1).

Definition update_crc8 (crc crc_seed : Z) : Z :=
  let crc_u := crc in
  let crc_u := u8 (Z.lxor crc_u crc_seed) in
  Nat.iter 8 crc8_shift crc_u.

(** [for (i = 0; i < BufLen; i++) crc = update_crc8(Buf[i], crc)]: the
    byte is the first argument and the running value the second. *)
Definition get_crc8 (Buf : list Z) (BufLen : Z) : Z :=
  fold_left (fun crc b => update_crc8 b crc) (firstn (Z.to_nat BufLen) Buf) 0.

(** The CRC-8 of the specification, written from its words: start from 0;
    for each byte [b], [acc = acc XOR b], then eight times: if the top bit
    of [acc] is set, [acc = (acc << 1) XOR 0x07], else [acc = acc << 1],
    truncated to 8 bits each step. *)
Definition ref_crc8_bit (acc : Z) : Z :=
  if Z.testbit acc 7
  then (Z.lxor (Z.shiftl acc 1) 7) mod 2 ^ 8
  else (Z.shiftl acc 1) mod 2 ^ 8.

Definition ref_crc8_byte (acc b : Z) : Z :=
  ref_crc8_bit (ref_crc8_bit (ref_crc8_bit (ref_crc8_bit
  (ref_crc8_bit (ref_crc8_bit (ref_crc8_bit (ref_crc8_bit (Z.lxor acc b)))))))).

Fixpoint ref_crc8_from (acc : Z) (payload : list Z) : Z :=
  match payload with
  | [] => acc
  | b :: rest => ref_crc8_from (ref_crc8_byte acc b) rest
  end.

Definition ref_crc8 (payload : list Z) : Z := ref_crc8_from 0 payload.

(** ** Frame assembler: the receive callback *)

Definition escSensorDataReceive (c : Z) : M unit :=
  do s <- get ;;
  match escSensorTriggerState s with
  | ESC_SENSOR_TRIGGER_WAIT => ret tt
  | _ =>
      match array_set (tlm s) (tlmFramePosition s) (u8 c) with
      | None => fault
      | Some buf =>
          do _ <- put (set_tlm buf s) ;;
          do s <- get ;;
          if tlmFramePosition s =? ESC_SENSOR_BUFFSIZE - 1
          then put (set_tlmFramePosition 0 (set_tlmFrameDone true s))
          else put (set_tlmFramePosition (u8 (tlmFramePosition s + 1)) s)
      end
  end.

(** ** Frame validator *)

(** [tlm[k]] for a constant [k] below [ESC_SENSOR_BUFFSIZE]. *)
Definition tlm_at (s : esc_state) (k : nat) : Z := nth k (tlm s) 0.

(** The six assignments to [escSensorData[escSensorMotor]] of
    [escSensorFrameStatus]: [stale = false], [temperature = tlm[0]] and the
    four big-endian 16-bit fields [tlm[1] << 8 | tlm[2]], ... *)
Definition decodeFrame (s : esc_state) : escSensorData_t :=
  mkData false
    (u8 (tlm_at s 0))
    (u16 (Z.lor (Z.shiftl (tlm_at s 1) 8) (tlm_at s 2)))
    (u16 (Z.lor (Z.shiftl (tlm_at s 3) 8) (tlm_at s 4)))
    (u16 (Z.lor (Z.shiftl (tlm_at s 5) 8) (tlm_at s 6)))
    (u16 (Z.lor (Z.shiftl (tlm_at s 7) 8) (tlm_at s 8))).

Definition escSensorFrameStatus : M Z :=
  let frameStatus := ESC_SENSOR_FRAME_PENDING in
  do s <- get ;;
  if negb (tlmFrameDone s) then ret frameStatus
  else
    do _ <- put (set_tlmFrameDone false s) ;;
    do s <- get ;;
    let chksum := get_crc8 (tlm s) (ESC_SENSOR_BUFFSIZE - 1) in
    let tlmsum := tlm_at s (Z.to_nat (ESC_SENSOR_BUFFSIZE - 1)) in
    if chksum =? tlmsum then
      do _ <- write_escSensorData (escSensorMotor s) (fun _ => decodeFrame s) ;;
      ret ESC_SENSOR_FRAME_COMPLETE
    else ret frameStatus.

(** ** Telemetry store, link manager and scheduler *)

Definition set_stale (v : bool) (r : escSensorData_t) : escSensorData_t :=
  mkData v (temperature r) (voltage r) (current r) (consumption r) (rpm r).

(** Modelled from the spec: the macro [MAX] is defined in a header
    outside esc_sensor.c; the spec reads
    [MAX(combined.temperature, escSensorData[i].temperature)] as the
    maximum of the two. *)
Definition MAX (a b : Z) : Z := if a >? b then a else b.

(** One pass of the loop body of [getEscSensorData] over [escSensorData[i]]. *)
Definition combine_one (r c : escSensorData_t) : escSensorData_t :=
  mkData (stale c)
    (u8 (MAX (temperature c) (temperature r)))
    (u16 (voltage c + voltage r))
    (u16 (current c + current r))
    (u16 (consumption c + consumption r))
    (u16 (rpm c + rpm r)).

(** [for (int i = 0; i < getMotorCount(); i = i + 1)], with [n] the
    iterations left, [c] the running [combinedEscSensorData] and the
    running [activeSensors]. *)
Fixpoint combine_loop (d : list escSensorData_t) (n : nat) (i : Z)
    (c : escSensorData_t) (activeSensors : Z) : outcome (escSensorData_t * Z) :=
  match n with
  | O => Done (c, activeSensors)
  | S n' =>
      match array_get d i with
      | None => Fault
      | Some r =>
          if negb (stale r)
          then combine_loop d n' (i + 1) (combine_one r c) (activeSensors + 1)
          else combine_loop d n' (i + 1) c activeSensors
      end
  end.

Definition isEscSensorActive : M bool :=
  do s <- get ;; ret (escSensorEnabled s).

Definition freeEscSensorPort : M unit :=
  do _ <- modify (set_escSensorPort None) ;;
  modify (set_escSensorEnabled false).

(** [++totalRetryCount] on a [uint8_t]: the increment wraps at 256 and the
    expression has the new value. *)
Definition pre_increment_totalRetryCount : M Z :=
  do s <- get ;;
  do _ <- put (set_totalRetryCount (u8 (totalRetryCount s + 1)) s) ;;
  ret (u8 (totalRetryCount s + 1)).

(** Modelled from the spec: [DEBUG_SET] is a macro of a header outside
    esc_sensor.c. The spec names only "a debug-value sink accepting
    (index, value) pairs", and the comment at the head of esc_sensor.c
    says that the values are selected by a debug mode set from the CLI.
    The sink is not part of the state; the macro is taken to evaluate the
    value it is handed exactly when the selected debug mode is the one
    named in the call, here always [DEBUG_ESC_SENSOR]
    ([debugModeEscSensor e]). This matters for the one call whose value,
    [++totalRetryCount], has a side effect. *)
Definition DEBUG_SET (e : env) (value : M Z) : M unit :=
  if debugModeEscSensor e then do _ <- value ;; ret tt else ret tt.

Section Platform.

(** Two constants that esc_sensor.c takes from headers: the size of the
    per-motor arrays and the reserved index of the combined reading. *)
Variable MAX_SUPPORTED_MOTORS : Z.
Variable ESC_SENSOR_COMBINED : Z.

(** The values of the file-scope variables when the program starts. *)
Definition initial_state : esc_state :=
  mkState false (repeat 0 (Z.to_nat ESC_SENSOR_BUFFSIZE)) 0 None
    (repeat zeroData (Z.to_nat MAX_SUPPORTED_MOTORS))
    (u32 (-1)) 0 0 0 0 false ESC_SENSOR_TRIGGER_WAIT [].

(** The sums are accumulated with [+=] in the fields of
    [combinedEscSensorData], so each addition is truncated to the width of
    its field ([combine_one]). *)
Definition getEscSensorData (e : env) (motorNumber : Z) : M escSensorData_t :=
  do s <- get ;;
  if motorNumber <? getMotorCount e then
    match array_get (escSensorData s) motorNumber with
    | Some r => ret r
    | None => fault
    end
  else
    let combinedEscSensorData := mkData true 0 0 0 0 0 in
    if motorNumber =? ESC_SENSOR_COMBINED then
      match combine_loop (escSensorData s) (Z.to_nat (getMotorCount e)) 0
              combinedEscSensorData 0 with
      | Fault => fault
      | Done (c, activeSensors) =>
          if activeSensors >? 0 then
            ret (mkData false (temperature c)
                   (u16 (voltage c / activeSensors))
                   (current c) (consumption c)
                   (u16 (rpm c / activeSensors)))
          else ret c
      end
    else ret combinedEscSensorData.

(** [for (int i; i < MAX_SUPPORTED_MOTORS; i = i + 1)]: the loop starts
    from whatever [i] holds, with [n] the iterations left. *)
Fixpoint resetEscSensorData_loop (n : nat) (i : Z) : M unit :=
  match n with
  | O => ret tt
  | S n' =>
      do _ <- write_escSensorData i (set_stale true) ;;
      resetEscSensorData_loop n' (i + 1)
  end.

Definition resetEscSensorData (e : env) : M unit :=
  resetEscSensorData_loop (Z.to_nat (MAX_SUPPORTED_MOTORS - uninit_i e)) (uninit_i e).

(** [portConfig] tells whether [findSerialPortConfig] found a port and
    [openSerialPort] is the handle the serial driver returns. *)
Definition escSensorInit (e : env) (portConfig : bool) (openSerialPort : option Z) : M bool :=
  if negb portConfig then ret false
  else
    do _ <- modify (set_escSensorPort openSerialPort) ;;
    do s <- get ;;
    do _ <- match escSensorPort s with
            | Some _ => put (set_escSensorEnabled true s)
            | None => ret tt
            end ;;
    do _ <- resetEscSensorData e ;;
    do s <- get ;;
    ret (match escSensorPort s with Some _ => true | None => false end).

(** [escSensorMotor] is a [uint8_t]: the increment wraps at 256. *)
Definition selectNextMotor (e : env) : M unit :=
  do s <- get ;;
  do _ <- put (set_escSensorMotor (u8 (escSensorMotor s + 1)) s) ;;
  do s <- get ;;
  do _ <- (if escSensorMotor s =? getMotorCount e
           then put (set_escSensorMotor 0 s) else ret tt) ;;
  do _ <- modify (set_timeoutRetryCount 0) ;;
  modify (set_escTriggerTimestamp (millis e)).

(** Modelled from the spec: [getMotorDmaOutput] belongs to the
    motor-output driver, outside esc_sensor.c, which the spec describes as
    a service exposing a per-motor "telemetry requested" flag. The
    statement [getMotorDmaOutput(escSensorMotor)->requestTelemetry = true]
    is recorded as the index of the motor whose flag is raised. *)
Definition requestTelemetry : M unit :=
  do s <- get ;;
  put (set_telemetryRequests (escSensorMotor s :: telemetryRequests s) s).

(** One tick. The timestamps are [uint32_t], so the sums with the request
    timeout and with the link-failure window of 10000 ms wrap modulo
    2^32. The [DEBUG_SET] calls whose value has no side effect only feed
    the debug sink and are left out; the one that is kept is
    [DEBUG_SET(DEBUG_ESC_SENSOR, DEBUG_ESC_NUM_TIMEOUTS, ++totalRetryCount)]. *)
Definition escSensorProcess (e : env) (currentTimeUs : Z) : M unit :=
  let currentTimeMs := currentTimeUs / 1000 in
  do s <- get ;;
  if negb (escSensorEnabled s) then ret tt
  else if currentTimeMs <? ESC_BOOTTIME then ret tt
  else
    do _ <-
      match escSensorTriggerState s with
      | ESC_SENSOR_TRIGGER_WAIT =>
          do _ <- modify (set_escSensorTriggerState ESC_SENSOR_TRIGGER_READY) ;;
          do _ <- modify (set_escSensorMotor 0) ;;
          do _ <- modify (set_escTriggerTimestamp currentTimeMs) ;;
          do s <- get ;;
          put (set_escLastResponseTimestamp (escTriggerTimestamp s) s)
      | ESC_SENSOR_TRIGGER_READY =>
          do _ <- requestTelemetry ;;
          modify (set_escSensorTriggerState ESC_SENSOR_TRIGGER_PENDING)
      | ESC_SENSOR_TRIGGER_PENDING =>
          do s <- get ;;
          do _ <-
            (if u32 (escTriggerTimestamp s + ESC_REQUEST_TIMEOUT) <? currentTimeMs then
               do _ <- put (set_timeoutRetryCount (u8 (timeoutRetryCount s + 1)) s) ;;
               do _ <- modify (set_escTriggerTimestamp currentTimeMs) ;;
               do _ <- modify (set_escSensorTriggerState ESC_SENSOR_TRIGGER_READY) ;;
               do s <- get ;;
               do _ <-
                 (if timeoutRetryCount s =? 4 then
                    do _ <- write_escSensorData (escSensorMotor s) (set_stale true) ;;
                    selectNextMotor e
                  else ret tt) ;;
               DEBUG_SET e pre_increment_totalRetryCount
             else ret tt) ;;
          do state <- escSensorFrameStatus ;;
          if state =? ESC_SENSOR_FRAME_COMPLETE then
            do _ <- selectNextMotor e ;;
            do _ <- modify (set_escSensorTriggerState ESC_SENSOR_TRIGGER_READY) ;;
            modify (set_escLastResponseTimestamp currentTimeMs)
          else ret tt
      end ;;
    do s <- get ;;
    if u32 (escLastResponseTimestamp s + 10000) <? currentTimeMs then
      do _ <- freeEscSensorPort ;;
      resetEscSensorData e
    else ret tt.

(** ** Runs: ticks of the scheduler interleaved with received bytes *)

Inductive event : Type :=
| Tick (e : env) (currentTimeUs : Z)
| Rx (c : Z).

Definition step (ev : event) : M unit :=
  match ev with
  | Tick e t => escSensorProcess e t
  | Rx c => escSensorDataReceive c
  end.

Fixpoint run (evs : list event) : M unit :=
  match evs with
  | [] => ret tt
  | ev :: rest => do _ <- step ev ;; run rest
  end.

End Platform.

(** ** Predicates and inputs used in the statements *)

(** The targeted motor indexes an entry of the store. *)
Definition motor_in_store (s : esc_state) : Prop :=
  0 <= escSensorMotor s < Z.of_nat (length (escSensorData s)).

(** The write cursor addresses a slot of the 10-byte buffer. *)
Definition cursor_ok (s : esc_state) : Prop :=
  0 <= tlmFramePosition s <= 9 /\ length (tlm s) = 10%nat.

(** The frame buffer and its write cursor are the same in both states. *)
Definition same_buffer (s s' : esc_state) : Prop :=
  tlm s' = tlm s /\ tlmFramePosition s' = tlmFramePosition s.

(** The write index of the teardown loop stays inside the store: either
    the link-failure window has not run out at this tick, or the loop of
    [resetEscSensorData] starts at a non-negative index. *)
Definition teardown_in_bounds (MAX_SUPPORTED_MOTORS : Z) (e : env) (currentTimeUs : Z)
    (s : esc_state) : Prop :=
  MAX_SUPPORTED_MOTORS <= Z.of_nat (length (escSensorData s)) /\
  ((u32 (escLastResponseTimestamp s + 10000) <? currentTimeUs / 1000) = false \/
   0 <= uninit_i e).

(** The readings that contribute to the combined reading: the non-stale
    ones among the first [getMotorCount()] entries of the store. *)
Definition contributing (e : env) (s : esc_state) : list escSensorData_t :=
  List.filter (fun r => negb (stale r))
    (take (Z.to_nat (getMotorCount e)) (escSensorData s)).

Definition Zsum (l : list Z) : Z := fold_right Z.add 0 l.

Definition Zmax (l : list Z) : Z := fold_right Z.max 0 l.

(** The loop body of [getEscSensorData] as a step on the running pair of
    [combinedEscSensorData] and [activeSensors]. *)
Definition combine_step (acc : escSensorData_t * Z) (r : escSensorData_t) :
    escSensorData_t * Z :=
  if negb (stale r) then (combine_one r (fst acc), snd acc + 1) else acc.

(** The surroundings of a call at time [t] (in microseconds): [count]
    motors, [millis()] in step with [t], [i0] in the loop variable of
    [resetEscSensorData], and a debug mode other than that of the ESC
    sensor. *)
Definition env_at (count i0 t : Z) : env := mkEnv count (t / 1000) i0 false.

Definition tick (count i0 t : Z) : event := Tick (env_at count i0 t) t.

(** Four motors at 5200 ms, reset loop variable holding 0. *)
Definition env4 : env := env_at 4 0 5200000.

(** Four motors at start-up, with the loop variable of
    [resetEscSensorData] holding 1 when the function is entered. *)
Definition env_garbage : env := env_at 4 1 0.

(** Enabled, still in WAIT, with a four-entry store. *)
Definition wait_state : esc_state :=
  mkState false (repeat 0 10) 0 (Some 1) (repeat (mkData true 0 0 0 0 0) 4)
    (u32 (-1)) 0 0 0 0 true ESC_SENSOR_TRIGGER_WAIT [].

(** PENDING on motor 1 since 5000 ms with [n] timeouts so far and no byte
    received. *)
Definition silent_state (n : Z) : esc_state :=
  mkState false (repeat 0 10) 0 (Some 1) (repeat (mkData false 20 1500 100 10 50) 4)
    5000 5000 n 0 1 true ESC_SENSOR_TRIGGER_PENDING [1].

(** A state in the PENDING phase whose buffer holds a complete frame for
    motor 1 of a four-entry store. *)
Definition pending_frame_state (frame : list Z) : esc_state :=
  mkState true frame 0 (Some 1) (repeat (mkData true 0 0 0 0 0) 4)
    5000 5000 0 0 1 true ESC_SENSOR_TRIGGER_PENDING [1].

(** PENDING on motor 0 since 5000 ms with three timeouts so far, motor 0
    holding a fresh reading, and a complete valid frame in the buffer. *)
Definition late_frame_state : esc_state :=
  mkState true [25; 6; 64; 0; 200; 1; 44; 0; 120; 148] 0 (Some 1)
    [mkData false 20 1500 100 10 50; mkData true 0 0 0 0 0;
     mkData true 0 0 0 0 0; mkData true 0 0 0 0 0]
    5000 5000 3 0 0 true ESC_SENSOR_TRIGGER_PENDING [0].

(** Two active motors that both report a voltage and a current of 40000. *)
Definition overflow_state : esc_state :=
  mkState false (repeat 0 10) 0 (Some 1)
    [mkData false 30 40000 40000 10 50; mkData false 20 40000 40000 10 50]
    5000 5000 0 0 0 true ESC_SENSOR_TRIGGER_READY [].

(** Init, boot settle, one request, then silence until 15001 ms: more than
    the link-failure window of 10000 ms after the last response time. *)
Definition silent_link_run : list event :=
  [tick 4 1 5000000; tick 4 1 5001000; tick 4 1 15001000].

(** Ten zero bytes: a frame whose checksum byte is right. *)
Definition valid_zero_frame : list event := map Rx (repeat 0 10).

(** Four motors answer in turn until motor 3 is targeted; then
    [getMotorCount()] drops to 2 while the answer of motor 3 arrives. *)
Definition shrinking_run : list event :=
  [tick 4 0 5000000; tick 4 0 5001000] ++ valid_zero_frame ++
  [tick 4 0 5002000; tick 4 0 5003000] ++ valid_zero_frame ++
  [tick 4 0 5004000; tick 4 0 5005000] ++ valid_zero_frame ++
  [tick 4 0 5006000; tick 4 0 5007000] ++ valid_zero_frame ++
  [tick 2 0 5008000].

(** What link teardown leaves behind when the store reset reaches every
    entry. *)
Definition torn_down (MAX_SUPPORTED_MOTORS : Z) (s' : esc_state) : Prop :=
  escSensorEnabled s' = false /\
  escSensorPort s' = None /\
  Forall (fun r => stale r = true) (escSensorData s') /\
  isEscSensorActive s' = Done (false, s') /\
  forall (e' : env) (t' : Z),
    escSensorProcess MAX_SUPPORTED_MOTORS e' t' s' = Done (tt, s').

(** ** Relations and invariants of the further properties *)

(** Everything but the frame buffer, its cursor and the completion flag
    is the same in both states. *)
Definition same_scheduler (s s' : esc_state) : Prop :=
  escSensorPort s' = escSensorPort s /\
  escSensorData s' = escSensorData s /\
  escTriggerTimestamp s' = escTriggerTimestamp s /\
  escLastResponseTimestamp s' = escLastResponseTimestamp s /\
  timeoutRetryCount s' = timeoutRetryCount s /\
  totalRetryCount s' = totalRetryCount s /\
  escSensorMotor s' = escSensorMotor s /\
  escSensorEnabled s' = escSensorEnabled s /\
  escSensorTriggerState s' = escSensorTriggerState s /\
  telemetryRequests s' = telemetryRequests s.

(** An event of the start-up phase: a received byte, or a tick before
    [ESC_BOOTTIME] milliseconds have passed. *)
Definition before_boot (ev : event) : Prop :=
  match ev with
  | Tick _ currentTimeUs => currentTimeUs / 1000 < ESC_BOOTTIME
  | Rx _ => True
  end.

(** PENDING on motor 1 with the write cursor in the middle of the buffer:
    three bytes of a frame have arrived. *)
Definition mid_frame_state : esc_state :=
  mkState false [7; 8; 9; 0; 0; 0; 0; 0; 0; 0] 3 (Some 1)
    (repeat (mkData true 0 0 0 0 0) 4)
    5000 5000 0 0 1 true ESC_SENSOR_TRIGGER_PENDING [1].

(** PENDING on motor 1 with a complete frame in the buffer whose third
    byte differs from the frame [25; 6; 64; 0; 200; 1; 44; 0; 120; 148]. *)
Definition corrupted_frame_state : esc_state :=
  pending_frame_state [25; 6; 65; 0; 200; 1; 44; 0; 120; 148].

(** The ten bytes an ESC transmits for a reading, after the protocol table
    at the head of esc_sensor.c: the temperature, then voltage, current,
    consumption and rpm with the high byte first, then the 8-bit CRC of
    the nine bytes before it. *)
Definition frame_payload (d : escSensorData_t) : list Z :=
  [temperature d;
   voltage d / 256; voltage d mod 256;
   current d / 256; current d mod 256;
   consumption d / 256; consumption d mod 256;
   rpm d / 256; rpm d mod 256].

Definition frame_of (d : escSensorData_t) : list Z :=
  frame_payload d ++ [get_crc8 (frame_payload d) (ESC_SENSOR_BUFFSIZE - 1)].

(** READY to request motor 1 of four, with an empty frame buffer. *)
Definition ready_state : esc_state :=
  mkState false (repeat 0 10) 0 (Some 1) (repeat (mkData true 0 0 0 0 0) 4)
    5000 5000 0 0 1 true ESC_SENSOR_TRIGGER_READY [].

(** The bounds the scheduler relies on for [count] motors: the store has
    [MAX_SUPPORTED_MOTORS] entries and the targeted motor is below the
    motor count. *)
Definition sched_ok (MAX_SUPPORTED_MOTORS count : Z) (s : esc_state) : Prop :=
  Z.of_nat (length (escSensorData s)) = MAX_SUPPORTED_MOTORS /\
  0 <= escSensorMotor s < count.

(** An event of a flight with a constant number of motors, in which the
    loop variable of [resetEscSensorData] never starts below zero. *)
Definition steady (count : Z) (ev : event) : Prop :=
  match ev with
  | Tick e _ => getMotorCount e = count /\ 0 <= uninit_i e
  | Rx _ => True
  end.

(** The event is a tick of the scheduler, not a received byte. *)
Definition is_tick (ev : event) : Prop :=
  match ev with
  | Tick _ _ => True
  | Rx _ => False
  end.

(** What one tick started in state [s] can do to an entry [r] of the
    store: leave it, mark it stale, or, when a complete frame with the
    right checksum was waiting in the PENDING phase, replace it by the
    decoded frame (which the teardown in the same tick may mark stale
    again). *)
Definition entry_step (s : esc_state) (r r' : escSensorData_t) : Prop :=
  r' = r \/ r' = set_stale true r \/
  (tlmFrameDone s = true /\
   get_crc8 (tlm s) (ESC_SENSOR_BUFFSIZE - 1) = tlm_at s 9 /\
   escSensorTriggerState s = ESC_SENSOR_TRIGGER_PENDING /\
   (r' = decodeFrame s \/ r' = set_stale true (decodeFrame s))).

(** The motor whose request flag a tick at [currentTimeUs] raises from
    state [s], if any. *)
Definition requested (currentTimeUs : Z) (s : esc_state) : list Z :=
  match escSensorTriggerState s with
  | ESC_SENSOR_TRIGGER_READY =>
      if escSensorEnabled s && negb (currentTimeUs / 1000 <? ESC_BOOTTIME)
      then [escSensorMotor s] else []
  | _ => []
  end.

(** The moves of the scheduler phase that one tick can make. *)
Definition phase_step (a b : escSensorTriggerState_t) : Prop :=
  match a, b with
  | ESC_SENSOR_TRIGGER_WAIT, ESC_SENSOR_TRIGGER_WAIT
  | ESC_SENSOR_TRIGGER_WAIT, ESC_SENSOR_TRIGGER_READY
  | ESC_SENSOR_TRIGGER_READY, ESC_SENSOR_TRIGGER_READY
  | ESC_SENSOR_TRIGGER_READY, ESC_SENSOR_TRIGGER_PENDING
  | ESC_SENSOR_TRIGGER_PENDING, ESC_SENSOR_TRIGGER_PENDING
  | ESC_SENSOR_TRIGGER_PENDING, ESC_SENSOR_TRIGGER_READY => True
  | _, _ => False
  end.

(** What a tick at [currentTimeUs] leaves of state [s] in [s']: the frame
    buffer is untouched, the entries of the store move by [entry_step], the
    request log grows by [requested], the tick neither raises the
    completion flag nor enables the sensor, and the time of the last
    response is kept or becomes the time of the tick; it is kept when the
    tick starts outside WAIT without a valid frame. The phase moves by
    [phase_step] and a retry counter of at most 3 stays at most 3. *)
Definition tick_post (currentTimeUs : Z) (s s' : esc_state) : Prop :=
  same_buffer s s' /\
  Forall2 (entry_step s) (escSensorData s) (escSensorData s') /\
  telemetryRequests s' = requested currentTimeUs s ++ telemetryRequests s /\
  (tlmFrameDone s' = true -> tlmFrameDone s = true) /\
  (escSensorEnabled s' = true -> escSensorEnabled s = true) /\
  (escLastResponseTimestamp s' = escLastResponseTimestamp s \/
   escLastResponseTimestamp s' = currentTimeUs / 1000) /\
  (escSensorTriggerState s <> ESC_SENSOR_TRIGGER_WAIT ->
   tlmFrameDone s = false \/
     get_crc8 (tlm s) (ESC_SENSOR_BUFFSIZE - 1) <> tlm_at s 9 ->
   escLastResponseTimestamp s' = escLastResponseTimestamp s) /\
  phase_step (escSensorTriggerState s) (escSensorTriggerState s') /\
  (0 <= timeoutRetryCount s <= 3 -> 0 <= timeoutRetryCount s' <= 3).

(** The outcome of the link check that ends a tick started in [s]: if
    more than 10000 ms have passed since the last response, the port
    handle and the enabled flag are cleared and the entries the reset loop
    reaches are stale; otherwise both are as the tick found them. *)
Definition link_post (MAX_SUPPORTED_MOTORS : Z) (e : env) (currentTimeUs : Z)
    (s s' : esc_state) : Prop :=
  if u32 (escLastResponseTimestamp s' + 10000) <? currentTimeUs / 1000
  then escSensorEnabled s' = false /\
       escSensorPort s' = None /\
       forall (k : nat) (r' : escSensorData_t),
         uninit_i e <= Z.of_nat k < MAX_SUPPORTED_MOTORS ->
         escSensorData s' !! k = Some r' -> stale r' = true
  else escSensorEnabled s' = escSensorEnabled s /\
       escSensorPort s' = escSensorPort s.

(** Every logged telemetry request names a motor below [count]. *)
Definition requests_below (count : Z) (s : esc_state) : Prop :=
  Forall (fun m => 0 <= m < count) (telemetryRequests s).

(** An entry that is as before or has only been marked stale. *)
Definition stale_or_same (r r' : escSensorData_t) : Prop :=
  r' = r \/ r' = set_stale true r.

(** A tick of the quiet part of the PENDING phase as seen from state [s]:
    past the boot time, not later than [ESC_REQUEST_TIMEOUT] ms after the
    trigger time and not later than 10000 ms after the last response. *)
Definition quiet_poll (s : esc_state) (ev : event) : Prop :=
  match ev with
  | Tick _ currentTimeUs =>
      ESC_BOOTTIME <= currentTimeUs / 1000 /\
      currentTimeUs / 1000 <= u32 (escTriggerTimestamp s + ESC_REQUEST_TIMEOUT) /\
      currentTimeUs / 1000 <= u32 (escLastResponseTimestamp s + 10000)
  | Rx _ => False
  end.

(** Motors 0 and 1 answered a while ago, motor 2 never did; PENDING on
    motor 2, last response at 5000 ms. *)
Definition fading_link_state : esc_state :=
  mkState false (repeat 0 10) 0 (Some 1)
    [mkData false 20 1500 100 10 50; mkData false 21 1490 90 9 40;
     mkData true 0 0 0 0 0; mkData true 0 0 0 0 0]
    14950 5000 0 0 2 true ESC_SENSOR_TRIGGER_PENDING [2].

(** READY to request motor 2 while a complete valid frame, received
    earlier, is still waiting in the buffer. *)
Definition early_frame_state : esc_state :=
  mkState true [25; 6; 64; 0; 200; 1; 44; 0; 120; 148] 0 (Some 1)
    (repeat (mkData true 0 0 0 0 0) 4)
    5000 5000 0 0 2 true ESC_SENSOR_TRIGGER_READY [].

(** One request / response cycle for [count] motors starting at time [t]
    (in microseconds): the tick that raises the request, the ten bytes of
    the frame of [d], and the tick, one millisecond later, that finds the
    frame. *)
Definition cycle (count t : Z) (d : escSensorData_t) : list event :=
  [tick count 0 t] ++ map Rx (frame_of d) ++ [tick count 0 (t + 1000)].

(** Cycles every two milliseconds, one for each reading of [ds]. *)
Fixpoint cycles (count t : Z) (ds : list escSensorData_t) : list event :=
  match ds with
  | [] => []
  | d :: rest => cycle count t d ++ cycles count (t + 2000) rest
  end.

(** READY on motor 0 of four at 5000 ms, nothing received yet. *)
Definition round_start_state : esc_state :=
  mkState false (repeat 0 10) 0 (Some 1) (repeat (mkData true 0 0 0 0 0) 4)
    5000 5000 0 0 0 true ESC_SENSOR_TRIGGER_READY [].

(** The readings four ESCs send in one round. *)
Definition round_readings : list escSensorData_t :=
  [mkData false 25 1600 200 300 120; mkData false 26 1590 210 310 121;
   mkData false 27 1580 220 320 122; mkData false 28 1570 230 330 123].

(** The bytes received during a run, in order. *)
Definition bytes_of (evs : list event) : list Z :=
  flat_map (fun ev => match ev with
                      | Rx c => [c]
                      | Tick _ _ => []
                      end) evs.


(** * Properties *)

(** ** Proof tools *)

Ltac unfold_m :=
  unfold bind, ret, get, put, modify, fault in *.

Arguments u8 : simpl never.
Arguments u16 : simpl never.
Arguments u32 : simpl never.

Arguments selectNextMotor : simpl never.
Arguments write_escSensorData : simpl never.
Arguments resetEscSensorData : simpl never.
Arguments escSensorFrameStatus : simpl never.
Arguments DEBUG_SET : simpl never.

(** The kept [DEBUG_SET] call: [totalRetryCount] is incremented in the
    debug mode of the ESC sensor and left alone otherwise. *)
Lemma DEBUG_SET_pre_increment (e : env) (s : esc_state) :
  DEBUG_SET e pre_increment_totalRetryCount s =
  Done (tt, set_totalRetryCount
              (if debugModeEscSensor e then u8 (totalRetryCount s + 1)
               else totalRetryCount s) s).
Proof.
  unfold DEBUG_SET, pre_increment_totalRetryCount. unfold_m.
  destruct (debugModeEscSensor e); [reflexivity|].
  destruct s; reflexivity.
Qed.

Lemma u8_range (x : Z) : is_u8 (u8 x).
Proof. unfold is_u8, u8. apply Z.mod_pos_bound. lia. Qed.

Lemma u8_small (x : Z) : is_u8 x -> u8 x = x.
Proof. unfold is_u8, u8. intros H. apply Z.mod_small. exact H. Qed.

(** A decidable property of bytes holds of every byte once it has been
    checked on 0..255. *)
Lemma u8_cases (f : Z -> bool) :
  forallb f (map Z.of_nat (seq 0 256)) = true ->
  forall x, is_u8 x -> f x = true.
Proof.
  intros Hall x [Hlo Hhi].
  rewrite forallb_forall in Hall. apply Hall.
  apply in_map_iff. exists (Z.to_nat x). split; [lia|].
  apply in_seq. lia.
Qed.

Lemma lxor_u8 (a b : Z) : is_u8 a -> is_u8 b -> is_u8 (Z.lxor a b).
Proof.
  unfold is_u8. intros [Ha Ha'] [Hb Hb'].
  assert (Hnn : 0 <= Z.lxor a b) by (apply Z.lxor_nonneg; lia).
  split; [exact Hnn|].
  destruct (Z.eq_dec (Z.lxor a b) 0) as [-> | Hne]; [lia|].
  change 256 with (2 ^ 8). apply Z.log2_lt_pow2; [lia|].
  eapply Z.le_lt_trans; [apply Z.log2_lxor; lia|].
  apply Z.max_lub_lt.
  - destruct (Z.eq_dec a 0) as [-> | ?]; [simpl; lia|].
    apply Z.log2_lt_pow2; simpl; lia.
  - destruct (Z.eq_dec b 0) as [-> | ?]; [simpl; lia|].
    apply Z.log2_lt_pow2; simpl; lia.
Qed.

Lemma u16_range (x : Z) : is_u16 (u16 x).
Proof. unfold is_u16, u16. apply Z.mod_pos_bound. lia. Qed.

Lemma u16_small (x : Z) : is_u16 x -> u16 x = x.
Proof. unfold is_u16, u16. intros H. apply Z.mod_small. exact H. Qed.

Lemma u16_add_l (a b : Z) : u16 (u16 a + b) = u16 (a + b).
Proof. unfold u16. apply Zplus_mod_idemp_l. Qed.

Lemma u16_div (x n : Z) : is_u16 x -> 0 < n -> u16 (x / n) = x / n.
Proof.
  intros [Hlo Hhi] Hn. apply u16_small. split.
  - apply Z.div_pos; lia.
  - apply Z.div_lt_upper_bound; nia.
Qed.

(** ** CRC *)

Lemma crc8_shift_range (x : Z) : is_u8 (crc8_shift x).
Proof. unfold crc8_shift. apply u8_range. Qed.

Lemma crc8_shift_ref (x : Z) : is_u8 x -> crc8_shift x = ref_crc8_bit x.
Proof.
  intros Hx. apply Z.eqb_eq.
  apply (u8_cases (fun y => crc8_shift y =? ref_crc8_bit y)); [|exact Hx].
  vm_compute. reflexivity.
Qed.

Lemma update_crc8_range (b crc : Z) : is_u8 (update_crc8 b crc).
Proof. unfold update_crc8. simpl. apply crc8_shift_range. Qed.

Lemma update_crc8_ref (b acc : Z) :
  is_u8 b -> is_u8 acc -> update_crc8 b acc = ref_crc8_byte acc b.
Proof.
  intros Hb Hacc. unfold update_crc8, ref_crc8_byte.
  rewrite (u8_small (Z.lxor b acc)) by (apply lxor_u8; assumption).
  rewrite (Z.lxor_comm b acc).
  assert (H0 : is_u8 (Z.lxor acc b)) by (apply lxor_u8; assumption).
  cbn [Nat.iter nat_rect].
  repeat (rewrite crc8_shift_ref; [|first [exact H0 | apply crc8_shift_range]]).
  reflexivity.
Qed.

Lemma crc8_fold_ref (l : list Z) :
  Forall is_u8 l ->
  forall acc, is_u8 acc ->
  fold_left (fun crc b => update_crc8 b crc) l acc = ref_crc8_from acc l.
Proof.
  induction 1 as [|b l Hb Hl IH]; intros acc Hacc; simpl.
  - reflexivity.
  - rewrite IH by apply update_crc8_range.
    rewrite update_crc8_ref by assumption. reflexivity.
Qed.

Lemma get_crc8_prefix (payload rest : list Z) :
  get_crc8 (payload ++ rest) (Z.of_nat (length payload)) = get_crc8 payload (Z.of_nat (length payload)).
Proof.
  unfold get_crc8. rewrite Nat2Z.id.
  rewrite firstn_app, Nat.sub_diag, firstn_all. simpl. rewrite app_nil_r. reflexivity.
Qed.

Lemma get_crc8_ref (payload : list Z) :
  Forall is_u8 payload ->
  get_crc8 payload (Z.of_nat (length payload)) = ref_crc8 payload.
Proof.
  intros H. unfold get_crc8, ref_crc8. rewrite Nat2Z.id, firstn_all.
  apply crc8_fold_ref; [exact H|]. unfold is_u8. lia.
Qed.

(** ** Writes to the telemetry store *)

Lemma set_escSensorData_same (s : esc_state) :
  set_escSensorData (escSensorData s) s = s.
Proof. destruct s; reflexivity. Qed.

Lemma same_buffer_refl (s : esc_state) : same_buffer s s.
Proof. split; reflexivity. Qed.

Lemma same_buffer_trans (s1 s2 s3 : esc_state) :
  same_buffer s1 s2 -> same_buffer s2 s3 -> same_buffer s1 s3.
Proof. intros [H1 H2] [H3 H4]. split; congruence. Qed.

Lemma write_escSensorData_ok (i : Z) (f : escSensorData_t -> escSensorData_t) (s : esc_state) :
  0 <= i < Z.of_nat (length (escSensorData s)) ->
  exists r, escSensorData s !! Z.to_nat i = Some r /\
    write_escSensorData i f s =
      Done (tt, set_escSensorData (<[Z.to_nat i := f r]> (escSensorData s)) s).
Proof.
  intros Hi. unfold write_escSensorData, array_get, array_set. unfold_m.
  destruct (lookup_lt_is_Some_2 (escSensorData s) (Z.to_nat i)) as [r Hr]; [lia|].
  exists r. split; [exact Hr|].
  replace (i <? 0) with false by lia. rewrite Hr.
  replace (0 <=? i) with true by lia.
  replace (i <? Z.of_nat (length (escSensorData s))) with true by lia.
  reflexivity.
Qed.

Lemma write_escSensorData_cases (i : Z) (f : escSensorData_t -> escSensorData_t)
    (s : esc_state) :
  (exists d, write_escSensorData i f s = Done (tt, set_escSensorData d s)) \/
  write_escSensorData i f s = Fault.
Proof.
  unfold write_escSensorData. unfold_m.
  destruct (array_get (escSensorData s) i) as [r|]; [|right; reflexivity].
  destruct (array_set (escSensorData s) i (f r)) as [d|]; [|right; reflexivity].
  left. exists d. reflexivity.
Qed.

Lemma write_escSensorData_flag (i : Z) (f : escSensorData_t -> escSensorData_t)
    (v : bool) (s : esc_state) :
  write_escSensorData i f (set_tlmFrameDone v s) =
  match write_escSensorData i f s with
  | Done (u, s') => Done (u, set_tlmFrameDone v s')
  | Fault => Fault
  end.
Proof.
  unfold write_escSensorData. unfold_m. simpl.
  destruct (array_get (escSensorData s) i) as [r|]; [|reflexivity].
  destruct (array_set (escSensorData s) i (f r)); reflexivity.
Qed.

Lemma write_escSensorData_buffer (i : Z) (f : escSensorData_t -> escSensorData_t)
    (s s' : esc_state) (u : unit) :
  write_escSensorData i f s = Done (u, s') -> same_buffer s s'.
Proof.
  unfold write_escSensorData. unfold_m.
  destruct (array_get (escSensorData s) i) as [r|]; [|discriminate].
  destruct (array_set (escSensorData s) i (f r)) as [d|]; [|discriminate].
  intros H. injection H as _ <-. split; reflexivity.
Qed.

Ltac step_write :=
  match goal with
  | |- context [write_escSensorData ?i ?f ?st] =>
      let r := fresh "r" in
      let Hr := fresh "Hr" in
      let Hw := fresh "Hw" in
      destruct (write_escSensorData_ok i f st) as (r & Hr & Hw);
      [ | rewrite Hw ]
  end.

(** ** Frame validator *)

Lemma escSensorFrameStatus_no_frame (s : esc_state) :
  tlmFrameDone s = false ->
  escSensorFrameStatus s = Done (ESC_SENSOR_FRAME_PENDING, s).
Proof.
  intros Hdone. unfold escSensorFrameStatus. unfold_m. rewrite Hdone. reflexivity.
Qed.

Lemma escSensorFrameStatus_bad_crc (s : esc_state) :
  tlmFrameDone s = true ->
  get_crc8 (tlm s) (ESC_SENSOR_BUFFSIZE - 1) <> tlm_at s 9 ->
  escSensorFrameStatus s = Done (ESC_SENSOR_FRAME_PENDING, set_tlmFrameDone false s).
Proof.
  intros Hdone Hcrc.
  unfold escSensorFrameStatus. unfold_m. rewrite Hdone. simpl negb. cbv iota.
  change (tlm (set_tlmFrameDone false s)) with (tlm s).
  change (tlm_at (set_tlmFrameDone false s) (Z.to_nat (ESC_SENSOR_BUFFSIZE - 1)))
    with (tlm_at s 9).
  apply Z.eqb_neq in Hcrc. rewrite Hcrc. reflexivity.
Qed.

Lemma escSensorFrameStatus_valid (s : esc_state) :
  tlmFrameDone s = true ->
  get_crc8 (tlm s) (ESC_SENSOR_BUFFSIZE - 1) = tlm_at s 9 ->
  motor_in_store s ->
  escSensorFrameStatus s =
  Done (ESC_SENSOR_FRAME_COMPLETE,
        set_escSensorData (<[Z.to_nat (escSensorMotor s) := decodeFrame s]> (escSensorData s))
          (set_tlmFrameDone false s)).
Proof.
  intros Hdone Hcrc Hmotor.
  unfold escSensorFrameStatus. unfold_m. rewrite Hdone. simpl negb. cbv iota.
  set (s1 := set_tlmFrameDone false s).
  change (tlm s1) with (tlm s).
  change (tlm_at s1 (Z.to_nat (ESC_SENSOR_BUFFSIZE - 1))) with (tlm_at s 9).
  rewrite Hcrc, Z.eqb_refl.
  destruct (write_escSensorData_ok (escSensorMotor s1) (fun _ => decodeFrame s1) s1)
    as (r & _ & Hw); [exact Hmotor|].
  rewrite Hw. reflexivity.
Qed.

Lemma escSensorFrameStatus_buffer (s s' : esc_state) (a : Z) :
  escSensorFrameStatus s = Done (a, s') -> same_buffer s s'.
Proof.
  unfold escSensorFrameStatus. unfold_m.
  destruct (tlmFrameDone s); simpl negb; cbv iota.
  - destruct (_ =? _).
    + destruct (write_escSensorData _ _ _) as [[u1 s1]|] eqn:Hw; [|discriminate].
      intros H. injection H as _ <-.
      apply (write_escSensorData_buffer _ _ _ _ _ Hw).
    + intros H. injection H as _ <-. split; reflexivity.
  - intros H. injection H as _ <-. apply same_buffer_refl.
Qed.

(** C1. For every 9-byte payload held in the frame buffer, the checksum
    the validator computes over bytes 0..8 is the reference CRC-8 of the
    specification, and when byte 9 is that checksum a completed frame is
    accepted: [escSensorFrameStatus] returns [ESC_SENSOR_FRAME_COMPLETE]. *)
Theorem crc8_reference_and_roundtrip (payload : list Z) (b9 : Z) (s : esc_state) :
  length payload = 9%nat ->
  Forall is_u8 payload ->
  tlm s = payload ++ [b9] ->
  get_crc8 (tlm s) (ESC_SENSOR_BUFFSIZE - 1) = ref_crc8 payload /\
  (b9 = get_crc8 payload (ESC_SENSOR_BUFFSIZE - 1) ->
   tlmFrameDone s = true ->
   motor_in_store s ->
   exists s', escSensorFrameStatus s = Done (ESC_SENSOR_FRAME_COMPLETE, s')).
Proof.
  intros Hlen Hbytes Htlm.
  assert (Hn : ESC_SENSOR_BUFFSIZE - 1 = Z.of_nat (length payload))
    by (rewrite Hlen; reflexivity).
  assert (Hcrc : get_crc8 (tlm s) (ESC_SENSOR_BUFFSIZE - 1) = ref_crc8 payload).
  { rewrite Htlm, Hn, get_crc8_prefix. apply get_crc8_ref, Hbytes. }
  split; [exact Hcrc|].
  intros Hb9 Hdone Hmotor. eexists.
  apply escSensorFrameStatus_valid; [exact Hdone | | exact Hmotor].
  rewrite Hcrc. unfold tlm_at. rewrite Htlm, Hb9, Hn.
  replace 9%nat with (length payload) by exact Hlen.
  rewrite app_nth2 by lia. rewrite Nat.sub_diag. simpl nth.
  symmetry. apply get_crc8_ref, Hbytes.
Qed.

Lemma crc8_reference_and_roundtrip_witness :
  get_crc8 [25; 6; 64; 0; 200; 1; 44; 0; 120; 148] 9 =
    ref_crc8 [25; 6; 64; 0; 200; 1; 44; 0; 120] /\
  exists s', escSensorFrameStatus
               (pending_frame_state [25; 6; 64; 0; 200; 1; 44; 0; 120; 148]) =
             Done (ESC_SENSOR_FRAME_COMPLETE, s').
Proof.
  destruct (crc8_reference_and_roundtrip [25; 6; 64; 0; 200; 1; 44; 0; 120] 148
              (pending_frame_state [25; 6; 64; 0; 200; 1; 44; 0; 120; 148]))
    as [Hcrc Hround].
  - reflexivity.
  - repeat constructor; unfold is_u8; lia.
  - reflexivity.
  - split; [exact Hcrc|]. apply Hround.
    + vm_compute. reflexivity.
    + reflexivity.
    + unfold motor_in_store. simpl. lia.
Defined.

(** ** Frame assembler *)

(** One call of the receive callback, from a state whose cursor is in
    range. *)
Lemma escSensorDataReceive_cursor (c : Z) (s : esc_state) :
  cursor_ok s ->
  exists s',
    escSensorDataReceive c s = Done (tt, s') /\
    cursor_ok s' /\
    (escSensorTriggerState s = ESC_SENSOR_TRIGGER_WAIT -> s' = s) /\
    (escSensorTriggerState s <> ESC_SENSOR_TRIGGER_WAIT ->
     tlm s' = <[Z.to_nat (tlmFramePosition s) := u8 c]> (tlm s) /\
     (Z.to_nat (tlmFramePosition s) < length (tlm s))%nat /\
     (tlmFramePosition s = 9 ->
      tlmFrameDone s' = true /\ tlmFramePosition s' = 0) /\
     (tlmFramePosition s <> 9 ->
      tlmFrameDone s' = tlmFrameDone s /\
      tlmFramePosition s' = tlmFramePosition s + 1)).
Proof.
  intros [Hpos Hlen].
  assert (Hset : array_set (tlm s) (tlmFramePosition s) (u8 c) =
                 Some (<[Z.to_nat (tlmFramePosition s) := u8 c]> (tlm s))).
  { assert (H1 : (0 <=? tlmFramePosition s) = true) by (apply Z.leb_le; lia).
    assert (H2 : (tlmFramePosition s <? Z.of_nat (length (tlm s))) = true)
      by (apply Z.ltb_lt; lia).
    unfold array_set. rewrite H1, H2. reflexivity. }
  assert (Hu8 : u8 (tlmFramePosition s + 1) = tlmFramePosition s + 1)
    by (apply u8_small; unfold is_u8; lia).
  assert (Hgo : escSensorTriggerState s <> ESC_SENSOR_TRIGGER_WAIT ->
    exists s', escSensorDataReceive c s = Done (tt, s') /\
      tlm s' = <[Z.to_nat (tlmFramePosition s) := u8 c]> (tlm s) /\
      (tlmFramePosition s = 9 -> tlmFrameDone s' = true /\ tlmFramePosition s' = 0) /\
      (tlmFramePosition s <> 9 ->
       tlmFrameDone s' = tlmFrameDone s /\ tlmFramePosition s' = tlmFramePosition s + 1)).
  { intros Hst.
    destruct (Z.eq_dec (tlmFramePosition s) 9) as [E | E].
    - exists (set_tlmFramePosition 0 (set_tlmFrameDone true
                (set_tlm (<[Z.to_nat (tlmFramePosition s) := u8 c]> (tlm s)) s))).
      split; [|simpl; tauto].
      unfold escSensorDataReceive. unfold_m. rewrite Hset.
      destruct (escSensorTriggerState s); [congruence| |]; simpl;
        change (ESC_SENSOR_BUFFSIZE - 1) with 9; rewrite E; reflexivity.
    - exists (set_tlmFramePosition (tlmFramePosition s + 1)
                (set_tlm (<[Z.to_nat (tlmFramePosition s) := u8 c]> (tlm s)) s)).
      split; [|simpl; tauto].
      apply Z.eqb_neq in E.
      unfold escSensorDataReceive. unfold_m. rewrite Hset.
      destruct (escSensorTriggerState s); [congruence| |]; simpl;
        change (ESC_SENSOR_BUFFSIZE - 1) with 9; rewrite E, Hu8; reflexivity. }
  destruct (escSensorTriggerState s) eqn:Hst.
  - exists s. split.
    + unfold escSensorDataReceive. unfold_m. rewrite Hst. reflexivity.
    + split; [split; [exact Hpos | exact Hlen]|].
      split; [reflexivity|]. intros Hne. congruence.
  - destruct Hgo as (s' & Hrun & Htlm & Hlast & Hnext); [discriminate|].
    exists s'. split; [exact Hrun|]. split.
    + split; [|rewrite Htlm, length_insert; exact Hlen].
      destruct (Z.eq_dec (tlmFramePosition s) 9) as [E|E];
        [destruct (Hlast E) | destruct (Hnext E)]; lia.
    + split; [discriminate|]. intros _.
      split; [exact Htlm|]. split; [lia|]. split; assumption.
  - destruct Hgo as (s' & Hrun & Htlm & Hlast & Hnext); [discriminate|].
    exists s'. split; [exact Hrun|]. split.
    + split; [|rewrite Htlm, length_insert; exact Hlen].
      destruct (Z.eq_dec (tlmFramePosition s) 9) as [E|E];
        [destruct (Hlast E) | destruct (Hnext E)]; lia.
    + split; [discriminate|]. intros _.
      split; [exact Htlm|]. split; [lia|]. split; assumption.
Qed.

(** ** Store reset *)

(** The reset loop, started at a non-negative index, ends without fault
    and marks stale exactly the entries from that index on. *)
Lemma resetEscSensorData_loop_ok (n : nat) :
  forall (i : Z) (s : esc_state),
  0 <= i ->
  i + Z.of_nat n <= Z.of_nat (length (escSensorData s)) ->
  exists d',
    resetEscSensorData_loop n i s = Done (tt, set_escSensorData d' s) /\
    length d' = length (escSensorData s) /\
    forall (k : nat) (r : escSensorData_t),
      escSensorData s !! k = Some r ->
      d' !! k = Some (if (i <=? Z.of_nat k) && (Z.of_nat k <? i + Z.of_nat n)
                      then set_stale true r else r).
Proof.
  induction n as [|n IH]; intros i s Hi Hlen.
  - exists (escSensorData s). simpl. unfold ret.
    rewrite set_escSensorData_same. split; [reflexivity|]. split; [reflexivity|].
    intros k r Hk. rewrite Hk. f_equal.
    destruct (i <=? Z.of_nat k) eqn:E1; [|reflexivity].
    destruct (Z.of_nat k <? i + Z.of_nat 0) eqn:E2; [|reflexivity].
    exfalso. apply Z.leb_le in E1. apply Z.ltb_lt in E2. lia.
  - destruct (write_escSensorData_ok i (set_stale true) s) as (r0 & Hr0 & Hw); [lia|].
    cbn [resetEscSensorData_loop]. unfold bind at 1. rewrite Hw.
    set (s1 := set_escSensorData (<[Z.to_nat i := set_stale true r0]> (escSensorData s)) s).
    destruct (IH (i + 1) s1) as (d' & Hrun & Hlen' & Hpt).
    { lia. }
    { unfold s1. simpl. rewrite length_insert. lia. }
    exists d'. split; [rewrite Hrun; reflexivity|].
    split; [rewrite Hlen'; unfold s1; simpl; apply length_insert|].
    intros k r Hk.
    destruct (Nat.eq_dec k (Z.to_nat i)) as [-> | Hne].
    + assert (Hr : r = r0) by congruence. subst r.
      rewrite (Hpt (Z.to_nat i) (set_stale true r0)).
      * replace (i + 1 <=? Z.of_nat (Z.to_nat i)) with false
          by (symmetry; apply Z.leb_gt; lia).
        replace (i <=? Z.of_nat (Z.to_nat i)) with true
          by (symmetry; apply Z.leb_le; lia).
        replace (Z.of_nat (Z.to_nat i) <? i + Z.of_nat (S n)) with true
          by (symmetry; apply Z.ltb_lt; lia).
        reflexivity.
      * unfold s1. simpl. apply list_lookup_insert_eq.
        apply lookup_lt_is_Some_1. eauto.
    + rewrite (Hpt k r).
      * f_equal.
        destruct (i <=? Z.of_nat k) eqn:E1; destruct (i + 1 <=? Z.of_nat k) eqn:E2;
          destruct (Z.of_nat k <? i + Z.of_nat (S n)) eqn:E3;
          destruct (Z.of_nat k <? i + 1 + Z.of_nat n) eqn:E4; try reflexivity; exfalso;
          rewrite ?Z.leb_le, ?Z.leb_gt, ?Z.ltb_lt, ?Z.ltb_ge in *; lia.
      * unfold s1. simpl. rewrite list_lookup_insert_ne by congruence. exact Hk.
Qed.

(** The same with the loop bound and the start index of
    [resetEscSensorData]: a start at or above the bound leaves the store
    as it is. *)
Lemma resetEscSensorData_ok (MAX_SUPPORTED_MOTORS : Z) (e : env) (s : esc_state) :
  0 <= uninit_i e ->
  MAX_SUPPORTED_MOTORS <= Z.of_nat (length (escSensorData s)) ->
  exists d',
    resetEscSensorData MAX_SUPPORTED_MOTORS e s = Done (tt, set_escSensorData d' s) /\
    length d' = length (escSensorData s) /\
    forall (k : nat) (r : escSensorData_t),
      escSensorData s !! k = Some r ->
      d' !! k = Some (if (uninit_i e <=? Z.of_nat k) && (Z.of_nat k <? MAX_SUPPORTED_MOTORS)
                      then set_stale true r else r).
Proof.
  intros Hi Hmax. unfold resetEscSensorData.
  destruct (Z_le_gt_dec MAX_SUPPORTED_MOTORS (uninit_i e)) as [Hge | Hlt].
  - replace (Z.to_nat (MAX_SUPPORTED_MOTORS - uninit_i e)) with 0%nat by lia.
    exists (escSensorData s). simpl. unfold ret. rewrite set_escSensorData_same.
    split; [reflexivity|]. split; [reflexivity|].
    intros k r Hk. rewrite Hk. f_equal.
    destruct (uninit_i e <=? Z.of_nat k) eqn:E1; [|reflexivity].
    destruct (Z.of_nat k <? MAX_SUPPORTED_MOTORS) eqn:E2; [|reflexivity].
    exfalso. apply Z.leb_le in E1. apply Z.ltb_lt in E2. lia.
  - destruct (resetEscSensorData_loop_ok
                (Z.to_nat (MAX_SUPPORTED_MOTORS - uninit_i e)) (uninit_i e) s)
      as (d' & Hrun & Hlen & Hpt); [lia | lia |].
    exists d'. split; [exact Hrun|]. split; [exact Hlen|].
    intros k r Hk. rewrite (Hpt k r Hk).
    replace (uninit_i e + Z.of_nat (Z.to_nat (MAX_SUPPORTED_MOTORS - uninit_i e)))
      with MAX_SUPPORTED_MOTORS by lia.
    reflexivity.
Qed.

(** Had the loop variable of [resetEscSensorData] started at 0, every
    entry of the store would be stale afterwards. *)
Lemma resetEscSensorData_from_zero (MAX_SUPPORTED_MOTORS : Z) (e : env) (s : esc_state) :
  uninit_i e = 0 ->
  Z.of_nat (length (escSensorData s)) = MAX_SUPPORTED_MOTORS ->
  exists s',
    resetEscSensorData MAX_SUPPORTED_MOTORS e s = Done (tt, s') /\
    Forall (fun r => stale r = true) (escSensorData s').
Proof.
  intros Hi Hlen.
  destruct (resetEscSensorData_ok MAX_SUPPORTED_MOTORS e s) as (d' & Hrun & Hlen' & Hpt);
    [lia | lia |].
  eexists. split; [exact Hrun|]. simpl.
  apply Forall_lookup. intros k r' Hk.
  assert (Hlt : (k < length (escSensorData s))%nat).
  { rewrite <- Hlen'. apply lookup_lt_is_Some_1. eauto. }
  destruct (lookup_lt_is_Some_2 (escSensorData s) k Hlt) as [r Hr].
  rewrite (Hpt k r Hr) in Hk. injection Hk as <-.
  assert (E1 : (uninit_i e <=? Z.of_nat k) = true) by (apply Z.leb_le; lia).
  assert (E2 : (Z.of_nat k <? MAX_SUPPORTED_MOTORS) = true) by (apply Z.ltb_lt; lia).
  rewrite E1, E2. reflexivity.
Qed.

Lemma resetEscSensorData_loop_buffer (n : nat) :
  forall (i : Z) (s s' : esc_state) (u : unit),
  resetEscSensorData_loop n i s = Done (u, s') -> same_buffer s s'.
Proof.
  induction n as [|n IH]; intros i s s' u H.
  - injection H as _ <-. apply same_buffer_refl.
  - cbn [resetEscSensorData_loop] in H. unfold bind in H.
    destruct (write_escSensorData i (set_stale true) s) as [[u1 s1]|] eqn:Hw; [|discriminate].
    apply same_buffer_trans with s1.
    + exact (write_escSensorData_buffer _ _ _ _ _ Hw).
    + exact (IH _ _ _ _ H).
Qed.

Ltac step_reset Hi :=
  match goal with
  | |- context [resetEscSensorData ?m ?e ?st] =>
      let d' := fresh "d'" in
      let Hreset := fresh "Hreset" in
      let Hlen := fresh "Hlen" in
      let Hpt := fresh "Hpt" in
      destruct (resetEscSensorData_ok m e st Hi) as (d' & Hreset & Hlen & Hpt);
      [ | rewrite Hreset ]
  end.

(** ** Scheduler *)

Lemma selectNextMotor_run (e : env) (s : esc_state) :
  selectNextMotor e s =
  Done (tt, set_escTriggerTimestamp (millis e) (set_timeoutRetryCount 0
              (set_escSensorMotor
                 (if u8 (escSensorMotor s + 1) =? getMotorCount e
                  then 0 else u8 (escSensorMotor s + 1)) s))).
Proof.
  unfold selectNextMotor. unfold_m. simpl.
  destruct (u8 (escSensorMotor s + 1) =? getMotorCount e); reflexivity.
Qed.

(** A motor advance from a target at or above the motor count moves one
    further up instead of back into range. *)
Lemma selectNextMotor_above_count (e : env) (s : esc_state) :
  getMotorCount e <= escSensorMotor s < 255 ->
  0 <= escSensorMotor s ->
  exists s',
    selectNextMotor e s = Done (tt, s') /\
    escSensorMotor s' = escSensorMotor s + 1.
Proof.
  intros Hm H0. rewrite selectNextMotor_run. eexists. split; [reflexivity|].
  simpl. rewrite u8_small by (unfold is_u8; lia).
  replace (escSensorMotor s + 1 =? getMotorCount e) with false
    by (symmetry; apply Z.eqb_neq; lia).
  reflexivity.
Qed.

(** A tick time is a 32-bit count of microseconds, so adding the
    link-failure window to its millisecond value does not wrap. *)
Lemma link_window_no_wrap (t : Z) :
  is_u32 t -> (u32 (t / 1000 + 10000) <? t / 1000) = false.
Proof.
  intros Ht. apply Z.ltb_ge. unfold u32, is_u32 in *.
  Z.to_euclidean_division_equations. lia.
Qed.

(** Once the enabled flag is cleared a tick changes nothing. *)
Lemma escSensorProcess_disabled (MAX_SUPPORTED_MOTORS : Z) (e : env) (t : Z) (s : esc_state) :
  escSensorEnabled s = false ->
  escSensorProcess MAX_SUPPORTED_MOTORS e t s = Done (tt, s).
Proof.
  intros Hen. unfold escSensorProcess. unfold_m. rewrite Hen. reflexivity.
Qed.

Section Scheduler.

Variable MAX_SUPPORTED_MOTORS : Z.

(** C8. With the subsystem enabled and the scheduler in WAIT: a tick
    before the boot-settle delay of 5000 ms changes nothing (no request,
    still WAIT); the first tick at or after it selects motor 0, moves to
    READY, sets both timestamps to the tick time and issues no request;
    the tick after that raises the telemetry request of motor 0 and moves
    to PENDING. *)
Theorem boot_settle_then_first_request (e1 e2 : env) (t1 t2 : Z) (s : esc_state) :
  is_u32 t1 ->
  escSensorEnabled s = true ->
  escSensorTriggerState s = ESC_SENSOR_TRIGGER_WAIT ->
  (t1 / 1000 < ESC_BOOTTIME ->
   escSensorProcess MAX_SUPPORTED_MOTORS e1 t1 s = Done (tt, s)) /\
  (ESC_BOOTTIME <= t1 / 1000 ->
   exists s1,
     escSensorProcess MAX_SUPPORTED_MOTORS e1 t1 s = Done (tt, s1) /\
     escSensorTriggerState s1 = ESC_SENSOR_TRIGGER_READY /\
     escSensorMotor s1 = 0 /\
     escTriggerTimestamp s1 = t1 / 1000 /\
     escLastResponseTimestamp s1 = t1 / 1000 /\
     telemetryRequests s1 = telemetryRequests s /\
     escSensorEnabled s1 = true /\
     (t1 <= t2 ->
      teardown_in_bounds MAX_SUPPORTED_MOTORS e2 t2 s1 ->
      exists s2,
        escSensorProcess MAX_SUPPORTED_MOTORS e2 t2 s1 = Done (tt, s2) /\
        telemetryRequests s2 = 0 :: telemetryRequests s /\
        escSensorTriggerState s2 = ESC_SENSOR_TRIGGER_PENDING)).
Proof.
  intros Ht Hen Hst. split.
  - intros Hearly. apply Z.ltb_lt in Hearly.
    unfold escSensorProcess. unfold_m. rewrite Hen, Hearly. reflexivity.
  - intros Hboot.
    assert (Hb : (t1 / 1000 <? ESC_BOOTTIME) = false) by (apply Z.ltb_ge; lia).
    pose proof (link_window_no_wrap t1 Ht) as Hlink.
    set (s1 := set_escLastResponseTimestamp (t1 / 1000)
                 (set_escTriggerTimestamp (t1 / 1000)
                    (set_escSensorMotor 0
                       (set_escSensorTriggerState ESC_SENSOR_TRIGGER_READY s)))).
    exists s1.
    split.
    { unfold escSensorProcess. unfold_m. rewrite Hen, Hb, Hst. simpl.
      rewrite Hlink. reflexivity. }
    repeat (split; [reflexivity|]).
    split; [exact Hen|].
    intros Hmono [Hmax Hsafe].
    assert (Hb2 : (t2 / 1000 <? ESC_BOOTTIME) = false).
    { apply Z.ltb_ge. apply Z.le_trans with (t1 / 1000); [exact Hboot|].
      apply Z.div_le_mono; lia. }
    set (s2 := set_escSensorTriggerState ESC_SENSOR_TRIGGER_PENDING
                 (set_telemetryRequests (0 :: telemetryRequests s) s1)).
    assert (Hrun : escSensorProcess MAX_SUPPORTED_MOTORS e2 t2 s1 =
      if u32 (escLastResponseTimestamp s1 + 10000) <? t2 / 1000
      then resetEscSensorData MAX_SUPPORTED_MOTORS e2
             (set_escSensorEnabled false (set_escSensorPort None s2))
      else Done (tt, s2)).
    { unfold escSensorProcess, requestTelemetry. unfold_m.
      change (escSensorEnabled s1) with (escSensorEnabled s). rewrite Hen, Hb2.
      simpl. destruct (u32 (t1 / 1000 + 10000) <? t2 / 1000); reflexivity. }
    rewrite Hrun.
    destruct (u32 (escLastResponseTimestamp s1 + 10000) <? t2 / 1000) eqn:Elink.
    + destruct Hsafe as [Hno | Hi]; [congruence|].
      destruct (resetEscSensorData_ok MAX_SUPPORTED_MOTORS e2
                  (set_escSensorEnabled false (set_escSensorPort None s2)) Hi)
        as (d' & Hreset & _); [exact Hmax|].
      rewrite Hreset. eexists. split; [reflexivity|]. split; reflexivity.
    + exists s2. split; [reflexivity|]. split; reflexivity.
Qed.

(** C4. With the subsystem enabled, the scheduler in PENDING, no frame
    received and the request timeout elapsed, a tick returns the scheduler
    to READY. While the incremented timeout counter is not 4, the counter
    is one higher and the same motor stays targeted; when it reaches 4, the
    reading of the targeted motor is marked stale, the next motor is
    targeted (round-robin, back to 0 after the last motor) and the counter
    is reset to 0. *)
Theorem timeout_retries_then_skips_motor (e : env) (t : Z) (s : esc_state) :
  escSensorEnabled s = true ->
  escSensorTriggerState s = ESC_SENSOR_TRIGGER_PENDING ->
  ESC_BOOTTIME <= t / 1000 ->
  tlmFrameDone s = false ->
  u32 (escTriggerTimestamp s + ESC_REQUEST_TIMEOUT) < t / 1000 ->
  0 <= timeoutRetryCount s < 255 ->
  is_u8 (getMotorCount e) ->
  0 <= escSensorMotor s < getMotorCount e ->
  motor_in_store s ->
  teardown_in_bounds MAX_SUPPORTED_MOTORS e t s ->
  exists s',
    escSensorProcess MAX_SUPPORTED_MOTORS e t s = Done (tt, s') /\
    escSensorTriggerState s' = ESC_SENSOR_TRIGGER_READY /\
    (timeoutRetryCount s + 1 <> 4 ->
     timeoutRetryCount s' = timeoutRetryCount s + 1 /\
     escSensorMotor s' = escSensorMotor s) /\
    (timeoutRetryCount s + 1 = 4 ->
     (exists r, escSensorData s' !! Z.to_nat (escSensorMotor s) = Some r /\
                stale r = true) /\
     escSensorMotor s' = (escSensorMotor s + 1) mod getMotorCount e /\
     timeoutRetryCount s' = 0).
Proof.
  intros Hen Hst Hboot Hdone Hto Hcnt Hmc Hmotor Hstore [Hmax Hsafe].
  assert (Hb : (t / 1000 <? ESC_BOOTTIME) = false) by (apply Z.ltb_ge; lia).
  apply Z.ltb_lt in Hto.
  assert (Hu : u8 (timeoutRetryCount s + 1) = timeoutRetryCount s + 1)
    by (apply u8_small; unfold is_u8; lia).
  assert (Hum : u8 (escSensorMotor s + 1) = escSensorMotor s + 1)
    by (apply u8_small; unfold is_u8 in *; lia).
  assert (Hnext : (if escSensorMotor s + 1 =? getMotorCount e
                   then 0 else escSensorMotor s + 1) =
                  (escSensorMotor s + 1) mod getMotorCount e).
  { destruct (escSensorMotor s + 1 =? getMotorCount e) eqn:E.
    - apply Z.eqb_eq in E. rewrite E. symmetry. apply Z_mod_same_full.
    - apply Z.eqb_neq in E. symmetry. apply Z.mod_small. lia. }
  unfold escSensorProcess. unfold_m. rewrite Hen, Hb, Hst. simpl.
  rewrite Hto. simpl. rewrite Hu.
  destruct (Z.eq_dec (timeoutRetryCount s + 1) 4) as [H4 | H4].
  - assert (H4b : (timeoutRetryCount s + 1 =? 4) = true) by (apply Z.eqb_eq; exact H4).
    rewrite H4b. step_write; [exact Hstore|]. simpl in Hr.
    rewrite selectNextMotor_run. simpl. rewrite Hum, Hnext.
    rewrite DEBUG_SET_pre_increment. simpl.
    rewrite escSensorFrameStatus_no_frame by exact Hdone. simpl.
    destruct (u32 (escLastResponseTimestamp s + 10000) <? t / 1000) eqn:Elink.
    + destruct Hsafe as [Hno | Hi]; [congruence|].
      step_reset Hi; [simpl; rewrite length_insert; exact Hmax|].
      eexists. split; [reflexivity|]. split; [reflexivity|].
      split; [intros Hne; contradiction|]. intros _.
      split; [|split; reflexivity].
      simpl. eexists. split.
      * apply Hpt. simpl. apply list_lookup_insert_eq.
        apply lookup_lt_is_Some_1. eauto.
      * destruct (_ && _); reflexivity.
    + eexists. split; [reflexivity|]. split; [reflexivity|].
      split; [intros Hne; contradiction|]. intros _.
      split; [|split; reflexivity].
      simpl. eexists. split.
      * apply list_lookup_insert_eq. apply lookup_lt_is_Some_1. eauto.
      * reflexivity.
  - assert (H4b : (timeoutRetryCount s + 1 =? 4) = false) by (apply Z.eqb_neq; exact H4).
    rewrite H4b. simpl. rewrite DEBUG_SET_pre_increment. simpl.
    rewrite escSensorFrameStatus_no_frame by exact Hdone. simpl.
    destruct (u32 (escLastResponseTimestamp s + 10000) <? t / 1000) eqn:Elink.
    + destruct Hsafe as [Hno | Hi]; [congruence|].
      step_reset Hi; [exact Hmax|].
      eexists. split; [reflexivity|]. split; [reflexivity|].
      split; [intros _; split; reflexivity | intros Heq; contradiction].
    + eexists. split; [reflexivity|]. split; [reflexivity|].
      split; [intros _; split; reflexivity | intros Heq; contradiction].
Qed.

(** Below the retry ceiling the order of the two checks is not seen in
    the store. In PENDING, on a tick where the request timeout has elapsed
    and a complete valid frame is available, the timeout bookkeeping runs
    first and the frame check second; when the incremented timeout counter
    is not 4, the decoded reading is stored, non-stale, for the motor that
    was targeted, the next motor is targeted in READY with the per-motor
    timeout counter at 0, and the last-response time is the tick time.
    [totalRetryCount] is incremented in the debug mode of the ESC sensor
    only. *)
Lemma late_frame_below_retry_ceiling (e : env) (t : Z) (s : esc_state) :
  is_u32 t ->
  escSensorEnabled s = true ->
  escSensorTriggerState s = ESC_SENSOR_TRIGGER_PENDING ->
  ESC_BOOTTIME <= t / 1000 ->
  u32 (escTriggerTimestamp s + ESC_REQUEST_TIMEOUT) < t / 1000 ->
  tlmFrameDone s = true ->
  get_crc8 (tlm s) (ESC_SENSOR_BUFFSIZE - 1) = tlm_at s 9 ->
  0 <= timeoutRetryCount s < 255 ->
  timeoutRetryCount s + 1 <> 4 ->
  motor_in_store s ->
  exists s',
    escSensorProcess MAX_SUPPORTED_MOTORS e t s = Done (tt, s') /\
    escSensorData s' =
      <[Z.to_nat (escSensorMotor s) := decodeFrame s]> (escSensorData s) /\
    stale (decodeFrame s) = false /\
    escSensorMotor s' = (if u8 (escSensorMotor s + 1) =? getMotorCount e
                         then 0 else u8 (escSensorMotor s + 1)) /\
    timeoutRetryCount s' = 0 /\
    totalRetryCount s' = (if debugModeEscSensor e then u8 (totalRetryCount s + 1)
                          else totalRetryCount s) /\
    escSensorTriggerState s' = ESC_SENSOR_TRIGGER_READY /\
    escLastResponseTimestamp s' = t / 1000 /\
    escSensorEnabled s' = true /\
    tlmFrameDone s' = false.
Proof.
  intros Ht Hen Hst Hboot Hto Hdone Hcrc Hcnt H4 Hstore.
  assert (Hb : (t / 1000 <? ESC_BOOTTIME) = false) by (apply Z.ltb_ge; lia).
  apply Z.ltb_lt in Hto.
  assert (Hu : u8 (timeoutRetryCount s + 1) = timeoutRetryCount s + 1)
    by (apply u8_small; unfold is_u8; lia).
  assert (H4b : (timeoutRetryCount s + 1 =? 4) = false) by (apply Z.eqb_neq; exact H4).
  pose proof (link_window_no_wrap t Ht) as Hlink.
  unfold escSensorProcess. unfold_m. rewrite Hen, Hb, Hst. simpl.
  rewrite Hto. simpl. rewrite Hu, H4b. simpl.
  rewrite DEBUG_SET_pre_increment. simpl.
  rewrite escSensorFrameStatus_valid; [|exact Hdone | exact Hcrc | exact Hstore].
  simpl. rewrite selectNextMotor_run. simpl. rewrite Hlink.
  eexists. split; [reflexivity|]. simpl.
  repeat (split; [reflexivity|]). split; [exact Hen | reflexivity].
Qed.

(** C2, where the code departs from it. In PENDING, on a tick where the
    request timeout has elapsed and a complete valid frame is available,
    the timeout bookkeeping runs before the frame check. When this timeout
    is the fourth in a row for the targeted motor, the bookkeeping marks
    the reading of that motor stale and moves on to the next motor before
    the frame is looked at. The targeted motor is abandoned: its entry
    keeps the old measurements [r], now marked stale, and the decoded frame
    is stored as the fresh reading of the next motor, which has not been
    asked; the scheduler then moves on once more, to the motor after
    that. *)
Theorem late_frame_at_retry_ceiling_is_misfiled (e : env) (t : Z) (s : esc_state)
    (r : escSensorData_t) :
  is_u32 t ->
  escSensorEnabled s = true ->
  escSensorTriggerState s = ESC_SENSOR_TRIGGER_PENDING ->
  ESC_BOOTTIME <= t / 1000 ->
  u32 (escTriggerTimestamp s + ESC_REQUEST_TIMEOUT) < t / 1000 ->
  tlmFrameDone s = true ->
  get_crc8 (tlm s) (ESC_SENSOR_BUFFSIZE - 1) = tlm_at s 9 ->
  timeoutRetryCount s = 3 ->
  is_u8 (getMotorCount e) ->
  1 < getMotorCount e ->
  0 <= escSensorMotor s < getMotorCount e ->
  getMotorCount e <= Z.of_nat (length (escSensorData s)) ->
  escSensorData s !! Z.to_nat (escSensorMotor s) = Some r ->
  exists s',
    escSensorProcess MAX_SUPPORTED_MOTORS e t s = Done (tt, s') /\
    (escSensorMotor s + 1) mod getMotorCount e <> escSensorMotor s /\
    escSensorData s' =
      <[Z.to_nat ((escSensorMotor s + 1) mod getMotorCount e) := decodeFrame s]>
        (<[Z.to_nat (escSensorMotor s) := set_stale true r]> (escSensorData s)) /\
    escSensorData s' !! Z.to_nat (escSensorMotor s) = Some (set_stale true r) /\
    escSensorData s' !! Z.to_nat ((escSensorMotor s + 1) mod getMotorCount e) =
      Some (decodeFrame s) /\
    stale (decodeFrame s) = false /\
    escSensorMotor s' = (escSensorMotor s + 2) mod getMotorCount e /\
    timeoutRetryCount s' = 0 /\
    escSensorTriggerState s' = ESC_SENSOR_TRIGGER_READY /\
    escLastResponseTimestamp s' = t / 1000 /\
    escSensorEnabled s' = true /\
    tlmFrameDone s' = false.
Proof.
  intros Ht Hen Hst Hboot Hto Hdone Hcrc Hcnt Hmc Hmany Hmotor Hlen Hr.
  assert (Hb : (t / 1000 <? ESC_BOOTTIME) = false) by (apply Z.ltb_ge; lia).
  apply Z.ltb_lt in Hto.
  pose proof (link_window_no_wrap t Ht) as Hlink.
  assert (Hnext : forall m, 0 <= m < getMotorCount e ->
            u8 (m + 1) = m + 1 /\
            (if m + 1 =? getMotorCount e then 0 else m + 1) =
              (m + 1) mod getMotorCount e /\
            0 <= (m + 1) mod getMotorCount e < getMotorCount e).
  { intros m Hm. split; [apply u8_small; unfold is_u8 in *; lia|].
    destruct (m + 1 =? getMotorCount e) eqn:E.
    - apply Z.eqb_eq in E. rewrite E, Z_mod_same_full. split; [reflexivity | lia].
    - apply Z.eqb_neq in E. rewrite Z.mod_small by lia. split; [reflexivity | lia]. }
  destruct (Hnext _ Hmotor) as (Hu1 & Hn1 & Hr1).
  destruct (Hnext _ Hr1) as (Hu2 & Hn2 & _).
  assert (Hne : (escSensorMotor s + 1) mod getMotorCount e <> escSensorMotor s).
  { rewrite <- Hn1. destruct (escSensorMotor s + 1 =? getMotorCount e) eqn:E; [|lia].
    apply Z.eqb_eq in E. lia. }
  assert (Htwo : ((escSensorMotor s + 1) mod getMotorCount e + 1) mod getMotorCount e =
                 (escSensorMotor s + 2) mod getMotorCount e).
  { rewrite Z.add_mod_idemp_l by lia. f_equal. lia. }
  assert (Hstore : motor_in_store s) by (unfold motor_in_store; lia).
  unfold escSensorProcess. unfold_m. rewrite Hen, Hb, Hst. simpl.
  rewrite Hto. simpl. rewrite Hcnt.
  change (u8 (3 + 1) =? 4) with true. simpl.
  step_write; [exact Hstore|]. simpl in Hr0.
  assert (r0 = r) by congruence. subst r0.
  rewrite selectNextMotor_run. simpl. rewrite Hu1, Hn1.
  rewrite DEBUG_SET_pre_increment. simpl.
  rewrite escSensorFrameStatus_valid;
    [|exact Hdone | exact Hcrc |
      unfold motor_in_store; simpl; rewrite length_insert; lia].
  simpl. rewrite selectNextMotor_run. simpl. rewrite Hu2, Hn2, Htwo, Hlink.
  eexists. split; [reflexivity|]. simpl.
  split; [exact Hne|]. split; [reflexivity|]. split.
  { rewrite list_lookup_insert_ne by lia.
    apply list_lookup_insert_eq. apply lookup_lt_is_Some_1. eauto. }
  split.
  { apply list_lookup_insert_eq. rewrite length_insert. lia. }
  repeat (split; [reflexivity|]). split; [exact Hen | reflexivity].
Qed.

End Scheduler.

(** *** Corrupt frames *)

(** In PENDING, a tick that finds a complete frame with a wrong checksum
    ends exactly as the same tick would with no frame at all. *)
Lemma bad_frame_tick_as_no_frame (MAX_SUPPORTED_MOTORS : Z) (e : env) (t : Z) (s : esc_state) :
  escSensorEnabled s = true ->
  ESC_BOOTTIME <= t / 1000 ->
  escSensorTriggerState s = ESC_SENSOR_TRIGGER_PENDING ->
  tlmFrameDone s = true ->
  get_crc8 (tlm s) (ESC_SENSOR_BUFFSIZE - 1) <> tlm_at s 9 ->
  escSensorProcess MAX_SUPPORTED_MOTORS e t s =
  escSensorProcess MAX_SUPPORTED_MOTORS e t (set_tlmFrameDone false s).
Proof.
  intros Hen Hboot Hst Hdone Hcrc.
  assert (Hb : (t / 1000 <? ESC_BOOTTIME) = false) by (apply Z.ltb_ge; lia).
  destruct s as [done buf pos port d trig last cnt tot m en st reqs].
  simpl in Hen, Hst, Hdone. subst en st done.
  unfold escSensorProcess. unfold_m. simpl. rewrite Hb. simpl.
  destruct (u32 (trig + ESC_REQUEST_TIMEOUT) <? t / 1000); simpl.
  - destruct (u8 (cnt + 1) =? 4); simpl.
    + match goal with
      | |- context [write_escSensorData ?i ?f
                      (set_escSensorTriggerState ?a (set_escTriggerTimestamp ?b
                         (set_timeoutRetryCount ?c (set_tlmFrameDone false ?st))))] =>
          change (set_escSensorTriggerState a (set_escTriggerTimestamp b
                    (set_timeoutRetryCount c (set_tlmFrameDone false st))))
            with (set_tlmFrameDone false (set_escSensorTriggerState a
                    (set_escTriggerTimestamp b (set_timeoutRetryCount c st))))
      end.
      rewrite write_escSensorData_flag.
      match goal with
      | |- context [write_escSensorData ?i ?f ?st] =>
          destruct (write_escSensorData_cases i f st) as [[d1 Hw] | Hw]; rewrite Hw
      end; [|reflexivity].
      rewrite !selectNextMotor_run. simpl.
      rewrite !DEBUG_SET_pre_increment. simpl.
      rewrite escSensorFrameStatus_bad_crc; [|reflexivity | exact Hcrc].
      rewrite ?escSensorFrameStatus_no_frame by reflexivity.
      simpl. reflexivity.
    + rewrite !DEBUG_SET_pre_increment. simpl.
      rewrite escSensorFrameStatus_bad_crc; [|reflexivity | exact Hcrc].
      rewrite ?escSensorFrameStatus_no_frame by reflexivity.
      simpl. reflexivity.
  - rewrite escSensorFrameStatus_bad_crc; [|reflexivity | exact Hcrc].
    rewrite ?escSensorFrameStatus_no_frame by reflexivity.
    simpl. reflexivity.
Qed.

(** C9. When no frame is complete, [escSensorFrameStatus] returns the
    pending status and leaves the whole state untouched. When a frame is
    complete but its CRC-8 over bytes 0..8 differs from byte 9, the
    completion flag is cleared, nothing else changes (in particular the
    telemetry store), and the pending status is returned, which is not
    [ESC_SENSOR_FRAME_COMPLETE]; a PENDING tick of the scheduler then ends
    exactly as it would have with no frame received. *)
Theorem frame_status_discards_bad_frame (MAX_SUPPORTED_MOTORS : Z) (e : env) (t : Z)
    (s : esc_state) :
  (tlmFrameDone s = false ->
   escSensorFrameStatus s = Done (ESC_SENSOR_FRAME_PENDING, s)) /\
  (tlmFrameDone s = true ->
   get_crc8 (tlm s) (ESC_SENSOR_BUFFSIZE - 1) <> tlm_at s 9 ->
   (exists s',
      escSensorFrameStatus s = Done (ESC_SENSOR_FRAME_PENDING, s') /\
      s' = set_tlmFrameDone false s /\
      tlmFrameDone s' = false /\
      escSensorData s' = escSensorData s /\
      ESC_SENSOR_FRAME_PENDING <> ESC_SENSOR_FRAME_COMPLETE) /\
   (escSensorEnabled s = true ->
    ESC_BOOTTIME <= t / 1000 ->
    escSensorTriggerState s = ESC_SENSOR_TRIGGER_PENDING ->
    escSensorProcess MAX_SUPPORTED_MOTORS e t s =
    escSensorProcess MAX_SUPPORTED_MOTORS e t (set_tlmFrameDone false s))).
Proof.
  split.
  - apply escSensorFrameStatus_no_frame.
  - intros Hdone Hcrc. split.
    + exists (set_tlmFrameDone false s).
      split; [apply escSensorFrameStatus_bad_crc; assumption|].
      repeat split; try reflexivity; discriminate.
    + intros Hen Hboot Hst. apply bad_frame_tick_as_no_frame; assumption.
Qed.

(** *** The frame buffer under ticks *)

(** A tick leaves the frame buffer and its write cursor alone. *)
Lemma escSensorProcess_buffer (MAX_SUPPORTED_MOTORS : Z) (e : env) (t : Z)
    (s s' : esc_state) (u : unit) :
  escSensorProcess MAX_SUPPORTED_MOTORS e t s = Done (u, s') -> same_buffer s s'.
Proof.
  assert (Hlink : forall s1,
    same_buffer s s1 ->
    (if u32 (escLastResponseTimestamp s1 + 10000) <? t / 1000
     then fun s0 => resetEscSensorData MAX_SUPPORTED_MOTORS e
                      (set_escSensorEnabled false (set_escSensorPort None s0))
     else fun s0 => Done (tt, s0)) s1 = Done (u, s') ->
    same_buffer s s').
  { intros s1 H1 H. destruct (_ <? _).
    - apply same_buffer_trans with s1; [exact H1|].
      apply (resetEscSensorData_loop_buffer _ _ _ _ _ H).
    - injection H as _ <-. exact H1. }
  assert (Hframe : forall s1,
    same_buffer s s1 ->
    match
      match escSensorFrameStatus s1 with
      | Done (a, s2) =>
          (if a =? ESC_SENSOR_FRAME_COMPLETE
           then fun s0 =>
                  match selectNextMotor e s0 with
                  | Done (_, s3) =>
                      Done (tt, set_escLastResponseTimestamp (t / 1000)
                                  (set_escSensorTriggerState ESC_SENSOR_TRIGGER_READY s3))
                  | Fault => Fault
                  end
           else fun s0 => Done (tt, s0)) s2
      | Fault => Fault
      end
    with
    | Done (_, s4) =>
        (if u32 (escLastResponseTimestamp s4 + 10000) <? t / 1000
         then fun s0 => resetEscSensorData MAX_SUPPORTED_MOTORS e
                          (set_escSensorEnabled false (set_escSensorPort None s0))
         else fun s0 => Done (tt, s0)) s4
    | Fault => Fault
    end = Done (u, s') ->
    same_buffer s s').
  { intros s1 H1.
    destruct (escSensorFrameStatus s1) as [[a s2]|] eqn:Hfs; [|discriminate].
    pose proof (escSensorFrameStatus_buffer _ _ _ Hfs) as H2.
    destruct (a =? ESC_SENSOR_FRAME_COMPLETE).
    - rewrite selectNextMotor_run. apply Hlink.
      destruct H1 as [E1 E2]. destruct H2 as [E3 E4]. split; simpl; congruence.
    - apply Hlink. apply same_buffer_trans with s1; assumption. }
  unfold escSensorProcess, freeEscSensorPort, requestTelemetry. unfold_m.
  destruct (escSensorEnabled s); simpl;
    [|intros H; injection H as _ <-; apply same_buffer_refl].
  destruct (t / 1000 <? ESC_BOOTTIME); simpl;
    [intros H; injection H as _ <-; apply same_buffer_refl|].
  destruct (escSensorTriggerState s); simpl.
  - apply (Hlink (set_escLastResponseTimestamp (t / 1000)
                    (set_escTriggerTimestamp (t / 1000)
                       (set_escSensorMotor 0
                          (set_escSensorTriggerState ESC_SENSOR_TRIGGER_READY s))))).
    split; reflexivity.
  - apply (Hlink (set_escSensorTriggerState ESC_SENSOR_TRIGGER_PENDING
                    (set_telemetryRequests (escSensorMotor s :: telemetryRequests s) s))).
    split; reflexivity.
  - destruct (u32 (escTriggerTimestamp s + ESC_REQUEST_TIMEOUT) <? t / 1000); simpl.
    + destruct (u8 (timeoutRetryCount s + 1) =? 4); simpl.
      * match goal with
        | |- context [write_escSensorData ?i ?f ?st] =>
            destruct (write_escSensorData_cases i f st) as [[d1 Hw] | Hw]; rewrite Hw
        end; [|discriminate].
        rewrite selectNextMotor_run. simpl.
        rewrite DEBUG_SET_pre_increment. simpl.
        match goal with
        | |- context [escSensorFrameStatus ?st] => apply (Hframe st)
        end.
        split; reflexivity.
      * rewrite DEBUG_SET_pre_increment. simpl.
        match goal with
        | |- context [escSensorFrameStatus ?st] => apply (Hframe st)
        end.
        split; reflexivity.
    + apply (Hframe s). apply same_buffer_refl.
Qed.

Lemma initial_state_cursor (MAX_SUPPORTED_MOTORS : Z) :
  cursor_ok (initial_state MAX_SUPPORTED_MOTORS).
Proof. unfold cursor_ok. simpl. split; [lia | reflexivity]. Qed.

(** No run of ticks and received bytes takes the cursor out of range. *)
Lemma run_cursor (MAX_SUPPORTED_MOTORS : Z) (evs : list event) :
  forall (s s' : esc_state) (u : unit),
  cursor_ok s ->
  run MAX_SUPPORTED_MOTORS evs s = Done (u, s') ->
  cursor_ok s'.
Proof.
  induction evs as [|ev evs IH]; intros s s' u Hok Hrun.
  - injection Hrun as _ <-. exact Hok.
  - cbn [run] in Hrun. unfold bind in Hrun.
    destruct (step MAX_SUPPORTED_MOTORS ev s) as [[u1 s1]|] eqn:Hstep; [|discriminate].
    apply (IH s1 s' u); [|exact Hrun].
    destruct ev as [e t | c]; cbn [step] in Hstep.
    + destruct (escSensorProcess_buffer _ _ _ _ _ _ Hstep) as [E1 E2].
      destruct Hok as [Hpos Hlen]. unfold cursor_ok. rewrite E1, E2.
      split; assumption.
    + destruct (escSensorDataReceive_cursor c s Hok) as (s2 & Hrx & Hok2 & _).
      rewrite Hrx in Hstep. injection Hstep as _ <-. exact Hok2.
Qed.

(** C10. The write cursor of the frame assembler stays within 0..9. From
    a state whose cursor is in that range the receive callback never
    faults (its buffer write is in bounds) and ends with the cursor in
    range again: in the WAIT phase it changes nothing; otherwise it stores
    the received byte at the cursor and either advances the cursor by one
    or, on the last slot, raises the completion flag and puts the cursor
    back to 0. The cursor is in range when the program starts, and in
    every state that ticks and received bytes lead to from there. *)
Theorem receive_keeps_cursor_in_bounds (MAX_SUPPORTED_MOTORS : Z) (c : Z) (s : esc_state) :
  cursor_ok s ->
  (exists s',
     escSensorDataReceive c s = Done (tt, s') /\
     cursor_ok s' /\
     (escSensorTriggerState s = ESC_SENSOR_TRIGGER_WAIT -> s' = s) /\
     (escSensorTriggerState s <> ESC_SENSOR_TRIGGER_WAIT ->
      tlm s' = <[Z.to_nat (tlmFramePosition s) := u8 c]> (tlm s) /\
      (Z.to_nat (tlmFramePosition s) < length (tlm s))%nat /\
      (tlmFramePosition s = 9 ->
       tlmFrameDone s' = true /\ tlmFramePosition s' = 0) /\
      (tlmFramePosition s <> 9 ->
       tlmFrameDone s' = tlmFrameDone s /\
       tlmFramePosition s' = tlmFramePosition s + 1))) /\
  cursor_ok (initial_state MAX_SUPPORTED_MOTORS) /\
  (forall (evs : list event) (s' : esc_state),
     run MAX_SUPPORTED_MOTORS evs (initial_state MAX_SUPPORTED_MOTORS) = Done (tt, s') ->
     cursor_ok s').
Proof.
  intros Hok. split; [exact (escSensorDataReceive_cursor c s Hok)|].
  split; [apply initial_state_cursor|].
  intros evs s' Hrun.
  exact (run_cursor _ evs _ _ _ (initial_state_cursor MAX_SUPPORTED_MOTORS) Hrun).
Qed.

(** ** Concrete runs of the scheduler *)

Lemma boot_settle_then_first_request_witness :
  escSensorProcess 4 (env_at 4 0 4999000) 4999000 wait_state = Done (tt, wait_state) /\
  exists s1 s2,
    escSensorProcess 4 (env_at 4 0 5000000) 5000000 wait_state = Done (tt, s1) /\
    telemetryRequests s1 = [] /\
    escSensorProcess 4 (env_at 4 0 5001000) 5001000 s1 = Done (tt, s2) /\
    telemetryRequests s2 = [0] /\
    escSensorTriggerState s2 = ESC_SENSOR_TRIGGER_PENDING.
Proof.
  split.
  - apply (boot_settle_then_first_request 4 (env_at 4 0 4999000) (env_at 4 0 5001000)
             4999000 5001000 wait_state).
    + unfold is_u32. lia.
    + reflexivity.
    + reflexivity.
    + vm_compute. reflexivity.
  - destruct (boot_settle_then_first_request 4 (env_at 4 0 5000000) (env_at 4 0 5001000)
                5000000 5001000 wait_state)
      as [_ Hboot].
    + unfold is_u32. lia.
    + reflexivity.
    + reflexivity.
    + destruct Hboot as (s1 & Hrun1 & _ & _ & _ & _ & Hreq1 & _ & Hnext).
      { vm_compute. discriminate. }
      destruct Hnext as (s2 & Hrun2 & Hreq2 & Hst2).
      { lia. }
      { vm_compute in Hrun1. injection Hrun1 as <-.
        split; [simpl; lia | left; vm_compute; reflexivity]. }
      exists s1, s2. repeat split; assumption.
Defined.

Lemma timeout_retries_then_skips_motor_witness :
  (exists s',
     escSensorProcess 4 env4 5200000 (silent_state 1) = Done (tt, s') /\
     escSensorTriggerState s' = ESC_SENSOR_TRIGGER_READY /\
     timeoutRetryCount s' = 2 /\ escSensorMotor s' = 1) /\
  (exists s',
     escSensorProcess 4 env4 5200000 (silent_state 3) = Done (tt, s') /\
     escSensorTriggerState s' = ESC_SENSOR_TRIGGER_READY /\
     (exists r, escSensorData s' !! 1%nat = Some r /\ stale r = true) /\
     escSensorMotor s' = 2 /\ timeoutRetryCount s' = 0).
Proof.
  split.
  - destruct (timeout_retries_then_skips_motor 4 env4 5200000 (silent_state 1))
      as (s' & Hrun & Hst & Hretry & _).
    + reflexivity.
    + reflexivity.
    + vm_compute. discriminate.
    + reflexivity.
    + vm_compute. reflexivity.
    + simpl. lia.
    + unfold is_u8. simpl. lia.
    + simpl. lia.
    + unfold motor_in_store. simpl. lia.
    + split; [simpl; lia | right; simpl; lia].
    + exists s'. destruct Hretry as [Hc Hm]; [simpl; lia|].
      repeat split; assumption.
  - destruct (timeout_retries_then_skips_motor 4 env4 5200000 (silent_state 3))
      as (s' & Hrun & Hst & _ & Hskip).
    + reflexivity.
    + reflexivity.
    + vm_compute. discriminate.
    + reflexivity.
    + vm_compute. reflexivity.
    + simpl. lia.
    + unfold is_u8. simpl. lia.
    + simpl. lia.
    + unfold motor_in_store. simpl. lia.
    + split; [simpl; lia | right; simpl; lia].
    + exists s'. destruct Hskip as (Hstale & Hm & Hc); [reflexivity|].
      repeat split; assumption.
Defined.

(** Four timeouts in a row on motor 1, each followed by the retry of the
    request: the reading of motor 1 ends stale and motor 2 is targeted. *)
Example four_timeouts_skip_motor :
  exists s',
    run 4 [tick 4 0 5200000; tick 4 0 5201000; tick 4 0 5400000; tick 4 0 5401000;
           tick 4 0 5600000; tick 4 0 5601000; tick 4 0 5800000] (silent_state 0) =
      Done (tt, s') /\
    telemetryRequests s' = [1; 1; 1; 1] /\
    escSensorData s' !! 1%nat = Some (mkData true 20 1500 100 10 50) /\
    escSensorMotor s' = 2 /\
    timeoutRetryCount s' = 0 /\
    escSensorTriggerState s' = ESC_SENSOR_TRIGGER_READY.
Proof. eexists. split; [vm_compute; reflexivity|]. repeat split. Qed.


Lemma late_frame_at_retry_ceiling_is_misfiled_witness :
  exists s',
    escSensorProcess 4 env4 5200000 late_frame_state = Done (tt, s') /\
    escSensorData s' !! 0%nat = Some (mkData true 20 1500 100 10 50) /\
    escSensorData s' !! 1%nat = Some (mkData false 25 1600 200 300 120) /\
    escSensorMotor s' = 2 /\
    timeoutRetryCount s' = 0 /\
    escSensorTriggerState s' = ESC_SENSOR_TRIGGER_READY.
Proof.
  destruct (late_frame_at_retry_ceiling_is_misfiled 4 env4 5200000 late_frame_state
              (mkData false 20 1500 100 10 50))
    as (s' & Hrun & _ & _ & Hold & Hnew & _ & Hm & Hc & Hst & _).
  - unfold is_u32. lia.
  - reflexivity.
  - reflexivity.
  - vm_compute. discriminate.
  - vm_compute. reflexivity.
  - reflexivity.
  - vm_compute. reflexivity.
  - reflexivity.
  - unfold is_u8. simpl. lia.
  - simpl. lia.
  - simpl. lia.
  - simpl. lia.
  - reflexivity.
  - exists s'. split; [exact Hrun|]. split; [exact Hold|]. split; [exact Hnew|].
    split; [exact Hm|]. split; [exact Hc | exact Hst].
Defined.

Lemma frame_status_discards_bad_frame_witness :
  (exists s',
     escSensorFrameStatus (pending_frame_state [25; 6; 64; 0; 200; 1; 44; 0; 120; 0]) =
       Done (ESC_SENSOR_FRAME_PENDING, s') /\
     tlmFrameDone s' = false /\
     escSensorData s' =
       escSensorData (pending_frame_state [25; 6; 64; 0; 200; 1; 44; 0; 120; 0])) /\
  escSensorProcess 4 (env_at 4 0 5050000) 5050000
    (pending_frame_state [25; 6; 64; 0; 200; 1; 44; 0; 120; 0]) =
  escSensorProcess 4 (env_at 4 0 5050000) 5050000
    (set_tlmFrameDone false (pending_frame_state [25; 6; 64; 0; 200; 1; 44; 0; 120; 0])) /\
  escSensorFrameStatus (silent_state 0) = Done (ESC_SENSOR_FRAME_PENDING, silent_state 0).
Proof.
  destruct (frame_status_discards_bad_frame 4 (env_at 4 0 5050000) 5050000
              (pending_frame_state [25; 6; 64; 0; 200; 1; 44; 0; 120; 0]))
    as [_ Hbad].
  destruct Hbad as [(s' & Hrun & _ & Hflag & Hstore & _) Htick].
  - reflexivity.
  - vm_compute. discriminate.
  - split; [exists s'; repeat split; assumption|].
    split.
    + apply Htick; [reflexivity | vm_compute; discriminate | reflexivity].
    + apply (proj1 (frame_status_discards_bad_frame 4 env4 0 (silent_state 0))).
      reflexivity.
Defined.


Lemma receive_keeps_cursor_in_bounds_witness :
  cursor_ok (pending_frame_state (repeat 0 10)) /\
  exists s',
    escSensorDataReceive 300 (pending_frame_state (repeat 0 10)) = Done (tt, s') /\
    cursor_ok s' /\
    tlm s' = [44; 0; 0; 0; 0; 0; 0; 0; 0; 0] /\
    tlmFramePosition s' = 1.
Proof.
  assert (Hok : cursor_ok (pending_frame_state (repeat 0 10))).
  { unfold cursor_ok. simpl. split; [lia | reflexivity]. }
  split; [exact Hok|].
  destruct (receive_keeps_cursor_in_bounds 4 300 (pending_frame_state (repeat 0 10)) Hok)
    as ((s' & Hrun & Hok' & _ & Hstore) & _).
  destruct Hstore as (Htlm & _ & _ & Hnext); [discriminate|].
  destruct Hnext as [_ Hpos]; [simpl; lia|].
  exists s'. split; [exact Hrun|]. split; [exact Hok'|].
  split; [rewrite Htlm; reflexivity | exact Hpos].
Defined.

(** ** Combined reading *)

Lemma MAX_max (a b : Z) : MAX a b = Z.max a b.
Proof. unfold MAX. destruct (Z.gtb_spec a b); lia. Qed.

Lemma combine_one_wf (r c : escSensorData_t) : wf_data (combine_one r c).
Proof.
  unfold wf_data, combine_one. simpl.
  repeat split; first [apply u8_range | apply u16_range].
Qed.

Lemma array_get_app {A : Type} (pre l : list A) (x : A) :
  array_get (pre ++ x :: l) (Z.of_nat (length pre)) = Some x.
Proof.
  unfold array_get.
  replace (Z.of_nat (length pre) <? 0) with false by (symmetry; apply Z.ltb_ge; lia).
  rewrite Nat2Z.id. apply list_lookup_middle. reflexivity.
Qed.

Lemma combine_loop_segment (l : list escSensorData_t) :
  forall (pre post : list escSensorData_t) (c : escSensorData_t) (a : Z),
  combine_loop (pre ++ l ++ post) (length l) (Z.of_nat (length pre)) c a =
  Done (fold_left combine_step l (c, a)).
Proof.
  induction l as [|r l IH]; intros pre post c a.
  - reflexivity.
  - cbn [length combine_loop app]. rewrite array_get_app.
    specialize (IH (pre ++ [r]) post).
    rewrite <- app_assoc in IH. cbn [app] in IH.
    rewrite length_app in IH. cbn [length] in IH.
    replace (Z.of_nat (length pre + 1)) with (Z.of_nat (length pre) + 1) in IH by lia.
    cbn [fold_left].
    change (combine_step (c, a) r)
      with (if negb (stale r) then (combine_one r c, a + 1) else (c, a)).
    destruct (negb (stale r)); rewrite IH; reflexivity.
Qed.

Lemma combine_fold_filter (l : list escSensorData_t) :
  forall (c : escSensorData_t) (a : Z),
  fold_left combine_step l (c, a) =
  (fold_left (fun c r => combine_one r c) (List.filter (fun r => negb (stale r)) l) c,
   a + Z.of_nat (length (List.filter (fun r => negb (stale r)) l))).
Proof.
  induction l as [|r l IH]; intros c a.
  - simpl. f_equal. lia.
  - cbn [fold_left List.filter].
    change (combine_step (c, a) r)
      with (if negb (stale r) then (combine_one r c, a + 1) else (c, a)).
    destruct (negb (stale r)).
    + rewrite IH. cbn [fold_left length]. f_equal. lia.
    + apply IH.
Qed.

Lemma combine_fold_fields (m : list escSensorData_t) :
  Forall wf_data m ->
  forall c : escSensorData_t, wf_data c ->
  let r := fold_left (fun c r => combine_one r c) m c in
  stale r = stale c /\
  temperature r = Z.max (temperature c) (Zmax (map temperature m)) /\
  voltage r = u16 (voltage c + Zsum (map voltage m)) /\
  current r = u16 (current c + Zsum (map current m)) /\
  consumption r = u16 (consumption c + Zsum (map consumption m)) /\
  rpm r = u16 (rpm c + Zsum (map rpm m)).
Proof.
  induction 1 as [|x m Hx Hm IH]; intros c Hc.
  - destruct Hc as (Ht & Hv & Hi & Hq & Hr). unfold is_u8 in Ht. simpl.
    rewrite !Z.add_0_r, !u16_small by assumption.
    repeat split; try reflexivity. unfold Zmax. simpl. lia.
  - cbn [fold_left]. cbn zeta in IH.
    destruct (IH (combine_one x c) (combine_one_wf x c)) as (Es & Et & Ev & Ei & Eq & Er).
    cbn zeta. rewrite Es, Et, Ev, Ei, Eq, Er.
    destruct Hc as (Ht & _). destruct Hx as (Hxt & _). unfold is_u8 in *.
    unfold combine_one. cbn [stale temperature voltage current consumption rpm].
    rewrite MAX_max, u8_small by (unfold is_u8; lia).
    rewrite !u16_add_l. cbn [map]. unfold Zsum, Zmax. cbn [fold_right].
    repeat split; try reflexivity; try (f_equal; lia). lia.
Qed.

Lemma Zmax_nonneg (l : list Z) : 0 <= Zmax l.
Proof. unfold Zmax. induction l as [|x l IH]; simpl; lia. Qed.

Lemma Forall_bool_filter {A : Type} (P : A -> Prop) (f : A -> bool) (l : list A) :
  Forall P l -> Forall P (List.filter f l).
Proof.
  induction 1 as [|x l Hx Hl IH]; simpl.
  - constructor.
  - destruct (f x); [constructor; assumption | exact IH].
Qed.

Lemma contributing_wf (e : env) (s : esc_state) :
  Forall wf_data (escSensorData s) -> Forall wf_data (contributing e s).
Proof.
  intros Hwf. unfold contributing.
  apply Forall_bool_filter, Forall_take, Hwf.
Qed.

Lemma u16_Zsum_small (l : list Z) :
  Forall is_u16 l -> Zsum l < 65536 -> u16 (Zsum l) = Zsum l.
Proof.
  intros Hl Hsmall. apply u16_small. split; [|exact Hsmall].
  clear Hsmall. unfold Zsum.
  induction Hl as [|x l Hx Hl IH]; simpl; [lia|].
  unfold is_u16 in Hx. lia.
Qed.

Lemma Forall_map_field (f : escSensorData_t -> Z) (m : list escSensorData_t) :
  (forall x, wf_data x -> is_u16 (f x)) ->
  Forall wf_data m -> Forall is_u16 (map f m).
Proof.
  intros Hf Hm. induction Hm as [|x m Hx Hm IH]; simpl; constructor; auto.
Qed.

Section Combined.

Variable ESC_SENSOR_COMBINED : Z.

(** The combined reading in terms of the contributing readings. *)
Lemma combined_reading_wrapped (e : env) (s : esc_state) :
  getMotorCount e <= Z.of_nat (length (escSensorData s)) ->
  getMotorCount e <= ESC_SENSOR_COMBINED ->
  Forall wf_data (escSensorData s) ->
  exists r,
    getEscSensorData ESC_SENSOR_COMBINED e ESC_SENSOR_COMBINED s = Done (r, s) /\
    (stale r = true <-> contributing e s = []) /\
    temperature r = Zmax (map temperature (contributing e s)) /\
    voltage r = u16 (Zsum (map voltage (contributing e s))) /
                Z.of_nat (length (contributing e s)) /\
    current r = u16 (Zsum (map current (contributing e s))) /\
    consumption r = u16 (Zsum (map consumption (contributing e s))) /\
    rpm r = u16 (Zsum (map rpm (contributing e s))) /
            Z.of_nat (length (contributing e s)).
Proof.
  intros Hlen Hcomb Hwf.
  assert (Hlen' : (Z.to_nat (getMotorCount e) <= length (escSensorData s))%nat) by lia.
  assert (Hlt : (ESC_SENSOR_COMBINED <? getMotorCount e) = false)
    by (apply Z.ltb_ge; exact Hcomb).
  pose proof (contributing_wf e s Hwf) as Hm.
  assert (Hwf0 : wf_data (mkData true 0 0 0 0 0))
    by (unfold wf_data, is_u8, is_u16; simpl; lia).
  destruct (combine_fold_fields (contributing e s) Hm (mkData true 0 0 0 0 0) Hwf0)
    as (Es & Et & Ev & Ei & Eq & Er).
  simpl in Es, Et, Ev, Ei, Eq, Er.
  rewrite Z.max_r in Et by apply Zmax_nonneg.
  assert (Hloop : combine_loop (escSensorData s) (Z.to_nat (getMotorCount e)) 0
                    (mkData true 0 0 0 0 0) 0 =
                  Done (fold_left (fun c r => combine_one r c) (contributing e s)
                          (mkData true 0 0 0 0 0),
                        Z.of_nat (length (contributing e s)))).
  { pose proof (combine_loop_segment (take (Z.to_nat (getMotorCount e)) (escSensorData s))
                  [] (drop (Z.to_nat (getMotorCount e)) (escSensorData s))
                  (mkData true 0 0 0 0 0) 0) as Hseg.
    cbn [app length] in Hseg. rewrite take_drop in Hseg.
    rewrite length_take_le in Hseg by exact Hlen'.
    change (Z.of_nat 0) with 0 in Hseg. rewrite Hseg.
    rewrite combine_fold_filter. reflexivity. }
  unfold getEscSensorData. unfold_m. rewrite Hlt, Z.eqb_refl, Hloop.
  set (c := fold_left (fun c r => combine_one r c) (contributing e s)
              (mkData true 0 0 0 0 0)) in *.
  destruct (contributing e s) as [|r0 m] eqn:Em.
  - exists c. cbn [length]. change (Z.of_nat 0 >? 0) with false. cbv iota.
    split; [reflexivity|].
    split; [split; [reflexivity | intros _; exact Es]|].
    split; [exact Et|].
    split; [rewrite Ev; reflexivity|].
    split; [exact Ei|]. split; [exact Eq|]. rewrite Er. reflexivity.
  - assert (Hn : 0 < Z.of_nat (length (r0 :: m))) by (cbn [length]; lia).
    assert (Hgt : (Z.of_nat (length (r0 :: m)) >? 0) = true)
      by (apply Z.gtb_lt; exact Hn).
    rewrite Hgt. eexists. split; [reflexivity|].
    cbn [stale temperature voltage current consumption rpm].
    split; [split; intros H; discriminate H|].
    split; [exact Et|].
    split; [rewrite Ev; apply u16_div; [apply u16_range | exact Hn]|].
    split; [exact Ei|]. split; [exact Eq|].
    rewrite Er. apply u16_div; [apply u16_range | exact Hn].
Qed.

(** C6, as the code has it. Reading the combined pseudo-index aggregates
    exactly the non-stale readings among the first [getMotorCount()]
    entries: the temperature is their maximum; current and consumption are
    their sums modulo 2^16 (the sums are accumulated in the 16-bit fields
    of the reading); voltage and rpm are the integer quotients of their
    sums modulo 2^16 by the number of contributing readings; the reading
    is stale exactly when no reading contributes. Whenever such a sum is
    below 2^16 the wrap disappears: the code returns the sum, or the
    integer mean. *)
Theorem combined_reading_aggregates (e : env) (s : esc_state) :
  getMotorCount e <= Z.of_nat (length (escSensorData s)) ->
  getMotorCount e <= ESC_SENSOR_COMBINED ->
  Forall wf_data (escSensorData s) ->
  exists r,
    getEscSensorData ESC_SENSOR_COMBINED e ESC_SENSOR_COMBINED s = Done (r, s) /\
    (stale r = true <-> contributing e s = []) /\
    temperature r = Zmax (map temperature (contributing e s)) /\
    voltage r = u16 (Zsum (map voltage (contributing e s))) /
                Z.of_nat (length (contributing e s)) /\
    current r = u16 (Zsum (map current (contributing e s))) /\
    consumption r = u16 (Zsum (map consumption (contributing e s))) /\
    rpm r = u16 (Zsum (map rpm (contributing e s))) /
            Z.of_nat (length (contributing e s)) /\
    (Zsum (map voltage (contributing e s)) < 65536 ->
     voltage r = Zsum (map voltage (contributing e s)) /
                 Z.of_nat (length (contributing e s))) /\
    (Zsum (map current (contributing e s)) < 65536 ->
     current r = Zsum (map current (contributing e s))) /\
    (Zsum (map consumption (contributing e s)) < 65536 ->
     consumption r = Zsum (map consumption (contributing e s))) /\
    (Zsum (map rpm (contributing e s)) < 65536 ->
     rpm r = Zsum (map rpm (contributing e s)) /
             Z.of_nat (length (contributing e s))).
Proof.
  intros Hlen Hcomb Hwf.
  destruct (combined_reading_wrapped e s Hlen Hcomb Hwf)
    as (r & Hrun & Hstale & Ht & Hv & Hi & Hq & Hr).
  pose proof (contributing_wf e s Hwf) as Hm.
  exists r. repeat (split; [assumption|]).
  split; [|split; [|split]]; intros Hsmall.
  - rewrite Hv, u16_Zsum_small; [reflexivity | | exact Hsmall].
    eapply Forall_map_field; [|exact Hm]. intros x Hx. apply Hx.
  - rewrite Hi, u16_Zsum_small; [reflexivity | | exact Hsmall].
    eapply Forall_map_field; [|exact Hm]. intros x Hx. apply Hx.
  - rewrite Hq, u16_Zsum_small; [reflexivity | | exact Hsmall].
    eapply Forall_map_field; [|exact Hm]. intros x Hx. apply Hx.
  - rewrite Hr, u16_Zsum_small; [reflexivity | | exact Hsmall].
    eapply Forall_map_field; [|exact Hm]. intros x Hx. apply Hx.
Qed.

End Combined.

Lemma combined_reading_aggregates_witness :
  exists r,
    getEscSensorData 255 (mkEnv 2 0 0 false) 255 (silent_state 0) =
      Done (r, silent_state 0) /\
    stale r = false /\ temperature r = 20 /\ voltage r = 1500 /\
    current r = 200 /\ consumption r = 20 /\ rpm r = 50.
Proof.
  destruct (combined_reading_aggregates 255 (mkEnv 2 0 0 false) (silent_state 0))
    as (r & Hrun & Hstale & Ht & Hv & Hi & Hq & Hr & _).
  - simpl. lia.
  - simpl. lia.
  - repeat constructor; simpl; unfold is_u8, is_u16; lia.
  - exists r. split; [exact Hrun|].
    split; [destruct (stale r); [|reflexivity];
            destruct Hstale as [Hs _]; discriminate (Hs eq_refl)|].
    repeat split; assumption.
Defined.

(** C6 as stated fails once a sum leaves 16 bits: with two contributing
    readings of voltage 40000 and current 40000 the combined voltage is
    7232, not their mean 40000, and the combined current is 14464, not
    their sum 80000. *)
Lemma combined_reading_wraps_counterexample :
  contributing (mkEnv 2 0 0 false) overflow_state = escSensorData overflow_state /\
  Zsum (map voltage (escSensorData overflow_state)) / 2 = 40000 /\
  Zsum (map current (escSensorData overflow_state)) = 80000 /\
  exists r,
    getEscSensorData 255 (mkEnv 2 0 0 false) 255 overflow_state = Done (r, overflow_state) /\
    voltage r = 7232 /\
    current r = 14464.
Proof.
  split; [reflexivity|]. split; [reflexivity|]. split; [reflexivity|].
  eexists. split; [vm_compute; reflexivity|]. split; reflexivity.
Qed.

(** The scenario of the specification: readings (10, 100, 50) and
    (20, 200, 150) non-stale and a third one stale. *)
Example combined_reading_scenario :
  getEscSensorData 255 (mkEnv 3 0 0 false) 255
    (mkState false (repeat 0 10) 0 (Some 1)
       [mkData false 10 100 50 0 0; mkData false 20 200 150 0 0; mkData true 0 0 0 0 0]
       5000 5000 0 0 0 true ESC_SENSOR_TRIGGER_READY []) =
  Done (mkData false 20 150 200 0 0,
        mkState false (repeat 0 10) 0 (Some 1)
          [mkData false 10 100 50 0 0; mkData false 20 200 150 0 0; mkData true 0 0 0 0 0]
          5000 5000 0 0 0 true ESC_SENSOR_TRIGGER_READY []).
Proof. vm_compute. reflexivity. Qed.


(** Over a store whose entries are all stale the loop of
    [getEscSensorData] adds nothing. *)
Lemma combine_loop_all_stale (d : list escSensorData_t) (n : nat) :
  Forall (fun r => stale r = true) d ->
  forall (i : Z) (c c' : escSensorData_t) (a a' : Z),
  combine_loop d n i c a = Done (c', a') -> c' = c /\ a' = a.
Proof.
  intros Hall. induction n as [|n IH]; intros i c c' a a' H.
  - injection H as <- <-. split; reflexivity.
  - cbn [combine_loop] in H. unfold array_get in H.
    destruct (i <? 0); [discriminate|].
    destruct (d !! Z.to_nat i) as [r|] eqn:Hr; [|discriminate].
    rewrite Forall_lookup in Hall. rewrite (Hall _ _ Hr) in H.
    cbn [negb] in H. exact (IH _ _ _ _ _ H).
Qed.

(** After a reset that reached every entry, every reading that
    [getEscSensorData] returns is stale, the combined one included. *)
Lemma getEscSensorData_all_stale (ESC_SENSOR_COMBINED : Z) (e : env) (motorNumber : Z)
    (s s' : esc_state) (r : escSensorData_t) :
  Forall (fun r => stale r = true) (escSensorData s) ->
  getEscSensorData ESC_SENSOR_COMBINED e motorNumber s = Done (r, s') ->
  stale r = true.
Proof.
  intros Hall. unfold getEscSensorData. unfold_m.
  destruct (motorNumber <? getMotorCount e).
  - unfold array_get. destruct (motorNumber <? 0); [discriminate|].
    destruct (escSensorData s !! Z.to_nat motorNumber) as [r0|] eqn:Hr; [|discriminate].
    intros H. injection H as <- _. rewrite Forall_lookup in Hall. exact (Hall _ _ Hr).
  - destruct (motorNumber =? ESC_SENSOR_COMBINED).
    + destruct (combine_loop _ _ _ _ _) as [[c a]|] eqn:Hloop; [|discriminate].
      destruct (combine_loop_all_stale _ _ Hall _ _ _ _ _ Hloop) as [-> ->].
      change (0 >? 0) with false. cbv iota.
      intros H. injection H as <- _. reflexivity.
    + intros H. injection H as <- _. reflexivity.
Qed.

(** ** Full reset and link teardown *)

Section Teardown.

Variable MAX_SUPPORTED_MOTORS : Z.

Lemma teardown_from_zero (e : env) (t : Z) (s1 : esc_state) :
  uninit_i e = 0 ->
  Z.of_nat (length (escSensorData s1)) = MAX_SUPPORTED_MOTORS ->
  (u32 (escLastResponseTimestamp s1 + 10000) <? t / 1000) = true ->
  exists s',
    (if u32 (escLastResponseTimestamp s1 + 10000) <? t / 1000
     then fun s0 => resetEscSensorData MAX_SUPPORTED_MOTORS e
                      (set_escSensorEnabled false (set_escSensorPort None s0))
     else fun s0 => Done (tt, s0)) s1 = Done (tt, s') /\
    torn_down MAX_SUPPORTED_MOTORS s' /\
    telemetryRequests s' = telemetryRequests s1.
Proof.
  intros Hi Hlen Hlink. rewrite Hlink.
  destruct (resetEscSensorData_ok MAX_SUPPORTED_MOTORS e
              (set_escSensorEnabled false (set_escSensorPort None s1)))
    as (d' & Hrun & Hlen' & Hpt); [lia | simpl; lia |].
  destruct (resetEscSensorData_from_zero MAX_SUPPORTED_MOTORS e
              (set_escSensorEnabled false (set_escSensorPort None s1)) Hi Hlen)
    as (s' & Hrun' & Hall).
  rewrite Hrun in Hrun'. injection Hrun' as <-.
  eexists. split; [exact Hrun|].
  split; [|reflexivity].
  split; [reflexivity|]. split; [reflexivity|]. split; [exact Hall|].
  split; [reflexivity|].
  intros e' t'. apply escSensorProcess_disabled. reflexivity.
Qed.

(** Link teardown as the specification describes it holds once the loop
    of [resetEscSensorData] starts at 0: after more than 10000 ms without
    a valid frame, a tick in READY or PENDING clears the port handle and
    the enabled flag, marks every reading stale, and leaves a state that
    later ticks do not change. *)
Lemma link_teardown_when_reset_starts_at_zero (e : env) (t : Z) (s : esc_state) :
  escSensorEnabled s = true ->
  ESC_BOOTTIME <= t / 1000 ->
  escSensorTriggerState s <> ESC_SENSOR_TRIGGER_WAIT ->
  tlmFrameDone s = false \/
    get_crc8 (tlm s) (ESC_SENSOR_BUFFSIZE - 1) <> tlm_at s 9 ->
  u32 (escLastResponseTimestamp s + 10000) < t / 1000 ->
  uninit_i e = 0 ->
  Z.of_nat (length (escSensorData s)) = MAX_SUPPORTED_MOTORS ->
  motor_in_store s ->
  exists s',
    escSensorProcess MAX_SUPPORTED_MOTORS e t s = Done (tt, s') /\
    torn_down MAX_SUPPORTED_MOTORS s'.
Proof.
  intros Hen Hboot Hst Hframe Hlink Hi Hlen Hmotor.
  assert (Hb : (t / 1000 <? ESC_BOOTTIME) = false) by (apply Z.ltb_ge; lia).
  apply Z.ltb_lt in Hlink.
  assert (Hnone : forall s0,
    escSensorEnabled s0 = true ->
    escSensorTriggerState s0 = ESC_SENSOR_TRIGGER_PENDING ->
    tlmFrameDone s0 = false ->
    (u32 (escLastResponseTimestamp s0 + 10000) <? t / 1000) = true ->
    Z.of_nat (length (escSensorData s0)) = MAX_SUPPORTED_MOTORS ->
    motor_in_store s0 ->
    exists s', escSensorProcess MAX_SUPPORTED_MOTORS e t s0 = Done (tt, s') /\
               torn_down MAX_SUPPORTED_MOTORS s').
  { clear s Hen Hst Hframe Hlink Hlen Hmotor.
    intros s Hen Hst Hdone Hlink Hlen Hmotor.
    unfold escSensorProcess. unfold_m. rewrite Hen, Hb, Hst. simpl.
    destruct (u32 (escTriggerTimestamp s + ESC_REQUEST_TIMEOUT) <? t / 1000); simpl.
    - destruct (u8 (timeoutRetryCount s + 1) =? 4); simpl.
      + step_write; [exact Hmotor|]. rewrite selectNextMotor_run. simpl.
        rewrite DEBUG_SET_pre_increment. simpl.
        rewrite escSensorFrameStatus_no_frame by exact Hdone. simpl.
        match goal with
        | |- exists s', (if _ then _ else _) ?s1 = _ /\ _ =>
            destruct (teardown_from_zero e t s1 Hi) as (s' & Hrun & Htd & _)
        end; [simpl; rewrite length_insert; exact Hlen | exact Hlink |].
        exists s'. split; [exact Hrun | exact Htd].
      + rewrite DEBUG_SET_pre_increment. simpl.
        rewrite escSensorFrameStatus_no_frame by exact Hdone. simpl.
        match goal with
        | |- exists s', (if _ then _ else _) ?s1 = _ /\ _ =>
            destruct (teardown_from_zero e t s1 Hi) as (s' & Hrun & Htd & _)
        end; [exact Hlen | exact Hlink |].
        exists s'. split; [exact Hrun | exact Htd].
    - rewrite escSensorFrameStatus_no_frame by exact Hdone. simpl.
      destruct (teardown_from_zero e t s Hi Hlen Hlink) as (s' & Hrun & Htd & _).
      exists s'. split; [exact Hrun | exact Htd]. }
  destruct (escSensorTriggerState s) eqn:Est; [congruence | |].
  - unfold escSensorProcess, requestTelemetry. unfold_m. rewrite Hen, Hb, Est. simpl.
    match goal with
    | |- exists s', (if _ then _ else _) ?s1 = _ /\ _ =>
        destruct (teardown_from_zero e t s1 Hi) as (s' & Hrun & Htd & _)
    end; [exact Hlen | exact Hlink |].
    exists s'. split; [exact Hrun | exact Htd].
  - destruct (tlmFrameDone s) eqn:Hdone.
    + destruct Hframe as [Hf | Hcrc]; [discriminate|].
      rewrite bad_frame_tick_as_no_frame by assumption.
      apply Hnone; try assumption; reflexivity.
    + apply Hnone; assumption.
Qed.

End Teardown.

(** C3. At subsystem init on a four-motor build, with the uninitialised
    loop variable of [resetEscSensorData] holding 1, the reset leaves the
    zero-initialised reading of motor 0 non-stale: not every motor is
    marked stale. *)
Theorem reset_all_skips_entries_below_uninitialised_index :
  exists s',
    escSensorInit 4 env_garbage true (Some 1) (initial_state 4) = Done (true, s') /\
    escSensorData s' =
      [mkData false 0 0 0 0 0; mkData true 0 0 0 0 0;
       mkData true 0 0 0 0 0; mkData true 0 0 0 0 0].
Proof. eexists. split; vm_compute; reflexivity. Qed.

(** C5. After init and more than 10000 ms of silence the tick tears the
    link down: the port handle is cleared and the subsystem is no longer
    active, and a later tick changes nothing. With the uninitialised loop
    variable of [resetEscSensorData] holding 1, however, the reading of
    motor 0 and the combined reading are still reported non-stale. *)
Theorem teardown_leaves_reading_non_stale :
  exists s',
    (do _ <- escSensorInit 4 env_garbage true (Some 1) ;; run 4 silent_link_run)
      (initial_state 4) = Done (tt, s') /\
    escSensorPort s' = None /\
    isEscSensorActive s' = Done (false, s') /\
    escSensorProcess 4 (env_at 4 1 15002000) 15002000 s' = Done (tt, s') /\
    getEscSensorData 255 env_garbage 0 s' = Done (mkData false 0 0 0 0 0, s') /\
    getEscSensorData 255 env_garbage 255 s' = Done (mkData false 0 0 0 0 0, s').
Proof. eexists. split; [vm_compute; reflexivity|]. repeat split. Qed.

(** ** Motor count shrinking under the scheduler *)

(** C7. When the motor count drops from 4 to 2 while motor 3 is targeted,
    the motor advance moves the target to 4 instead of back into range;
    the next tick raises the telemetry request of motor 4, and the frame
    check after it indexes the four-entry store at 4: a fault. *)
Theorem target_not_wrapped_after_motor_count_shrinks :
  (exists s',
     (do _ <- escSensorInit 4 env4 true (Some 1) ;; run 4 shrinking_run)
       (initial_state 4) = Done (tt, s') /\
     escSensorMotor s' = 4 /\
     length (escSensorData s') = 4%nat /\
     exists s'',
       escSensorProcess 4 (env_at 2 0 5009000) 5009000 s' = Done (tt, s'') /\
       telemetryRequests s'' = [4; 3; 2; 1; 0]) /\
  (do _ <- escSensorInit 4 env4 true (Some 1) ;;
   run 4 (shrinking_run ++ [tick 2 0 5009000] ++ valid_zero_frame ++
          [tick 2 0 5010000]))
    (initial_state 4) = Fault.
Proof.
  split.
  - eexists. split; [vm_compute; reflexivity|].
    split; [reflexivity|]. split; [reflexivity|].
    eexists. split; vm_compute; reflexivity.
  - vm_compute. reflexivity.
Qed.

(** * Further properties *)

(** ** Frame assembler over byte streams *)

Lemma same_scheduler_refl (s : esc_state) : same_scheduler s s.
Proof. repeat split. Qed.

Lemma same_scheduler_trans (s1 s2 s3 : esc_state) :
  same_scheduler s1 s2 -> same_scheduler s2 s3 -> same_scheduler s1 s3.
Proof.
  unfold same_scheduler.
  intros (A1 & A2 & A3 & A4 & A5 & A6 & A7 & A8 & A9 & A10)
         (B1 & B2 & B3 & B4 & B5 & B6 & B7 & B8 & B9 & B10).
  repeat split; congruence.
Qed.

Lemma run_app (MAX_SUPPORTED_MOTORS : Z) (l1 l2 : list event) (s : esc_state) :
  run MAX_SUPPORTED_MOTORS (l1 ++ l2) s =
  match run MAX_SUPPORTED_MOTORS l1 s with
  | Done (_, s1) => run MAX_SUPPORTED_MOTORS l2 s1
  | Fault => Fault
  end.
Proof.
  revert s. induction l1 as [|ev l1 IH]; intros s.
  - reflexivity.
  - cbn [app run]. unfold bind.
    destruct (step MAX_SUPPORTED_MOTORS ev s) as [[u s1]|]; [apply IH | reflexivity].
Qed.

(** One received byte outside the WAIT phase, with the cursor in range. *)
Lemma escSensorDataReceive_step (c : Z) (s : esc_state) :
  escSensorTriggerState s <> ESC_SENSOR_TRIGGER_WAIT ->
  cursor_ok s ->
  exists s1,
    escSensorDataReceive c s = Done (tt, s1) /\
    tlm s1 = <[Z.to_nat (tlmFramePosition s) := u8 c]> (tlm s) /\
    tlmFramePosition s1 = (if tlmFramePosition s =? 9 then 0 else tlmFramePosition s + 1) /\
    tlmFrameDone s1 = (if tlmFramePosition s =? 9 then true else tlmFrameDone s) /\
    same_scheduler s s1.
Proof.
  intros Hst [Hpos Hlen].
  assert (Hset : array_set (tlm s) (tlmFramePosition s) (u8 c) =
                 Some (<[Z.to_nat (tlmFramePosition s) := u8 c]> (tlm s))).
  { assert (H1 : (0 <=? tlmFramePosition s) = true) by (apply Z.leb_le; lia).
    assert (H2 : (tlmFramePosition s <? Z.of_nat (length (tlm s))) = true)
      by (apply Z.ltb_lt; lia).
    unfold array_set. rewrite H1, H2. reflexivity. }
  assert (Hu8 : u8 (tlmFramePosition s + 1) = tlmFramePosition s + 1)
    by (apply u8_small; unfold is_u8; lia).
  unfold escSensorDataReceive. unfold_m. rewrite Hset.
  change (ESC_SENSOR_BUFFSIZE - 1) with 9.
  destruct (escSensorTriggerState s); [congruence| |]; simpl;
    destruct (tlmFramePosition s =? 9); eexists;
    (split; [reflexivity|]); simpl; rewrite ?Hu8; repeat split.
Qed.

(** A stretch of bytes that fits between the cursor and the end of the
    buffer. *)
Lemma receive_segment (MAX_SUPPORTED_MOTORS : Z) (bs : list Z) :
  forall s : esc_state,
  escSensorTriggerState s <> ESC_SENSOR_TRIGGER_WAIT ->
  cursor_ok s ->
  tlmFramePosition s + Z.of_nat (length bs) <= 10 ->
  exists s',
    run MAX_SUPPORTED_MOTORS (map Rx bs) s = Done (tt, s') /\
    tlm s' = take (Z.to_nat (tlmFramePosition s)) (tlm s) ++ map u8 bs ++
             drop (Z.to_nat (tlmFramePosition s) + length bs) (tlm s) /\
    tlmFramePosition s' =
      (if tlmFramePosition s + Z.of_nat (length bs) =? 10
       then 0 else tlmFramePosition s + Z.of_nat (length bs)) /\
    tlmFrameDone s' =
      (if (tlmFramePosition s + Z.of_nat (length bs) =? 10) && negb (length bs =? 0)%nat
       then true else tlmFrameDone s) /\
    same_scheduler s s'.
Proof.
  induction bs as [|c bs IH]; intros s Hst Hok Hfit.
  - exists s. destruct Hok as [Hpos Hlen]. cbn [map run length]. unfold ret.
    assert (Hne : (tlmFramePosition s + Z.of_nat 0 =? 10) = false) by (apply Z.eqb_neq; lia).
    rewrite Hne. split; [reflexivity|]. split.
    { cbn [map app]. rewrite Nat.add_0_r. symmetry. apply take_drop. }
    split; [lia|]. split; [reflexivity | apply same_scheduler_refl].
  - destruct (escSensorDataReceive_step c s Hst Hok) as (s1 & Hrx & Htlm & Hpos1 & Hdone1 & Hsch).
    pose proof Hok as [Hpos Hlen].
    cbn [map run step]. unfold bind. cbn [step]. rewrite Hrx.
    cbn [length] in Hfit.
    assert (Hlt : (Z.to_nat (tlmFramePosition s) < length (tlm s))%nat) by lia.
    destruct (lookup_lt_is_Some_2 _ _ Hlt) as [x0 Hx0].
    assert (Htake : take (S (Z.to_nat (tlmFramePosition s))) (tlm s1) =
                    take (Z.to_nat (tlmFramePosition s)) (tlm s) ++ [u8 c]).
    { rewrite Htlm. erewrite take_S_r; [|apply list_lookup_insert_eq; exact Hlt].
      rewrite take_insert_ge by lia. reflexivity. }
    assert (Hdrop : forall k, drop (S (Z.to_nat (tlmFramePosition s)) + k) (tlm s1) =
                              drop (S (Z.to_nat (tlmFramePosition s)) + k) (tlm s)).
    { intros k. rewrite Htlm. apply drop_insert_lt. lia. }
    destruct (Z.eq_dec (tlmFramePosition s) 9) as [E9 | E9].
    + assert (bs = []) by (destruct bs; [reflexivity | cbn [length] in Hfit; lia]).
      subst bs. exists s1. cbn [map run length]. unfold ret.
      split; [reflexivity|]. split.
      { rewrite <- (take_drop (S (Z.to_nat (tlmFramePosition s))) (tlm s1)) at 1.
        rewrite Htake. specialize (Hdrop 0%nat). rewrite Nat.add_0_r in Hdrop.
        rewrite Hdrop. rewrite <- app_assoc. cbn [app].
        replace (Z.to_nat (tlmFramePosition s) + 1)%nat
          with (S (Z.to_nat (tlmFramePosition s))) by lia.
        reflexivity. }
      rewrite E9 in *. change (9 =? 9) with true in *. cbv iota in *.
      split; [exact Hpos1|]. split; [exact Hdone1 | exact Hsch].
    + assert (Hne9 : (tlmFramePosition s =? 9) = false) by (apply Z.eqb_neq; exact E9).
      rewrite Hne9 in Hpos1, Hdone1.
      assert (Hok1 : cursor_ok s1).
      { split; [lia | rewrite Htlm, length_insert; exact Hlen]. }
      assert (Hst1 : escSensorTriggerState s1 <> ESC_SENSOR_TRIGGER_WAIT).
      { destruct Hsch as (_ & _ & _ & _ & _ & _ & _ & _ & E & _). rewrite E. exact Hst. }
      destruct (IH s1 Hst1 Hok1) as (s' & Hrun & Htlm' & Hpos' & Hdone' & Hsch'); [lia|].
      exists s'. split; [exact Hrun|].
      rewrite Hpos1 in Htlm', Hpos', Hdone'.
      replace (Z.to_nat (tlmFramePosition s + 1)) with (S (Z.to_nat (tlmFramePosition s)))
        in Htlm' by lia.
      rewrite Htake, Hdrop in Htlm'.
      split.
      { rewrite Htlm'. cbn [map length]. rewrite <- app_assoc. cbn [app].
        replace (Z.to_nat (tlmFramePosition s) + S (length bs))%nat
          with (S (Z.to_nat (tlmFramePosition s)) + length bs)%nat by lia.
        reflexivity. }
      split.
      { rewrite Hpos'. cbn [length].
        replace (tlmFramePosition s + Z.of_nat (S (length bs)))
          with (tlmFramePosition s + 1 + Z.of_nat (length bs)) by lia.
        reflexivity. }
      split.
      { rewrite Hdone', Hdone1. cbn [length].
        replace (tlmFramePosition s + Z.of_nat (S (length bs)))
          with (tlmFramePosition s + 1 + Z.of_nat (length bs)) by lia.
        destruct (tlmFramePosition s + 1 + Z.of_nat (length bs) =? 10) eqn:E10;
          [|reflexivity].
        destruct bs; [|reflexivity].
        exfalso. apply Z.eqb_eq in E10. cbn [length] in E10. lia. }
      eapply same_scheduler_trans; eassumption.
Qed.

(** X1. The assembler counts bytes and never looks for a frame start: ten
    bytes received from any cursor position [p] (outside the WAIT phase)
    raise the completion flag exactly when the cursor wraps and bring the
    cursor back to [p]; the buffer then holds the last [p] bytes followed
    by the first [10 - p], so a stream that is [p] bytes out of step stays
    out of step. Nothing but the buffer, the cursor and the flag
    changes. *)
Theorem ten_bytes_wrap_cursor_without_resync (MAX_SUPPORTED_MOTORS : Z) (bs : list Z)
    (s : esc_state) :
  escSensorTriggerState s <> ESC_SENSOR_TRIGGER_WAIT ->
  cursor_ok s ->
  length bs = 10%nat ->
  exists s',
    run MAX_SUPPORTED_MOTORS (map Rx bs) s = Done (tt, s') /\
    tlmFrameDone s' = true /\
    tlmFramePosition s' = tlmFramePosition s /\
    tlm s' = drop (Z.to_nat (10 - tlmFramePosition s)) (map u8 bs) ++
             take (Z.to_nat (10 - tlmFramePosition s)) (map u8 bs) /\
    (tlmFramePosition s = 0 -> tlm s' = map u8 bs) /\
    same_scheduler s s'.
Proof.
  intros Hst Hok Hlen.
  pose proof Hok as [Hpos Hbuf].
  set (k := Z.to_nat (10 - tlmFramePosition s)).
  assert (Hk : (1 <= k <= 10)%nat) by (unfold k; lia).
  assert (Hsplit : bs = take k bs ++ drop k bs) by (symmetry; apply take_drop).
  assert (Hl1 : length (take k bs) = k) by (apply length_take_le; lia).
  assert (Hl2 : length (drop k bs) = Z.to_nat (tlmFramePosition s))
    by (rewrite length_drop; unfold k; lia).
  destruct (receive_segment MAX_SUPPORTED_MOTORS (take k bs) s Hst Hok)
    as (s1 & Hrun1 & Htlm1 & Hpos1 & Hdone1 & Hsch1);
    [rewrite Hl1; unfold k; lia|].
  rewrite Hl1 in Htlm1, Hpos1, Hdone1.
  assert (E10 : (tlmFramePosition s + Z.of_nat k =? 10) = true)
    by (apply Z.eqb_eq; unfold k; lia).
  rewrite E10 in Hpos1, Hdone1.
  assert (Ek : (k =? 0)%nat = false) by (apply Nat.eqb_neq; lia).
  rewrite Ek in Hdone1. cbn [negb andb] in Hdone1.
  rewrite (drop_ge (tlm s)) in Htlm1 by (unfold k; lia).
  rewrite app_nil_r in Htlm1.
  assert (Hlen1 : length (tlm s1) = 10%nat).
  { rewrite Htlm1, length_app, length_take_le, length_map, Hl1 by lia. unfold k. lia. }
  assert (Hok1 : cursor_ok s1) by (split; [lia | exact Hlen1]).
  assert (Hst1 : escSensorTriggerState s1 <> ESC_SENSOR_TRIGGER_WAIT).
  { destruct Hsch1 as (_ & _ & _ & _ & _ & _ & _ & _ & E & _). rewrite E. exact Hst. }
  destruct (receive_segment MAX_SUPPORTED_MOTORS (drop k bs) s1 Hst1 Hok1)
    as (s' & Hrun2 & Htlm2 & Hpos2 & Hdone2 & Hsch2);
    [rewrite Hl2, Hpos1; lia|].
  rewrite Hl2, Hpos1 in Htlm2, Hpos2, Hdone2.
  assert (Hne : (0 + Z.of_nat (Z.to_nat (tlmFramePosition s)) =? 10) = false)
    by (apply Z.eqb_neq; lia).
  rewrite Hne in Hpos2, Hdone2. cbn [andb] in Hdone2.
  change (Z.to_nat 0) with 0%nat in Htlm2. cbn [take app Nat.add] in Htlm2.
  assert (Htlm' : tlm s' = drop k (map u8 bs) ++ take k (map u8 bs)).
  { rewrite Htlm2, Htlm1.
    rewrite drop_app_length' by (rewrite length_take_le; lia).
    rewrite <- !fmap_drop, <- !fmap_take. reflexivity. }
  exists s'. split.
  { rewrite Hsplit, map_app, run_app, Hrun1. exact Hrun2. }
  split; [congruence|]. split; [lia|]. split; [exact Htlm'|]. split.
  { intros H0. rewrite Htlm'. unfold k. rewrite H0. change (Z.to_nat (10 - 0)) with 10%nat.
    rewrite drop_ge, take_ge by (rewrite length_map; lia). reflexivity. }
  eapply same_scheduler_trans; eassumption.
Qed.

Lemma ten_bytes_wrap_cursor_without_resync_witness :
  exists s',
    run 4 (map Rx [1; 2; 3; 4; 5; 6; 7; 8; 9; 266]) mid_frame_state = Done (tt, s') /\
    tlmFrameDone s' = true /\
    tlmFramePosition s' = 3 /\
    tlm s' = [8; 9; 10; 1; 2; 3; 4; 5; 6; 7].
Proof.
  destruct (ten_bytes_wrap_cursor_without_resync 4 [1; 2; 3; 4; 5; 6; 7; 8; 9; 266]
              mid_frame_state) as (s' & Hrun & Hdone & Hpos & Htlm & _ & _).
  - discriminate.
  - split; [simpl; lia | reflexivity].
  - reflexivity.
  - exists s'. repeat split; assumption.
Defined.

(** X2. Bytes that do not reach the end of the buffer leave the completion
    flag as it was: [k] bytes received at cursor [p] with [p + k < 10] are
    stored, truncated to 8 bits, at positions [p .. p + k - 1]; the other
    slots keep their content, the cursor moves to [p + k], and neither the
    flag nor any scheduler variable changes. *)
Theorem partial_frame_is_stored_not_completed (MAX_SUPPORTED_MOTORS : Z) (bs : list Z)
    (s : esc_state) :
  escSensorTriggerState s <> ESC_SENSOR_TRIGGER_WAIT ->
  cursor_ok s ->
  tlmFramePosition s + Z.of_nat (length bs) < 10 ->
  exists s',
    run MAX_SUPPORTED_MOTORS (map Rx bs) s = Done (tt, s') /\
    tlmFrameDone s' = tlmFrameDone s /\
    tlmFramePosition s' = tlmFramePosition s + Z.of_nat (length bs) /\
    tlm s' = take (Z.to_nat (tlmFramePosition s)) (tlm s) ++ map u8 bs ++
             drop (Z.to_nat (tlmFramePosition s) + length bs) (tlm s) /\
    same_scheduler s s'.
Proof.
  intros Hst Hok Hfit.
  destruct (receive_segment MAX_SUPPORTED_MOTORS bs s Hst Hok)
    as (s' & Hrun & Htlm & Hpos & Hdone & Hsch); [lia|].
  assert (Hne : (tlmFramePosition s + Z.of_nat (length bs) =? 10) = false)
    by (apply Z.eqb_neq; lia).
  rewrite Hne in Hpos, Hdone. cbn [andb] in Hdone.
  exists s'. repeat split; try assumption; apply Hsch.
Qed.

Lemma partial_frame_is_stored_not_completed_witness :
  exists s',
    run 4 (map Rx [300; 2]) mid_frame_state = Done (tt, s') /\
    tlmFrameDone s' = false /\
    tlmFramePosition s' = 5 /\
    tlm s' = [7; 8; 9; 44; 2; 0; 0; 0; 0; 0].
Proof.
  destruct (partial_frame_is_stored_not_completed 4 [300; 2] mid_frame_state)
    as (s' & Hrun & Hdone & Hpos & Htlm & _).
  - discriminate.
  - split; [simpl; lia | reflexivity].
  - simpl. lia.
  - exists s'. repeat split; assumption.
Defined.

(** X3. Start-up traffic is ignored: while the scheduler is in the WAIT
    phase, no sequence of received bytes and of ticks earlier than
    [ESC_BOOTTIME] changes any variable of the file. *)
Theorem startup_traffic_is_ignored (MAX_SUPPORTED_MOTORS : Z) (evs : list event)
    (s : esc_state) :
  escSensorTriggerState s = ESC_SENSOR_TRIGGER_WAIT ->
  Forall before_boot evs ->
  run MAX_SUPPORTED_MOTORS evs s = Done (tt, s).
Proof.
  intros Hst Hall. induction Hall as [|ev evs Hev _ IH].
  - reflexivity.
  - assert (Hstep : step MAX_SUPPORTED_MOTORS ev s = Done (tt, s)).
    { destruct ev as [e t | c]; cbn [step before_boot] in *.
      - assert (Hlt : (t / 1000 <? ESC_BOOTTIME) = true) by (apply Z.ltb_lt; exact Hev).
        unfold escSensorProcess. unfold_m.
        destruct (escSensorEnabled s); simpl; [rewrite Hlt|]; reflexivity.
      - unfold escSensorDataReceive. unfold_m. rewrite Hst. reflexivity. }
    cbn [run]. unfold bind. rewrite Hstep. exact IH.
Qed.

Lemma startup_traffic_is_ignored_witness :
  run 4 [Rx 65; tick 4 0 1000000; Rx 66; Rx 67; tick 4 0 4999999] wait_state =
  Done (tt, wait_state).
Proof.
  apply (startup_traffic_is_ignored 4).
  - reflexivity.
  - repeat constructor; vm_compute; reflexivity.
Defined.

(** ** CRC: error detection *)

Lemma crc8_shift_injective (a b : Z) :
  is_u8 a -> is_u8 b -> crc8_shift a = crc8_shift b -> a = b.
Proof.
  intros Ha Hb Heq.
  pose (back := fun y : Z =>
                  if Z.testbit y 0
                  then Z.lor (Z.shiftr (Z.lxor y 0x7) 1) 0x80
                  else Z.shiftr y 1).
  assert (Hback : forall x, is_u8 x -> (back (crc8_shift x) =? x) = true).
  { apply (u8_cases (fun x => back (crc8_shift x) =? x)). vm_compute. reflexivity. }
  pose proof (Hback a Ha) as Ea. pose proof (Hback b Hb) as Eb.
  apply Z.eqb_eq in Ea, Eb. rewrite <- Ea, <- Eb, Heq. reflexivity.
Qed.

Lemma crc8_iter_range (n : nat) (a : Z) : is_u8 a -> is_u8 (Nat.iter n crc8_shift a).
Proof. intros Ha. destruct n; [exact Ha | apply crc8_shift_range]. Qed.

Lemma crc8_byte_injective (a b : Z) :
  is_u8 a -> is_u8 b ->
  Nat.iter 8 crc8_shift a = Nat.iter 8 crc8_shift b -> a = b.
Proof.
  intros Ha Hb. generalize 8%nat. intros n. induction n as [|n IH]; intros Heq.
  - exact Heq.
  - cbn [Nat.iter nat_rect] in Heq. apply IH.
    apply crc8_shift_injective; [apply crc8_iter_range; assumption.. | exact Heq].
Qed.

Lemma lxor_cancel_r (a b c : Z) : Z.lxor a c = Z.lxor b c -> a = b.
Proof.
  intros H.
  rewrite <- (Z.lxor_0_r a), <- (Z.lxor_0_r b), <- (Z.lxor_nilpotent c).
  rewrite <- !Z.lxor_assoc. rewrite H. reflexivity.
Qed.

Lemma update_crc8_inj_byte (b b' crc : Z) :
  is_u8 b -> is_u8 b' -> is_u8 crc ->
  update_crc8 b crc = update_crc8 b' crc -> b = b'.
Proof.
  intros Hb Hb' Hc Heq. unfold update_crc8 in Heq. cbv zeta in Heq.
  rewrite !u8_small in Heq by (apply lxor_u8; assumption).
  apply crc8_byte_injective in Heq; [|apply lxor_u8; assumption..].
  eapply lxor_cancel_r; exact Heq.
Qed.

Lemma update_crc8_inj_crc (b crc crc' : Z) :
  is_u8 b -> is_u8 crc -> is_u8 crc' ->
  update_crc8 b crc = update_crc8 b crc' -> crc = crc'.
Proof.
  intros Hb Hc Hc' Heq. unfold update_crc8 in Heq. cbv zeta in Heq.
  rewrite !u8_small in Heq by (apply lxor_u8; assumption).
  apply crc8_byte_injective in Heq; [|apply lxor_u8; assumption..].
  rewrite (Z.lxor_comm b crc), (Z.lxor_comm b crc') in Heq.
  eapply lxor_cancel_r; exact Heq.
Qed.

Lemma crc8_fold_range (l : list Z) (acc : Z) :
  is_u8 acc -> is_u8 (fold_left (fun crc b => update_crc8 b crc) l acc).
Proof.
  revert acc. induction l as [|b l IH]; intros acc Hacc; cbn [fold_left].
  - exact Hacc.
  - apply IH, update_crc8_range.
Qed.

Lemma crc8_fold_inj (l : list Z) :
  Forall is_u8 l ->
  forall acc acc', is_u8 acc -> is_u8 acc' ->
  fold_left (fun crc b => update_crc8 b crc) l acc =
  fold_left (fun crc b => update_crc8 b crc) l acc' -> acc = acc'.
Proof.
  induction 1 as [|b l Hb _ IH]; intros acc acc' Ha Ha' Heq; cbn [fold_left] in Heq.
  - exact Heq.
  - pose proof (IH _ _ (update_crc8_range _ _) (update_crc8_range _ _) Heq) as Hstep.
    exact (update_crc8_inj_crc _ _ _ Hb Ha Ha' Hstep).
Qed.

Lemma get_crc8_range (Buf : list Z) (BufLen : Z) : is_u8 (get_crc8 Buf BufLen).
Proof. unfold get_crc8. apply crc8_fold_range. unfold is_u8. lia. Qed.

(** Replacing one byte of the checked stretch changes the checksum. *)
Lemma crc8_fold_one_byte (pre post : list Z) (b b' : Z) :
  Forall is_u8 post -> is_u8 b -> is_u8 b' ->
  fold_left (fun crc x => update_crc8 x crc) (pre ++ b :: post) 0 =
  fold_left (fun crc x => update_crc8 x crc) (pre ++ b' :: post) 0 -> b = b'.
Proof.
  intros Hpost Hb Hb' Heq.
  rewrite !fold_left_app in Heq. cbn [fold_left] in Heq.
  assert (H0 : is_u8 (fold_left (fun crc x => update_crc8 x crc) pre 0))
    by (apply crc8_fold_range; unfold is_u8; lia).
  pose proof (crc8_fold_inj post Hpost _ _ (update_crc8_range _ _) (update_crc8_range _ _) Heq)
    as Hstep.
  exact (update_crc8_inj_byte _ _ _ Hb Hb' H0 Hstep).
Qed.

(** X4. The checksum catches every corruption confined to one byte: if a
    valid ten-byte frame has exactly one of its bytes (payload or checksum)
    replaced by a different byte, [escSensorFrameStatus] reports the
    pending status, clears the completion flag and stores nothing. *)
Theorem single_corrupted_byte_is_rejected (frame : list Z) (i : nat) (x : Z)
    (s : esc_state) :
  length frame = 10%nat ->
  Forall is_u8 frame ->
  get_crc8 frame (ESC_SENSOR_BUFFSIZE - 1) = nth 9 frame 0 ->
  (i < 10)%nat ->
  is_u8 x ->
  frame !! i <> Some x ->
  tlm s = <[i := x]> frame ->
  tlmFrameDone s = true ->
  escSensorFrameStatus s = Done (ESC_SENSOR_FRAME_PENDING, set_tlmFrameDone false s).
Proof.
  intros Hlen Hbytes Hvalid Hi Hx Hne Htlm Hdone.
  apply escSensorFrameStatus_bad_crc; [exact Hdone|].
  unfold tlm_at. rewrite Htlm. change (ESC_SENSOR_BUFFSIZE - 1) with 9 in *.
  unfold get_crc8 in *. change (Z.to_nat 9) with 9%nat in *.
  rewrite !nth_lookup in *.
  destruct (Nat.eq_dec i 9%nat) as [-> | Hi9].
  - rewrite take_insert_ge by lia. rewrite Hvalid.
    rewrite list_lookup_insert_eq by lia. cbn [default].
    destruct (frame !! 9%nat) as [y|] eqn:Hy.
    + simpl. intros Heq. apply Hne. congruence.
    + apply lookup_ge_None_1 in Hy. lia.
  - rewrite list_lookup_insert_ne by exact Hi9. rewrite <- Hvalid.
    rewrite take_insert_lt by lia.
    assert (Hlt : (i < length (take 9 frame))%nat) by (rewrite length_take_le; lia).
    destruct (lookup_lt_is_Some_2 _ _ Hlt) as [b Hb].
    pose proof (take_drop_middle _ _ _ Hb) as Hmid.
    assert (Hlt' : (i < length frame)%nat) by lia.
    assert (Hb' : frame !! i = Some b) by (rewrite <- Hb; symmetry; apply lookup_take_lt; lia).
    assert (Hb8 : is_u8 b) by (eapply Forall_lookup_1; eassumption).
    assert (Hpost : Forall is_u8 (drop (S i) (take 9 frame)))
      by (apply Forall_drop, Forall_take; exact Hbytes).
    rewrite <- Hmid at 2.
    assert (Hins : <[i := x]> (take 9 frame) =
                   take i (take 9 frame) ++ x :: drop (S i) (take 9 frame)).
    { rewrite <- Hmid at 1.
      rewrite insert_app_r_alt by (rewrite length_take_le; lia).
      rewrite length_take_le by lia. rewrite Nat.sub_diag. reflexivity. }
    rewrite Hins. intros Heq.
    apply crc8_fold_one_byte in Heq; [|assumption..].
    apply Hne. rewrite Hb'. congruence.
Qed.

Lemma single_corrupted_byte_is_rejected_witness :
  escSensorFrameStatus corrupted_frame_state =
  Done (ESC_SENSOR_FRAME_PENDING, set_tlmFrameDone false corrupted_frame_state).
Proof.
  apply (single_corrupted_byte_is_rejected
           [25; 6; 64; 0; 200; 1; 44; 0; 120; 148] 2 65 corrupted_frame_state).
  - reflexivity.
  - repeat constructor; unfold is_u8; lia.
  - vm_compute. reflexivity.
  - lia.
  - unfold is_u8. lia.
  - discriminate.
  - reflexivity.
  - reflexivity.
Defined.

(** X5. Checksum residue: for a byte [c], the checksum of a payload
    followed by [c] is zero exactly when [c] is the checksum of the
    payload; so a ten-byte frame is valid exactly when the CRC-8 taken over
    all ten bytes vanishes. *)
Theorem crc8_residue_zero_iff_checksum (payload : list Z) (c : Z) :
  is_u8 c ->
  get_crc8 (payload ++ [c]) (Z.of_nat (length payload) + 1) = 0 <->
  c = get_crc8 payload (Z.of_nat (length payload)).
Proof.
  intros Hc. unfold get_crc8.
  replace (Z.to_nat (Z.of_nat (length payload) + 1)) with (length (payload ++ [c]))
    by (rewrite length_app; simpl; lia).
  rewrite Nat2Z.id, !firstn_all, fold_left_app. cbn [fold_left].
  set (crc := fold_left (fun crc b => update_crc8 b crc) payload 0).
  assert (Hcrc : is_u8 crc) by (apply crc8_fold_range; unfold is_u8; lia).
  assert (Hzero : update_crc8 crc crc = 0).
  { unfold update_crc8. cbv zeta. rewrite Z.lxor_nilpotent. vm_compute. reflexivity. }
  split.
  - intros H0. rewrite <- Hzero in H0.
    exact (update_crc8_inj_byte _ _ _ Hc Hcrc Hcrc H0).
  - intros ->. exact Hzero.
Qed.

Lemma crc8_residue_zero_iff_checksum_witness :
  get_crc8 ([25; 6; 64; 0; 200; 1; 44; 0; 120] ++ [148]) (Z.of_nat 9 + 1) = 0 <->
  148 = get_crc8 [25; 6; 64; 0; 200; 1; 44; 0; 120] (Z.of_nat 9).
Proof.
  apply (crc8_residue_zero_iff_checksum [25; 6; 64; 0; 200; 1; 44; 0; 120] 148).
  unfold is_u8. lia.
Defined.

(** ** Decoding and the request / response cycle *)

Lemma be16_bytes (hi lo : Z) :
  is_u8 hi -> is_u8 lo -> u16 (Z.lor (Z.shiftl hi 8) lo) = 256 * hi + lo.
Proof.
  intros Hhi Hlo.
  pose (g := fun a b : Z => u16 (Z.lor (Z.shiftl a 8) b) =? 256 * a + b).
  assert (Hall : forallb (g hi) (map Z.of_nat (seq 0 256)) = true).
  { apply (u8_cases (fun a => forallb (g a) (map Z.of_nat (seq 0 256))));
      [vm_compute; reflexivity | exact Hhi]. }
  pose proof (u8_cases (g hi) Hall lo Hlo) as H. unfold g in H.
  apply Z.eqb_eq. exact H.
Qed.

Lemma be16_split (v : Z) :
  is_u16 v -> is_u8 (v / 256) /\ is_u8 (v mod 256) /\ 256 * (v / 256) + v mod 256 = v.
Proof. unfold is_u16, is_u8. intros Hv. Z.to_euclidean_division_equations. lia. Qed.

Lemma frame_payload_bytes (d : escSensorData_t) :
  wf_data d -> Forall is_u8 (frame_payload d).
Proof.
  intros (Ht & Hv & Hc & Hm & Hr). unfold frame_payload.
  destruct (be16_split _ Hv) as (? & ? & _). destruct (be16_split _ Hc) as (? & ? & _).
  destruct (be16_split _ Hm) as (? & ? & _). destruct (be16_split _ Hr) as (? & ? & _).
  repeat (apply Forall_cons_2; [assumption|]). apply Forall_nil_2.
Qed.

Lemma frame_of_bytes (d : escSensorData_t) : wf_data d -> Forall is_u8 (frame_of d).
Proof.
  intros Hd. unfold frame_of. apply Forall_app. split.
  - apply frame_payload_bytes, Hd.
  - apply Forall_cons_2; [apply get_crc8_range | apply Forall_nil_2].
Qed.

Lemma map_u8_bytes (l : list Z) : Forall is_u8 l -> map u8 l = l.
Proof.
  induction 1 as [|x l Hx _ IH]; cbn [map]; [reflexivity|].
  rewrite u8_small by exact Hx. rewrite IH. reflexivity.
Qed.

(** Decoding the buffer that holds the frame of a reading gives the
    reading back, marked fresh. *)
Lemma decodeFrame_frame_of (d : escSensorData_t) (s : esc_state) :
  wf_data d -> tlm s = frame_of d -> decodeFrame s = set_stale false d.
Proof.
  intros (Ht & Hv & Hc & Hm & Hr) Htlm.
  destruct (be16_split _ Hv) as (Hv1 & Hv2 & Hv3).
  destruct (be16_split _ Hc) as (Hc1 & Hc2 & Hc3).
  destruct (be16_split _ Hm) as (Hm1 & Hm2 & Hm3).
  destruct (be16_split _ Hr) as (Hr1 & Hr2 & Hr3).
  unfold decodeFrame, tlm_at. rewrite Htlm. unfold frame_of, frame_payload.
  cbn [app nth].
  rewrite !be16_bytes by assumption.
  rewrite u8_small by exact Ht.
  rewrite Hv3, Hc3, Hm3, Hr3. reflexivity.
Qed.

Lemma frame_of_checksum (d : escSensorData_t) (s : esc_state) :
  tlm s = frame_of d ->
  get_crc8 (tlm s) (ESC_SENSOR_BUFFSIZE - 1) = tlm_at s 9.
Proof.
  intros Htlm. unfold tlm_at. rewrite Htlm. unfold frame_of.
  change (ESC_SENSOR_BUFFSIZE - 1) with (Z.of_nat (length (frame_payload d))).
  rewrite get_crc8_prefix. reflexivity.
Qed.

(** A READY tick while the link is alive: the request flag of the targeted
    motor is raised and the scheduler goes to PENDING. *)
Lemma escSensorProcess_ready (MAX_SUPPORTED_MOTORS : Z) (e : env) (t : Z) (s : esc_state) :
  escSensorEnabled s = true ->
  ESC_BOOTTIME <= t / 1000 ->
  escSensorTriggerState s = ESC_SENSOR_TRIGGER_READY ->
  t / 1000 <= u32 (escLastResponseTimestamp s + 10000) ->
  escSensorProcess MAX_SUPPORTED_MOTORS e t s =
  Done (tt, set_escSensorTriggerState ESC_SENSOR_TRIGGER_PENDING
              (set_telemetryRequests (escSensorMotor s :: telemetryRequests s) s)).
Proof.
  intros Hen Hboot Hst Hlink.
  assert (Hb : (t / 1000 <? ESC_BOOTTIME) = false) by (apply Z.ltb_ge; lia).
  assert (Hl : (u32 (escLastResponseTimestamp s + 10000) <? t / 1000) = false)
    by (apply Z.ltb_ge; lia).
  unfold escSensorProcess, requestTelemetry. unfold_m.
  rewrite Hen, Hst. simpl. rewrite Hb. simpl. rewrite Hl. reflexivity.
Qed.

(** A PENDING tick within the request timeout that finds a valid frame. *)
Lemma escSensorProcess_accept (MAX_SUPPORTED_MOTORS : Z) (e : env) (t : Z) (s : esc_state) :
  is_u32 t ->
  escSensorEnabled s = true ->
  ESC_BOOTTIME <= t / 1000 ->
  escSensorTriggerState s = ESC_SENSOR_TRIGGER_PENDING ->
  t / 1000 <= u32 (escTriggerTimestamp s + ESC_REQUEST_TIMEOUT) ->
  tlmFrameDone s = true ->
  get_crc8 (tlm s) (ESC_SENSOR_BUFFSIZE - 1) = tlm_at s 9 ->
  motor_in_store s ->
  escSensorProcess MAX_SUPPORTED_MOTORS e t s =
  Done (tt, set_escLastResponseTimestamp (t / 1000)
              (set_escSensorTriggerState ESC_SENSOR_TRIGGER_READY
                 (set_escTriggerTimestamp (millis e)
                    (set_timeoutRetryCount 0
                       (set_escSensorMotor
                          (if u8 (escSensorMotor s + 1) =? getMotorCount e
                           then 0 else u8 (escSensorMotor s + 1))
                          (set_escSensorData
                             (<[Z.to_nat (escSensorMotor s) := decodeFrame s]>
                                (escSensorData s))
                             (set_tlmFrameDone false s))))))).
Proof.
  intros Ht Hen Hboot Hst Hto Hdone Hcrc Hm.
  assert (Hb : (t / 1000 <? ESC_BOOTTIME) = false) by (apply Z.ltb_ge; lia).
  assert (Hn : (u32 (escTriggerTimestamp s + ESC_REQUEST_TIMEOUT) <? t / 1000) = false)
    by (apply Z.ltb_ge; lia).
  pose proof (link_window_no_wrap t Ht) as Hl.
  unfold escSensorProcess. unfold_m.
  rewrite Hen, Hst. simpl. rewrite Hb. simpl. rewrite Hn. simpl.
  rewrite (escSensorFrameStatus_valid s Hdone Hcrc Hm).
  simpl. rewrite selectNextMotor_run. simpl. rewrite Hl. reflexivity.
Qed.

(** A PENDING tick within the request timeout with no frame complete and
    the link alive. *)
Lemma escSensorProcess_idle (MAX_SUPPORTED_MOTORS : Z) (e : env) (t : Z) (s : esc_state) :
  escSensorEnabled s = true ->
  ESC_BOOTTIME <= t / 1000 ->
  escSensorTriggerState s = ESC_SENSOR_TRIGGER_PENDING ->
  t / 1000 <= u32 (escTriggerTimestamp s + ESC_REQUEST_TIMEOUT) ->
  t / 1000 <= u32 (escLastResponseTimestamp s + 10000) ->
  tlmFrameDone s = false ->
  escSensorProcess MAX_SUPPORTED_MOTORS e t s = Done (tt, s).
Proof.
  intros Hen Hboot Hst Hto Hlink Hdone.
  assert (Hb : (t / 1000 <? ESC_BOOTTIME) = false) by (apply Z.ltb_ge; lia).
  assert (Hn : (u32 (escTriggerTimestamp s + ESC_REQUEST_TIMEOUT) <? t / 1000) = false)
    by (apply Z.ltb_ge; lia).
  assert (Hl : (u32 (escLastResponseTimestamp s + 10000) <? t / 1000) = false)
    by (apply Z.ltb_ge; lia).
  unfold escSensorProcess. unfold_m.
  rewrite Hen, Hst. simpl. rewrite Hb. simpl. rewrite Hn. simpl.
  rewrite (escSensorFrameStatus_no_frame s Hdone). simpl. rewrite Hl. reflexivity.
Qed.

(** One cycle: request, the ten bytes of a frame, acceptance. *)
Lemma cycle_run (MAX_SUPPORTED_MOTORS : Z) (e1 e2 : env)
    (t1 t2 : Z) (d : escSensorData_t) (s : esc_state) :
  escSensorEnabled s = true ->
  escSensorTriggerState s = ESC_SENSOR_TRIGGER_READY ->
  ESC_BOOTTIME <= t1 / 1000 ->
  t1 <= t2 ->
  is_u32 t2 ->
  t1 / 1000 <= u32 (escLastResponseTimestamp s + 10000) ->
  t2 / 1000 <= u32 (escTriggerTimestamp s + ESC_REQUEST_TIMEOUT) ->
  cursor_ok s ->
  tlmFramePosition s = 0 ->
  motor_in_store s ->
  wf_data d ->
  exists s',
    run MAX_SUPPORTED_MOTORS ([Tick e1 t1] ++ map Rx (frame_of d) ++ [Tick e2 t2]) s =
      Done (tt, s') /\
    escSensorData s' =
      <[Z.to_nat (escSensorMotor s) := set_stale false d]> (escSensorData s) /\
    telemetryRequests s' = escSensorMotor s :: telemetryRequests s /\
    escSensorMotor s' = (if u8 (escSensorMotor s + 1) =? getMotorCount e2
                         then 0 else u8 (escSensorMotor s + 1)) /\
    escSensorTriggerState s' = ESC_SENSOR_TRIGGER_READY /\
    escLastResponseTimestamp s' = t2 / 1000 /\
    escTriggerTimestamp s' = millis e2 /\
    timeoutRetryCount s' = 0 /\
    tlmFrameDone s' = false /\
    tlmFramePosition s' = 0 /\
    escSensorEnabled s' = true /\
    length (tlm s') = 10%nat /\
    escSensorPort s' = escSensorPort s /\
    totalRetryCount s' = totalRetryCount s.
Proof.
  intros Hen Hst Hboot Ht12 Ht2 Hlink Hto Hok Hpos Hm Hd.
  set (s1 := set_escSensorTriggerState ESC_SENSOR_TRIGGER_PENDING
               (set_telemetryRequests (escSensorMotor s :: telemetryRequests s) s)).
  assert (Hrun1 : escSensorProcess MAX_SUPPORTED_MOTORS e1 t1 s = Done (tt, s1))
    by (apply escSensorProcess_ready; assumption).
  assert (Hlenf : length (frame_of d) = 10%nat) by reflexivity.
  destruct (receive_segment MAX_SUPPORTED_MOTORS (frame_of d) s1)
    as (s2 & Hrun2 & Htlm2 & Hpos2 & Hdone2 & Hsch);
    [discriminate | exact Hok | rewrite Hlenf; simpl; lia |].
  change (tlmFramePosition s1) with (tlmFramePosition s) in Htlm2, Hpos2, Hdone2.
  rewrite Hlenf, Hpos in Htlm2, Hpos2, Hdone2.
  change (0 + Z.of_nat 10 =? 10) with true in Hpos2, Hdone2.
  cbn [andb negb Nat.eqb] in Hpos2, Hdone2.
  change (Z.to_nat 0) with 0%nat in Htlm2. cbn [firstn app Nat.add] in Htlm2.
  destruct Hok as [_ Hbuf].
  rewrite drop_ge in Htlm2 by (change (tlm s1) with (tlm s); lia).
  rewrite app_nil_r, (map_u8_bytes _ (frame_of_bytes d Hd)) in Htlm2.
  pose proof Hsch as Hsch0.
  destruct Hsch as (_ & Edata & Etrig & Elast & Ecnt & Etot & Emot & Een & Est & Ereq).
  cbn in Edata, Etrig, Elast, Ecnt, Etot, Emot, Een, Est, Ereq.
  assert (Hboot2 : ESC_BOOTTIME <= t2 / 1000).
  { unfold ESC_BOOTTIME in *. Z.to_euclidean_division_equations. lia. }
  assert (Hm2 : motor_in_store s2) by (unfold motor_in_store; rewrite Emot, Edata; exact Hm).
  assert (Hrun3 := escSensorProcess_accept MAX_SUPPORTED_MOTORS e2 t2 s2 Ht2).
  rewrite Een, Est, Etrig, Emot, Edata in Hrun3.
  rewrite (decodeFrame_frame_of d s2 Hd Htlm2) in Hrun3.
  specialize (Hrun3 Hen Hboot2 eq_refl Hto Hdone2 (frame_of_checksum d s2 Htlm2) Hm2).
  eexists. split.
  { cbn [app run step]. unfold bind at 1. cbn [step]. rewrite Hrun1.
    rewrite run_app, Hrun2. cbn [run step]. unfold bind, ret. rewrite Hrun3. reflexivity. }
  assert (Hlen2 : length (tlm s2) = 10%nat) by (rewrite Htlm2; reflexivity).
  destruct Hsch0 as (Eport & _).
  cbn. rewrite Ereq, Hpos2, Een, Hen, Hlen2, Eport, Etot. repeat split; reflexivity.
Qed.


(** X6. One request / response cycle is a round trip for the reading. From
    READY with an empty, aligned frame buffer: a tick raises the request
    flag of the targeted motor; the ten bytes of the frame of a reading
    [d] arrive; a second tick, no later than [ESC_REQUEST_TIMEOUT] ms after
    the trigger time, stores exactly [d], marked fresh, in the entry of the
    motor that was asked, moves on to the next motor with the retry
    counter cleared, and takes the time of that tick as the time of the
    last response. *)
Theorem request_response_cycle_stores_reading (MAX_SUPPORTED_MOTORS : Z) (e1 e2 : env)
    (t1 t2 : Z) (d : escSensorData_t) (s : esc_state) :
  escSensorEnabled s = true ->
  escSensorTriggerState s = ESC_SENSOR_TRIGGER_READY ->
  ESC_BOOTTIME <= t1 / 1000 ->
  t1 <= t2 ->
  is_u32 t2 ->
  t1 / 1000 <= u32 (escLastResponseTimestamp s + 10000) ->
  t2 / 1000 <= u32 (escTriggerTimestamp s + ESC_REQUEST_TIMEOUT) ->
  cursor_ok s ->
  tlmFramePosition s = 0 ->
  motor_in_store s ->
  wf_data d ->
  exists s',
    run MAX_SUPPORTED_MOTORS ([Tick e1 t1] ++ map Rx (frame_of d) ++ [Tick e2 t2]) s =
      Done (tt, s') /\
    escSensorData s' =
      <[Z.to_nat (escSensorMotor s) := set_stale false d]> (escSensorData s) /\
    telemetryRequests s' = escSensorMotor s :: telemetryRequests s /\
    escSensorMotor s' = (if u8 (escSensorMotor s + 1) =? getMotorCount e2
                         then 0 else u8 (escSensorMotor s + 1)) /\
    escSensorTriggerState s' = ESC_SENSOR_TRIGGER_READY /\
    escLastResponseTimestamp s' = t2 / 1000 /\
    escTriggerTimestamp s' = millis e2 /\
    timeoutRetryCount s' = 0 /\
    tlmFrameDone s' = false /\
    tlmFramePosition s' = 0 /\
    escSensorEnabled s' = true.
Proof.
  intros Hen Hst Hboot Ht12 Ht2 Hlink Hto Hok Hpos Hm Hd.
  destruct (cycle_run MAX_SUPPORTED_MOTORS e1 e2 t1 t2 d s Hen Hst Hboot Ht12 Ht2 Hlink Hto
              Hok Hpos Hm Hd)
    as (s' & Hrun & Hdata & Hreq & Hmot & Hph & Hlast & Htrig & Hcnt & Hdone & Hp & He & _).
  exists s'. split; [exact Hrun|]. split; [exact Hdata|]. split; [exact Hreq|].
  split; [exact Hmot|]. split; [exact Hph|]. split; [exact Hlast|]. split; [exact Htrig|].
  split; [exact Hcnt|]. split; [exact Hdone|]. split; [exact Hp | exact He].
Qed.

Lemma request_response_cycle_stores_reading_witness :
  exists s',
    run 4 ([tick 4 0 5001000] ++ map Rx (frame_of (mkData true 25 1600 200 300 120)) ++
           [tick 4 0 5002000]) ready_state = Done (tt, s') /\
    escSensorData s' !! 1%nat = Some (mkData false 25 1600 200 300 120) /\
    telemetryRequests s' = [1] /\
    escSensorMotor s' = 2 /\
    escSensorTriggerState s' = ESC_SENSOR_TRIGGER_READY.
Proof.
  destruct (request_response_cycle_stores_reading 4 (env_at 4 0 5001000) (env_at 4 0 5002000)
              5001000 5002000 (mkData true 25 1600 200 300 120) ready_state)
    as (s' & Hrun & Hdata & Hreq & Hmot & Hst & _).
  - reflexivity.
  - reflexivity.
  - vm_compute. discriminate.
  - lia.
  - unfold is_u32. lia.
  - vm_compute. discriminate.
  - vm_compute. discriminate.
  - split; [simpl; lia | reflexivity].
  - reflexivity.
  - unfold motor_in_store. simpl. lia.
  - unfold wf_data, is_u8, is_u16. simpl. lia.
  - exists s'. split; [exact Hrun|]. rewrite Hdata, Hreq, Hmot, Hst.
    repeat split; reflexivity.
Defined.

(** ** Every path of a tick *)

Lemma Forall2_pointwise_r {A : Type} (P : A -> A -> Prop) (g : A -> A)
    (d0 d1 d' : list A) :
  Forall2 P d0 d1 ->
  length d' = length d1 ->
  (forall k r, d1 !! k = Some r -> d' !! k = Some r \/ d' !! k = Some (g r)) ->
  (forall a b, P a b -> P a (g b)) ->
  Forall2 P d0 d'.
Proof.
  intros H01 Hlen Hpt Hg.
  apply Forall2_same_length_lookup_2.
  - rewrite Hlen. apply (Forall2_length _ _ _ H01).
  - intros k x y Hx Hy.
    destruct (Forall2_lookup_l _ _ _ _ _ H01 Hx) as (r & Hr & Hxr).
    destruct (Hpt k r Hr) as [E | E]; rewrite E in Hy; injection Hy as <-.
    + exact Hxr.
    + apply Hg, Hxr.
Qed.

Lemma insert_pointwise {A : Type} (g : A -> A) (d : list A) (i : nat) (r : A) :
  d !! i = Some r ->
  forall k x, d !! k = Some x ->
    <[i := g r]> d !! k = Some x \/ <[i := g r]> d !! k = Some (g x).
Proof.
  intros Hr k x Hx. destruct (Nat.eq_dec i k) as [<- | Hne].
  - right. rewrite list_lookup_insert_eq by (apply lookup_lt_is_Some_1; eauto).
    congruence.
  - left. rewrite list_lookup_insert_ne by exact Hne. exact Hx.
Qed.

Lemma entry_step_stale (s : esc_state) (a b : escSensorData_t) :
  entry_step s a b -> entry_step s a (set_stale true b).
Proof.
  unfold entry_step. intros [-> | [-> | (Hd & Hc & Hp & [-> | ->])]].
  - right. left. reflexivity.
  - right. left. reflexivity.
  - right. right. repeat split; try assumption. right. reflexivity.
  - right. right. repeat split; try assumption. right. reflexivity.
Qed.

Lemma entry_step_refl (s : esc_state) (d : list escSensorData_t) :
  Forall2 (entry_step s) d d.
Proof.
  apply Forall2_same_length_lookup_2; [reflexivity|].
  intros i x y Hx Hy. left. congruence.
Qed.

Lemma decodeFrame_buffer (s s1 : esc_state) : tlm s1 = tlm s -> decodeFrame s1 = decodeFrame s.
Proof. intros H. unfold decodeFrame, tlm_at. rewrite H. reflexivity. Qed.

Lemma next_motor_below_count (count m : Z) :
  0 < count -> 0 <= m < count ->
  0 <= (if u8 (m + 1) =? count then 0 else u8 (m + 1)) < count.
Proof.
  intros Hc Hm. destruct (u8 (m + 1) =? count) eqn:E; [lia|].
  apply Z.eqb_neq in E. unfold u8 in *.
  assert (0 <= (m + 1) mod 256 <= m + 1)
    by (Z.to_euclidean_division_equations; lia).
  lia.
Qed.

Section Tick.

Variable MAX_SUPPORTED_MOTORS : Z.
Variable count : Z.
Variable e : env.
Variable t : Z.

Hypothesis count_pos : 0 < count.
Hypothesis count_max : count <= MAX_SUPPORTED_MOTORS.
Hypothesis e_count : getMotorCount e = count.
Hypothesis e_reset : 0 <= uninit_i e.

(** The link check that ends a tick, from an intermediate state [s1] of a
    tick that started in [s]. *)
Lemma link_check_total (s s1 : esc_state) :
  sched_ok MAX_SUPPORTED_MOTORS count s1 ->
  tick_post t s s1 ->
  escSensorEnabled s1 = escSensorEnabled s ->
  escSensorPort s1 = escSensorPort s ->
  exists s',
    (if u32 (escLastResponseTimestamp s1 + 10000) <? t / 1000
     then fun s0 => resetEscSensorData MAX_SUPPORTED_MOTORS e
                      (set_escSensorEnabled false (set_escSensorPort None s0))
     else fun s0 => Done (tt, s0)) s1 = Done (tt, s') /\
    sched_ok MAX_SUPPORTED_MOTORS count s' /\
    tick_post t s s' /\
    link_post MAX_SUPPORTED_MOTORS e t s s'.
Proof.
  intros Hok Hpost Hen1 Hport1.
  destruct (u32 (escLastResponseTimestamp s1 + 10000) <? t / 1000) eqn:Hexp.
  - destruct Hok as [Hlen Hmot].
    destruct (resetEscSensorData_ok MAX_SUPPORTED_MOTORS e
                (set_escSensorEnabled false (set_escSensorPort None s1)) e_reset)
      as (d' & Hreset & Hlen' & Hpt); [simpl; lia|].
    simpl in Hlen', Hpt.
    exists (set_escSensorData d' (set_escSensorEnabled false (set_escSensorPort None s1))).
    split; [exact Hreset|]. split; [|split].
    + split; simpl; [rewrite Hlen'; exact Hlen | exact Hmot].
    + destruct Hpost as (Hbuf & Hst & Hreq & Hflag & Hen & Hlast & Hkeep & Hphase & Hretry).
      split; [exact Hbuf|]. split; [|split; [exact Hreq | split; [exact Hflag|]]].
      * simpl. apply (Forall2_pointwise_r _ (set_stale true) _ _ _ Hst Hlen').
        -- intros k r Hr. rewrite (Hpt k r Hr). destruct (_ && _); [right | left]; reflexivity.
        -- apply entry_step_stale.
      * split; [simpl; discriminate|]. split; [exact Hlast|]. split; [exact Hkeep|].
        split; [exact Hphase | exact Hretry].
    + unfold link_post. simpl. rewrite Hexp.
      split; [reflexivity|]. split; [reflexivity|].
      intros k r' Hk Hr'.
      assert (Hlt : (k < length (escSensorData s1))%nat).
      { rewrite <- Hlen'. apply lookup_lt_is_Some_1. eauto. }
      destruct (lookup_lt_is_Some_2 _ _ Hlt) as [r Hr].
      rewrite (Hpt k r Hr) in Hr'.
      assert (H1 : (uninit_i e <=? Z.of_nat k) = true) by (apply Z.leb_le; lia).
      assert (H2 : (Z.of_nat k <? MAX_SUPPORTED_MOTORS) = true) by (apply Z.ltb_lt; lia).
      rewrite H1, H2 in Hr'. injection Hr' as <-. reflexivity.
  - exists s1. split; [reflexivity|]. split; [exact Hok|]. split; [exact Hpost|].
    unfold link_post. rewrite Hexp. split; assumption.
Qed.

(** The frame check of the PENDING phase followed by the link check. *)
Lemma frame_check_total (s s1 : esc_state) :
  escSensorTriggerState s = ESC_SENSOR_TRIGGER_PENDING ->
  sched_ok MAX_SUPPORTED_MOTORS count s1 ->
  tick_post t s s1 ->
  escSensorEnabled s1 = escSensorEnabled s ->
  escSensorPort s1 = escSensorPort s ->
  exists s',
    match
      match escSensorFrameStatus s1 with
      | Done (a, s2) =>
          (if a =? ESC_SENSOR_FRAME_COMPLETE
           then fun s0 =>
                  match selectNextMotor e s0 with
                  | Done (_, s3) =>
                      Done (tt, set_escLastResponseTimestamp (t / 1000)
                                  (set_escSensorTriggerState ESC_SENSOR_TRIGGER_READY s3))
                  | Fault => Fault
                  end
           else fun s0 => Done (tt, s0)) s2
      | Fault => Fault
      end
    with
    | Done (_, s4) =>
        (if u32 (escLastResponseTimestamp s4 + 10000) <? t / 1000
         then fun s0 => resetEscSensorData MAX_SUPPORTED_MOTORS e
                          (set_escSensorEnabled false (set_escSensorPort None s0))
         else fun s0 => Done (tt, s0)) s4
    | Fault => Fault
    end = Done (tt, s') /\
    sched_ok MAX_SUPPORTED_MOTORS count s' /\
    tick_post t s s' /\
    link_post MAX_SUPPORTED_MOTORS e t s s'.
Proof.
  intros Hpend Hok Hpost Hen1 Hport1.
  pose proof Hok as [Hlen Hmot].
  pose proof Hpost as (Hbuf & Hst & Hreq & Hflag & Hen & Hlast & Hkeep & Hphase & Hretry).
  destruct (tlmFrameDone s1) eqn:Hdone.
  - destruct (Z.eq_dec (get_crc8 (tlm s1) (ESC_SENSOR_BUFFSIZE - 1)) (tlm_at s1 9))
      as [Hcrc | Hcrc].
    + assert (Hm : motor_in_store s1) by (unfold motor_in_store; lia).
      rewrite (escSensorFrameStatus_valid s1 Hdone Hcrc Hm).
      change (ESC_SENSOR_FRAME_COMPLETE =? ESC_SENSOR_FRAME_COMPLETE) with true.
      cbv iota beta. rewrite selectNextMotor_run.
      apply link_check_total; [| |exact Hen1 | exact Hport1].
      * split; simpl; [rewrite length_insert; exact Hlen|].
        rewrite e_count. apply next_motor_below_count; assumption.
      * split; [exact Hbuf|].
        split; [|split; [exact Hreq | split; [|split; [|split; [|split; [|split]]]]]].
        -- simpl.
           assert (Hlt : (Z.to_nat (escSensorMotor s1) < length (escSensorData s1))%nat) by lia.
           destruct (lookup_lt_is_Some_2 _ _ Hlt) as [r Hr].
           apply (Forall2_pointwise_r _ (fun _ => decodeFrame s1) _ _ _ Hst).
           ++ apply length_insert.
           ++ apply (insert_pointwise (fun _ => decodeFrame s1) _ _ r Hr).
           ++ intros a b _. right. right.
              split; [apply Hflag; reflexivity|].
              split; [destruct Hbuf as [Etlm _]; unfold tlm_at in *;
                      rewrite <- Etlm; exact Hcrc|].
              split; [exact Hpend|].
              left. apply decodeFrame_buffer. apply Hbuf.
        -- simpl. discriminate.
        -- exact Hen.
        -- right. reflexivity.
        -- intros _ [Hno | Hbad]; exfalso.
           ++ rewrite (Hflag eq_refl) in Hno. discriminate.
           ++ apply Hbad. destruct Hbuf as [Etlm _]. unfold tlm_at in *.
              rewrite <- Etlm. exact Hcrc.
        -- simpl. rewrite Hpend. exact I.
        -- intros _. simpl. lia.
    + rewrite (escSensorFrameStatus_bad_crc s1 Hdone Hcrc).
      change (ESC_SENSOR_FRAME_PENDING =? ESC_SENSOR_FRAME_COMPLETE) with false.
      cbv iota beta. apply link_check_total; [exact Hok | | exact Hen1 | exact Hport1].
      split; [exact Hbuf|]. split; [exact Hst|]. split; [exact Hreq|].
      split; [simpl; discriminate|]. split; [exact Hen|]. split; [exact Hlast|].
      split; [exact Hkeep|]. split; [exact Hphase | exact Hretry].
  - rewrite (escSensorFrameStatus_no_frame s1 Hdone).
    change (ESC_SENSOR_FRAME_PENDING =? ESC_SENSOR_FRAME_COMPLETE) with false.
    cbv iota beta. apply link_check_total; assumption.
Qed.

Lemma tick_post_refl (s : esc_state) :
  requested t s = [] -> tick_post t s s.
Proof.
  intros Hreq. split; [apply same_buffer_refl|]. split; [apply entry_step_refl|].
  split; [rewrite Hreq; reflexivity|]. split; [intros H; exact H|].
  split; [intros H; exact H|]. split; [left; reflexivity|].
  split; [intros _ _; reflexivity|].
  split; [destruct (escSensorTriggerState s); exact I | intros H; exact H].
Qed.

(** A tick of the enabled sensor after the boot time never faults while
    the targeted motor is below a constant motor count that fits the
    store; it ends in a state related to the first by [tick_post] and
    [link_post]. *)
Lemma escSensorProcess_running (s : esc_state) :
  sched_ok MAX_SUPPORTED_MOTORS count s ->
  escSensorEnabled s = true ->
  (t / 1000 <? ESC_BOOTTIME) = false ->
  exists s',
    escSensorProcess MAX_SUPPORTED_MOTORS e t s = Done (tt, s') /\
    sched_ok MAX_SUPPORTED_MOTORS count s' /\
    tick_post t s s' /\
    link_post MAX_SUPPORTED_MOTORS e t s s'.
Proof.
  intros Hok Hen Hb. pose proof Hok as [Hlen Hmot].
  unfold escSensorProcess, freeEscSensorPort, requestTelemetry. unfold_m.
  rewrite Hen, Hb. simpl.
  destruct (escSensorTriggerState s) eqn:Hst; simpl.
  - apply (link_check_total s
             (set_escLastResponseTimestamp (t / 1000)
                (set_escTriggerTimestamp (t / 1000)
                   (set_escSensorMotor 0
                      (set_escSensorTriggerState ESC_SENSOR_TRIGGER_READY s)))));
      [| |reflexivity..].
    + split; simpl; [exact Hlen | lia].
    + split; [split; reflexivity|]. split; [apply entry_step_refl|].
      split; [unfold requested; rewrite Hst; reflexivity|].
      split; [intros H; exact H|]. split; [intros H; exact H|].
      split; [right; reflexivity|]. split; [intros Hne; contradiction|].
      split; [rewrite Hst; exact I | intros H; exact H].
  - apply (link_check_total s
             (set_escSensorTriggerState ESC_SENSOR_TRIGGER_PENDING
                (set_telemetryRequests (escSensorMotor s :: telemetryRequests s) s)));
      [| |reflexivity..].
    + split; simpl; [exact Hlen | exact Hmot].
    + split; [split; reflexivity|]. split; [apply entry_step_refl|].
      split; [unfold requested; rewrite Hst, Hen, Hb; reflexivity|].
      split; [intros H; exact H|]. split; [intros H; exact H|].
      split; [left; reflexivity|]. split; [intros _ _; reflexivity|].
      split; [rewrite Hst; exact I | intros H; exact H].
  - assert (Hreq : requested t s = []) by (unfold requested; rewrite Hst; reflexivity).
    destruct (u32 (escTriggerTimestamp s + ESC_REQUEST_TIMEOUT) <? t / 1000); simpl.
    + destruct (u8 (timeoutRetryCount s + 1) =? 4) eqn:H4; simpl.
      * match goal with
        | |- context [write_escSensorData ?i ?f ?st] =>
            destruct (write_escSensorData_ok i f st) as (r & Hr & Hw);
              [simpl; lia | rewrite Hw]
        end.
        simpl in Hr.
        rewrite selectNextMotor_run. simpl.
        rewrite DEBUG_SET_pre_increment. simpl.
        match goal with
        | |- context [escSensorFrameStatus ?st] => apply (frame_check_total s st)
        end; [exact Hst | | | reflexivity..].
        -- split; simpl; [rewrite length_insert; exact Hlen|].
           rewrite e_count. apply next_motor_below_count; assumption.
        -- split; [split; reflexivity|].
           split; [|split; [rewrite Hreq; reflexivity |
                            split; [|split; [|split; [|split; [|split]]]]]].
           ++ simpl. apply (Forall2_pointwise_r _ (set_stale true) _ _ _ (entry_step_refl s _)).
              ** apply length_insert.
              ** apply (insert_pointwise (set_stale true) _ _ r Hr).
              ** apply entry_step_stale.
           ++ intros H; exact H.
           ++ intros _; exact Hen.
           ++ left. reflexivity.
           ++ intros _ _. reflexivity.
           ++ simpl. rewrite Hst. exact I.
           ++ intros _. simpl. lia.
      * rewrite DEBUG_SET_pre_increment. simpl.
        match goal with
        | |- context [escSensorFrameStatus ?st] => apply (frame_check_total s st)
        end; [exact Hst | | | reflexivity..].
        -- split; simpl; [exact Hlen | exact Hmot].
        -- split; [split; reflexivity|]. split; [apply entry_step_refl|].
           split; [rewrite Hreq; reflexivity|]. split; [intros H; exact H|].
           split; [intros _; exact Hen|].
           split; [left; reflexivity|]. split; [intros _ _; reflexivity|].
           split; [simpl; rewrite Hst; exact I|].
           intros Hr3. simpl. apply Z.eqb_neq in H4.
           rewrite u8_small in * by (unfold is_u8; lia). lia.
    + apply (frame_check_total s s Hst Hok); [|reflexivity..].
      apply tick_post_refl. exact Hreq.
Qed.

(** A tick before [ESC_BOOTTIME] does nothing. *)
Lemma escSensorProcess_booting (s : esc_state) :
  (t / 1000 <? ESC_BOOTTIME) = true ->
  escSensorProcess MAX_SUPPORTED_MOTORS e t s = Done (tt, s).
Proof.
  intros Hb. unfold escSensorProcess. unfold_m.
  destruct (escSensorEnabled s); simpl; [rewrite Hb|]; reflexivity.
Qed.

(** Any tick, under the same bounds. *)
Lemma escSensorProcess_total (s : esc_state) :
  sched_ok MAX_SUPPORTED_MOTORS count s ->
  exists s',
    escSensorProcess MAX_SUPPORTED_MOTORS e t s = Done (tt, s') /\
    sched_ok MAX_SUPPORTED_MOTORS count s' /\
    tick_post t s s'.
Proof.
  intros Hok.
  destruct (escSensorEnabled s) eqn:Hen.
  - destruct (t / 1000 <? ESC_BOOTTIME) eqn:Hb.
    + exists s. split; [apply escSensorProcess_booting; exact Hb|].
      split; [exact Hok|]. apply tick_post_refl. unfold requested. rewrite Hen, Hb.
      destruct (escSensorTriggerState s); reflexivity.
    + destruct (escSensorProcess_running s Hok Hen Hb) as (s' & Hrun & Hok' & Hpost & _).
      exists s'. split; [exact Hrun|]. split; [exact Hok' | exact Hpost].
  - exists s. split; [apply escSensorProcess_disabled; exact Hen|].
    split; [exact Hok|]. apply tick_post_refl. unfold requested. rewrite Hen.
    destruct (escSensorTriggerState s); reflexivity.
Qed.

End Tick.

(** ** Runs with a constant motor count *)

Lemma escSensorDataReceive_total (c : Z) (s : esc_state) :
  cursor_ok s ->
  exists s',
    escSensorDataReceive c s = Done (tt, s') /\ cursor_ok s' /\ same_scheduler s s'.
Proof.
  intros Hok.
  destruct (escSensorDataReceive_cursor c s Hok) as (s' & Hrx & Hok' & Hwait & _).
  exists s'. split; [exact Hrx|]. split; [exact Hok'|].
  destruct (escSensorTriggerState s) eqn:Hst.
  - rewrite (Hwait eq_refl). apply same_scheduler_refl.
  - destruct (escSensorDataReceive_step c s) as (s1 & Hrx1 & _ & _ & _ & Hsch);
      [congruence | exact Hok |].
    rewrite Hrx in Hrx1. injection Hrx1 as <-. exact Hsch.
  - destruct (escSensorDataReceive_step c s) as (s1 & Hrx1 & _ & _ & _ & Hsch);
      [congruence | exact Hok |].
    rewrite Hrx in Hrx1. injection Hrx1 as <-. exact Hsch.
Qed.

Lemma requested_below (count t : Z) (s : esc_state) :
  0 <= escSensorMotor s < count ->
  Forall (fun m => 0 <= m < count) (requested t s).
Proof.
  intros Hm. unfold requested.
  destruct (escSensorTriggerState s); try apply Forall_nil_2.
  destruct (_ && _); [|apply Forall_nil_2].
  apply Forall_cons_2; [exact Hm | apply Forall_nil_2].
Qed.

Lemma decodeFrame_wf (s : esc_state) : wf_data (decodeFrame s).
Proof.
  unfold wf_data, decodeFrame. simpl.
  repeat split; first [apply u8_range | apply u16_range].
Qed.

Lemma entry_step_wf (s : esc_state) (d d' : list escSensorData_t) :
  Forall2 (entry_step s) d d' -> Forall wf_data d -> Forall wf_data d'.
Proof.
  induction 1 as [|r r' d d' Hr _ IH]; intros Hwf.
  - apply Forall_nil_2.
  - apply Forall_cons_1 in Hwf. destruct Hwf as [Hwr Hwd].
    apply Forall_cons_2; [|apply IH, Hwd].
    destruct Hr as [-> | [-> | (_ & _ & _ & [-> | ->])]].
    + exact Hwr.
    + exact Hwr.
    + apply decodeFrame_wf.
    + apply (decodeFrame_wf s).
Qed.

(** The bounds are kept by every event of a steady run. *)
Lemma steady_run_invariant (MAX_SUPPORTED_MOTORS count : Z) (evs : list event)
    (s : esc_state) :
  0 < count <= MAX_SUPPORTED_MOTORS ->
  Forall (steady count) evs ->
  sched_ok MAX_SUPPORTED_MOTORS count s ->
  cursor_ok s ->
  requests_below count s ->
  Forall wf_data (escSensorData s) ->
  exists s',
    run MAX_SUPPORTED_MOTORS evs s = Done (tt, s') /\
    sched_ok MAX_SUPPORTED_MOTORS count s' /\
    cursor_ok s' /\
    requests_below count s' /\
    Forall wf_data (escSensorData s').
Proof.
  intros [Hc1 Hc2] Hall. revert s.
  induction Hall as [|ev evs Hev _ IH]; intros s Hok Hcur Hreq Hwf.
  - exists s. split; [reflexivity|].
    split; [exact Hok | split; [exact Hcur | split; [exact Hreq | exact Hwf]]].
  - assert (Hstep : exists s1,
              step MAX_SUPPORTED_MOTORS ev s = Done (tt, s1) /\
              sched_ok MAX_SUPPORTED_MOTORS count s1 /\ cursor_ok s1 /\
              requests_below count s1 /\ Forall wf_data (escSensorData s1)).
    { destruct ev as [e t | c]; cbn [step steady] in *.
      - destruct Hev as [Hec Hei].
        destruct (escSensorProcess_total MAX_SUPPORTED_MOTORS count e t Hc1 Hc2 Hec Hei s Hok)
          as (s1 & Hrun & Hok1 & (Hb1 & Hb2) & Hst & Hrq & _).
        exists s1. split; [exact Hrun|]. split; [exact Hok1|]. split; [|split].
        + destruct Hcur as [Hp Hl]. split; [rewrite Hb2; exact Hp | rewrite Hb1; exact Hl].
        + unfold requests_below. rewrite Hrq. apply Forall_app. split; [|exact Hreq].
          apply requested_below. apply Hok.
        + exact (entry_step_wf s _ _ Hst Hwf).
      - destruct (escSensorDataReceive_total c s Hcur) as (s1 & Hrx & Hcur1 & Hsch).
        destruct Hsch as (_ & Ed & _ & _ & _ & _ & Em & _ & _ & Er).
        exists s1. split; [exact Hrx|]. split; [|split; [exact Hcur1|split]].
        + unfold sched_ok. rewrite Ed, Em. exact Hok.
        + unfold requests_below. rewrite Er. exact Hreq.
        + rewrite Ed. exact Hwf. }
    destruct Hstep as (s1 & Hs1 & Hok1 & Hcur1 & Hreq1 & Hwf1).
    destruct (IH s1 Hok1 Hcur1 Hreq1 Hwf1) as (s' & Hrun & Hpost).
    exists s'. split; [|exact Hpost].
    cbn [run]. unfold bind. rewrite Hs1. exact Hrun.
Qed.


(** X7. Memory safety of the scheduler and the receive callback. While
    [getMotorCount()] keeps returning the same [count] with
    [0 < count <= MAX_SUPPORTED_MOTORS] and the loop variable of
    [resetEscSensorData] does not start below zero, no sequence of ticks
    and received bytes makes an out-of-bounds access: every run returns,
    the store keeps its size, the targeted motor stays below [count], the
    write cursor stays inside the frame buffer, every telemetry request
    raised is for a motor below [count], and every stored reading stays
    within the widths of its fields. *)
Theorem steady_run_stays_in_bounds (MAX_SUPPORTED_MOTORS count : Z) (evs : list event)
    (s : esc_state) :
  0 < count <= MAX_SUPPORTED_MOTORS ->
  Forall (steady count) evs ->
  sched_ok MAX_SUPPORTED_MOTORS count s ->
  cursor_ok s ->
  requests_below count s ->
  Forall wf_data (escSensorData s) ->
  exists s',
    run MAX_SUPPORTED_MOTORS evs s = Done (tt, s') /\
    sched_ok MAX_SUPPORTED_MOTORS count s' /\
    cursor_ok s' /\
    requests_below count s' /\
    Forall wf_data (escSensorData s').
Proof.
  intros Hc Hall Hok Hcur Hreq Hwf.
  apply steady_run_invariant; assumption.
Qed.

Lemma steady_run_stays_in_bounds_witness :
  exists s',
    run 4 ([tick 4 0 5200000; tick 4 0 5201000] ++ map Rx (repeat 0 10) ++
           [tick 4 0 5202000; tick 4 2 20000000]) (silent_state 3) = Done (tt, s') /\
    sched_ok 4 4 s' /\ cursor_ok s' /\ requests_below 4 s' /\
    Forall wf_data (escSensorData s').
Proof.
  apply (steady_run_stays_in_bounds 4 4).
  - lia.
  - repeat (apply Forall_cons_2; [simpl; try lia; exact I|]). apply Forall_nil_2.
  - split; simpl; lia.
  - split; [simpl; lia | reflexivity].
  - apply Forall_cons_2; [lia | apply Forall_nil_2].
  - repeat (apply Forall_cons_2; [unfold wf_data, is_u8, is_u16; simpl; lia|]).
    apply Forall_nil_2.
Defined.

(** X8. A tick raises a telemetry request in exactly one situation: the
    sensor is enabled, the boot time has passed and the scheduler is in
    READY; the request is then for the targeted motor and is the only one
    of that tick. Every other tick (disabled, booting, WAIT, PENDING with
    or without timeout, with or without a frame, with or without link
    teardown) leaves the request flags alone. *)
Theorem tick_requests_exactly_when_ready (MAX_SUPPORTED_MOTORS count : Z) (e : env) (t : Z)
    (s : esc_state) :
  0 < count <= MAX_SUPPORTED_MOTORS ->
  getMotorCount e = count ->
  0 <= uninit_i e ->
  sched_ok MAX_SUPPORTED_MOTORS count s ->
  exists s',
    escSensorProcess MAX_SUPPORTED_MOTORS e t s = Done (tt, s') /\
    telemetryRequests s' =
      (match escSensorTriggerState s with
       | ESC_SENSOR_TRIGGER_READY =>
           if escSensorEnabled s && negb (t / 1000 <? ESC_BOOTTIME)
           then [escSensorMotor s] else []
       | _ => []
       end) ++ telemetryRequests s.
Proof.
  intros [Hc1 Hc2] Hec Hei Hok.
  destruct (escSensorProcess_total MAX_SUPPORTED_MOTORS count e t Hc1 Hc2 Hec Hei s Hok)
    as (s' & Hrun & _ & _ & _ & Hrq & _).
  exists s'. split; [exact Hrun | exact Hrq].
Qed.

Lemma tick_requests_exactly_when_ready_witness :
  (exists s', escSensorProcess 4 (env_at 4 0 5001000) 5001000 ready_state = Done (tt, s') /\
              telemetryRequests s' = [1]) /\
  (exists s', escSensorProcess 4 (env_at 4 0 5800000) 5800000 (silent_state 3) =
                Done (tt, s') /\
              telemetryRequests s' = [1]).
Proof.
  split.
  - destruct (tick_requests_exactly_when_ready 4 4 (env_at 4 0 5001000) 5001000 ready_state)
      as (s' & Hrun & Hrq); [lia | reflexivity | simpl; lia | split; simpl; lia |].
    exists s'. split; [exact Hrun | exact Hrq].
  - destruct (tick_requests_exactly_when_ready 4 4 (env_at 4 0 5800000) 5800000
                (silent_state 3))
      as (s' & Hrun & Hrq); [lia | reflexivity | simpl; lia | split; simpl; lia |].
    exists s'. split; [exact Hrun | exact Hrq].
Defined.

Lemma stale_or_same_trans (a b c : escSensorData_t) :
  stale_or_same a b -> stale_or_same b c -> stale_or_same a c.
Proof.
  unfold stale_or_same. intros [-> | ->] [-> | ->]; auto.
Qed.

(** X9. Only a received frame makes a reading fresh. With no complete
    frame waiting, any sequence of ticks (timeouts, motor skips, link
    teardown included) leaves every entry of the store either untouched or
    with only its stale mark set; the measured fields never change and no
    stale entry becomes fresh. The completion flag stays clear. *)
Theorem ticks_alone_never_freshen (MAX_SUPPORTED_MOTORS count : Z) (evs : list event)
    (s : esc_state) :
  0 < count <= MAX_SUPPORTED_MOTORS ->
  Forall (steady count) evs ->
  Forall is_tick evs ->
  sched_ok MAX_SUPPORTED_MOTORS count s ->
  tlmFrameDone s = false ->
  exists s',
    run MAX_SUPPORTED_MOTORS evs s = Done (tt, s') /\
    tlmFrameDone s' = false /\
    Forall2 stale_or_same (escSensorData s) (escSensorData s').
Proof.
  intros [Hc1 Hc2] Hall. revert s.
  induction Hall as [|ev evs Hev _ IH]; intros s Htick Hok Hdone.
  - exists s. split; [reflexivity|]. split; [exact Hdone|].
    apply Forall2_same_length_lookup_2; [reflexivity|].
    intros i x y Hx Hy. left. congruence.
  - apply Forall_cons_1 in Htick. destruct Htick as [Hev' Htick].
    destruct ev as [e t | c]; [|destruct Hev'].
    destruct Hev as [Hec Hei].
    destruct (escSensorProcess_total MAX_SUPPORTED_MOTORS count e t Hc1 Hc2 Hec Hei s Hok)
      as (s1 & Hrun & Hok1 & _ & Hst & _ & Hflag & _).
    assert (Hdone1 : tlmFrameDone s1 = false).
    { destruct (tlmFrameDone s1); [|reflexivity]. rewrite Hflag in Hdone; [discriminate|].
      reflexivity. }
    destruct (IH s1 Htick Hok1 Hdone1) as (s' & Hrun' & Hdone' & Hst').
    exists s'. split; [|split; [exact Hdone'|]].
    + cbn [run step]. unfold bind. cbn [step]. rewrite Hrun. exact Hrun'.
    + eapply Forall2_trans; [| |exact Hst'].
      * intros a b c. apply stale_or_same_trans.
      * eapply Forall2_impl; [exact Hst|].
        intros a b [-> | [-> | (Hd & _)]]; [left | right | congruence]; reflexivity.
Qed.

Lemma ticks_alone_never_freshen_witness :
  exists s',
    run 4 [tick 4 0 5200000; tick 4 0 5201000; tick 4 0 5400000; tick 4 1 20000000]
      (silent_state 3) = Done (tt, s') /\
    tlmFrameDone s' = false /\
    Forall2 stale_or_same (escSensorData (silent_state 3)) (escSensorData s').
Proof.
  apply (ticks_alone_never_freshen 4 4).
  - lia.
  - repeat (apply Forall_cons_2; [simpl; lia|]). apply Forall_nil_2.
  - repeat (apply Forall_cons_2; [exact I|]). apply Forall_nil_2.
  - split; simpl; lia.
  - reflexivity.
Defined.

(** X10. Nothing in the tick or in the receive callback re-enables the
    sensor: once [escSensorEnabled] is false, every sequence of ticks and
    received bytes returns and changes at most the frame buffer, its
    cursor and the completion flag; the store, the request flags, the
    port handle and all scheduler variables stay as they are. *)
Theorem disabled_sensor_stays_inert (MAX_SUPPORTED_MOTORS : Z) (evs : list event)
    (s : esc_state) :
  escSensorEnabled s = false ->
  cursor_ok s ->
  exists s',
    run MAX_SUPPORTED_MOTORS evs s = Done (tt, s') /\
    escSensorEnabled s' = false /\
    same_scheduler s s'.
Proof.
  revert s. induction evs as [|ev evs IH]; intros s Hen Hcur.
  - exists s. split; [reflexivity|]. split; [exact Hen | apply same_scheduler_refl].
  - assert (Hstep : exists s1,
              step MAX_SUPPORTED_MOTORS ev s = Done (tt, s1) /\
              cursor_ok s1 /\ same_scheduler s s1).
    { destruct ev as [e t | c]; cbn [step].
      - exists s. split; [apply escSensorProcess_disabled; exact Hen|].
        split; [exact Hcur | apply same_scheduler_refl].
      - apply escSensorDataReceive_total. exact Hcur. }
    destruct Hstep as (s1 & Hs1 & Hcur1 & Hsch1).
    assert (Hen1 : escSensorEnabled s1 = false).
    { destruct Hsch1 as (_ & _ & _ & _ & _ & _ & _ & E & _). rewrite E. exact Hen. }
    destruct (IH s1 Hen1 Hcur1) as (s' & Hrun & Hen' & Hsch').
    exists s'. split; [|split; [exact Hen' | eapply same_scheduler_trans; eassumption]].
    cbn [run]. unfold bind. rewrite Hs1. exact Hrun.
Qed.

Lemma disabled_sensor_stays_inert_witness :
  exists s',
    run 4 [tick 4 0 6000000; Rx 7; tick 4 0 7000000]
      (set_escSensorEnabled false mid_frame_state) = Done (tt, s') /\
    escSensorEnabled s' = false /\
    same_scheduler (set_escSensorEnabled false mid_frame_state) s'.
Proof.
  apply (disabled_sensor_stays_inert 4).
  - reflexivity.
  - split; [simpl; lia | reflexivity].
Defined.

(** ** Link teardown for any start of the reset loop *)

(** X11. Link teardown, whatever non-negative value the loop variable of
    [resetEscSensorData] starts from. When more than 10000 ms have passed
    since the last response, a tick outside WAIT that finds no valid frame
    clears the enabled flag and the port handle and marks stale every
    entry from the start index of the loop up to [MAX_SUPPORTED_MOTORS];
    no entry is changed in any other way (entries below the start index
    keep their freshness unless the same tick skipped their motor), and
    the resulting state is left alone by every later tick. *)
Theorem link_timeout_tears_down (MAX_SUPPORTED_MOTORS count : Z) (e : env) (t : Z)
    (s : esc_state) :
  0 < count <= MAX_SUPPORTED_MOTORS ->
  getMotorCount e = count ->
  0 <= uninit_i e ->
  sched_ok MAX_SUPPORTED_MOTORS count s ->
  escSensorEnabled s = true ->
  ESC_BOOTTIME <= t / 1000 ->
  escSensorTriggerState s <> ESC_SENSOR_TRIGGER_WAIT ->
  tlmFrameDone s = false \/
    get_crc8 (tlm s) (ESC_SENSOR_BUFFSIZE - 1) <> tlm_at s 9 ->
  u32 (escLastResponseTimestamp s + 10000) < t / 1000 ->
  exists s',
    escSensorProcess MAX_SUPPORTED_MOTORS e t s = Done (tt, s') /\
    escSensorEnabled s' = false /\
    escSensorPort s' = None /\
    (forall (k : nat) (r' : escSensorData_t),
       uninit_i e <= Z.of_nat k < MAX_SUPPORTED_MOTORS ->
       escSensorData s' !! k = Some r' -> stale r' = true) /\
    Forall2 stale_or_same (escSensorData s) (escSensorData s') /\
    isEscSensorActive s' = Done (false, s') /\
    (forall (e' : env) (t' : Z),
       escSensorProcess MAX_SUPPORTED_MOTORS e' t' s' = Done (tt, s')).
Proof.
  intros [Hc1 Hc2] Hec Hei Hok Hen Hboot Hst Hframe Hexp.
  assert (Hb : (t / 1000 <? ESC_BOOTTIME) = false) by (apply Z.ltb_ge; lia).
  destruct (escSensorProcess_running MAX_SUPPORTED_MOTORS count e t Hc1 Hc2 Hec Hei s Hok Hen Hb)
    as (s' & Hrun & _ & Hpost & Hlink).
  destruct Hpost as (_ & Hstore & _ & _ & _ & _ & Hkeep & _).
  unfold link_post in Hlink. rewrite (Hkeep Hst Hframe) in Hlink.
  apply Z.ltb_lt in Hexp. rewrite Hexp in Hlink. destruct Hlink as (Hen' & Hport' & Hall).
  exists s'. split; [exact Hrun|]. split; [exact Hen'|]. split; [exact Hport'|].
  split; [exact Hall|]. split; [|split].
  - eapply Forall2_impl; [exact Hstore|].
    intros a b [-> | [-> | (Hd & Hcrc & _)]]; [left; reflexivity | right; reflexivity |].
    exfalso. destruct Hframe as [Hno | Hbad]; [congruence | exact (Hbad Hcrc)].
  - unfold isEscSensorActive. unfold_m. rewrite Hen'. reflexivity.
  - intros e' t'. apply escSensorProcess_disabled. exact Hen'.
Qed.

Lemma link_timeout_tears_down_witness :
  exists s',
    escSensorProcess 4 (env_at 4 1 15001000) 15001000 fading_link_state = Done (tt, s') /\
    escSensorEnabled s' = false /\
    escSensorPort s' = None /\
    (forall (k : nat) (r' : escSensorData_t),
       1 <= Z.of_nat k < 4 -> escSensorData s' !! k = Some r' -> stale r' = true) /\
    Forall2 stale_or_same (escSensorData fading_link_state) (escSensorData s').
Proof.
  destruct (link_timeout_tears_down 4 4 (env_at 4 1 15001000) 15001000 fading_link_state)
    as (s' & Hrun & Hen & Hport & Hall & Hst & _).
  - lia.
  - reflexivity.
  - simpl. lia.
  - split; simpl; lia.
  - reflexivity.
  - vm_compute. discriminate.
  - discriminate.
  - left. reflexivity.
  - vm_compute. reflexivity.
  - exists s'. split; [exact Hrun|]. split; [exact Hen|]. split; [exact Hport|].
    split; [exact Hall | exact Hst].
Defined.

(** X12. The sensor is never shut down while the link is alive: if a tick
    starts with the sensor enabled and not later than 10000 ms after the
    last response, it ends with the sensor enabled and the port handle
    kept, whatever phase it is in and whatever it finds in the frame
    buffer. *)
Theorem sensor_stays_enabled_while_link_alive (MAX_SUPPORTED_MOTORS count : Z) (e : env)
    (t : Z) (s : esc_state) :
  0 < count <= MAX_SUPPORTED_MOTORS ->
  getMotorCount e = count ->
  0 <= uninit_i e ->
  sched_ok MAX_SUPPORTED_MOTORS count s ->
  is_u32 t ->
  escSensorEnabled s = true ->
  t / 1000 <= u32 (escLastResponseTimestamp s + 10000) ->
  exists s',
    escSensorProcess MAX_SUPPORTED_MOTORS e t s = Done (tt, s') /\
    escSensorEnabled s' = true /\
    escSensorPort s' = escSensorPort s.
Proof.
  intros [Hc1 Hc2] Hec Hei Hok Ht Hen Halive.
  destruct (t / 1000 <? ESC_BOOTTIME) eqn:Hb.
  - exists s. split; [apply escSensorProcess_booting; exact Hb|].
    split; [exact Hen | reflexivity].
  - destruct (escSensorProcess_running MAX_SUPPORTED_MOTORS count e t Hc1 Hc2 Hec Hei s Hok
                Hen Hb) as (s' & Hrun & _ & Hpost & Hlink).
    destruct Hpost as (_ & _ & _ & _ & _ & Hlast & _).
    assert (Hno : (u32 (escLastResponseTimestamp s' + 10000) <? t / 1000) = false).
    { destruct Hlast as [-> | ->].
      - apply Z.ltb_ge. lia.
      - apply link_window_no_wrap. exact Ht. }
    unfold link_post in Hlink. rewrite Hno in Hlink. destruct Hlink as [Hen' Hport'].
    exists s'. split; [exact Hrun|]. split; [congruence | exact Hport'].
Qed.

Lemma sensor_stays_enabled_while_link_alive_witness :
  exists s',
    escSensorProcess 4 (env_at 4 1 15000000) 15000000 fading_link_state = Done (tt, s') /\
    escSensorEnabled s' = true /\
    escSensorPort s' = Some 1.
Proof.
  apply (sensor_stays_enabled_while_link_alive 4 4 (env_at 4 1 15000000) 15000000
           fading_link_state).
  - lia.
  - reflexivity.
  - simpl. lia.
  - split; simpl; lia.
  - unfold is_u32. lia.
  - reflexivity.
  - vm_compute. discriminate.
Defined.

(** ** Initialisation *)

Lemma escSensorInit_open (MAX_SUPPORTED_MOTORS : Z) (e : env) (openSerialPort : option Z)
    (s : esc_state) :
  0 <= uninit_i e ->
  MAX_SUPPORTED_MOTORS <= Z.of_nat (length (escSensorData s)) ->
  exists s',
    escSensorInit MAX_SUPPORTED_MOTORS e true openSerialPort s =
      Done (match openSerialPort with Some _ => true | None => false end, s') /\
    escSensorPort s' = openSerialPort /\
    escSensorEnabled s' =
      match openSerialPort with Some _ => true | None => escSensorEnabled s end /\
    length (escSensorData s') = length (escSensorData s) /\
    (forall (k : nat) (r : escSensorData_t),
       escSensorData s !! k = Some r ->
       escSensorData s' !! k =
         Some (if (uninit_i e <=? Z.of_nat k) && (Z.of_nat k <? MAX_SUPPORTED_MOTORS)
               then set_stale true r else r)) /\
    same_buffer s s' /\
    tlmFrameDone s' = tlmFrameDone s /\
    escSensorTriggerState s' = escSensorTriggerState s /\
    escSensorMotor s' = escSensorMotor s /\
    telemetryRequests s' = telemetryRequests s.
Proof.
  intros Hi Hlen.
  unfold escSensorInit. unfold_m. simpl.
  destruct openSerialPort as [p|]; simpl.
  - destruct (resetEscSensorData_ok MAX_SUPPORTED_MOTORS e
                (set_escSensorEnabled true (set_escSensorPort (Some p) s)) Hi)
      as (d' & Hreset & Hlen' & Hpt); [exact Hlen|].
    rewrite Hreset. simpl. eexists. split; [reflexivity|]. simpl.
    split; [reflexivity|]. split; [reflexivity|]. split; [exact Hlen'|].
    split; [exact Hpt|]. repeat split.
  - destruct (resetEscSensorData_ok MAX_SUPPORTED_MOTORS e (set_escSensorPort None s) Hi)
      as (d' & Hreset & Hlen' & Hpt); [exact Hlen|].
    rewrite Hreset. simpl. eexists. split; [reflexivity|]. simpl.
    split; [reflexivity|]. split; [reflexivity|]. split; [exact Hlen'|].
    split; [exact Hpt|]. repeat split.
Qed.

(** X13. The three outcomes of [escSensorInit]. With no serial port
    configured it returns false and touches nothing, not even the stale
    marks. Otherwise it stores the handle the serial driver returns and
    returns whether that handle is non-NULL; the sensor is enabled when it
    is, and a failed open leaves [escSensorEnabled] as it was; in both
    cases the entries from the start index of the reset loop up to
    [MAX_SUPPORTED_MOTORS] are marked stale, the others and all measured
    fields are kept, and the frame buffer, the scheduler phase, the
    targeted motor and the request flags are untouched. *)
Theorem init_outcomes (MAX_SUPPORTED_MOTORS : Z) (e : env) (openSerialPort : option Z)
    (s : esc_state) :
  0 <= uninit_i e ->
  MAX_SUPPORTED_MOTORS <= Z.of_nat (length (escSensorData s)) ->
  escSensorInit MAX_SUPPORTED_MOTORS e false openSerialPort s = Done (false, s) /\
  exists s',
    escSensorInit MAX_SUPPORTED_MOTORS e true openSerialPort s =
      Done (match openSerialPort with Some _ => true | None => false end, s') /\
    escSensorPort s' = openSerialPort /\
    escSensorEnabled s' =
      match openSerialPort with Some _ => true | None => escSensorEnabled s end /\
    length (escSensorData s') = length (escSensorData s) /\
    (forall (k : nat) (r : escSensorData_t),
       escSensorData s !! k = Some r ->
       escSensorData s' !! k =
         Some (if (uninit_i e <=? Z.of_nat k) && (Z.of_nat k <? MAX_SUPPORTED_MOTORS)
               then set_stale true r else r)) /\
    same_buffer s s' /\
    tlmFrameDone s' = tlmFrameDone s /\
    escSensorTriggerState s' = escSensorTriggerState s /\
    escSensorMotor s' = escSensorMotor s /\
    telemetryRequests s' = telemetryRequests s.
Proof.
  intros Hi Hlen. split; [reflexivity|].
  apply escSensorInit_open; assumption.
Qed.

Lemma init_outcomes_witness :
  escSensorInit 4 (env_at 4 2 0) false None fading_link_state =
    Done (false, fading_link_state) /\
  exists s',
    escSensorInit 4 (env_at 4 2 0) true None fading_link_state = Done (false, s') /\
    escSensorPort s' = None /\
    escSensorEnabled s' = true /\
    escSensorData s' !! 1%nat = Some (mkData false 21 1490 90 9 40).
Proof.
  destruct (init_outcomes 4 (env_at 4 2 0) None fading_link_state) as (H1 & s' & H2 & Hp & He & _ & Hpt & _).
  - simpl. lia.
  - simpl. lia.
  - split; [exact H1|]. exists s'. split; [exact H2|]. split; [exact Hp|]. split; [exact He|].
    exact (Hpt 1%nat _ eq_refl).
Defined.

(** X14. From power-up: whatever [escSensorInit] finds (no port
    configured, open failed or succeeded), every later sequence of ticks
    and received bytes with a constant motor count
    [0 < count <= MAX_SUPPORTED_MOTORS] and non-negative start of the
    reset loop returns without an out-of-bounds access, and ends with the
    targeted motor below [count], the store at its size with every reading
    within the widths of its fields, the cursor inside the buffer and only
    motors below [count] ever asked. *)
Theorem power_up_run_stays_in_bounds (MAX_SUPPORTED_MOTORS count : Z) (e0 : env)
    (portConfig : bool) (openSerialPort : option Z) (evs : list event) :
  0 < count <= MAX_SUPPORTED_MOTORS ->
  0 <= uninit_i e0 ->
  Forall (steady count) evs ->
  exists (b : bool) (s' : esc_state),
    (do b <- escSensorInit MAX_SUPPORTED_MOTORS e0 portConfig openSerialPort ;;
     do _ <- run MAX_SUPPORTED_MOTORS evs ;;
     ret b) (initial_state MAX_SUPPORTED_MOTORS) = Done (b, s') /\
    sched_ok MAX_SUPPORTED_MOTORS count s' /\
    cursor_ok s' /\
    requests_below count s' /\
    Forall wf_data (escSensorData s').
Proof.
  intros Hc Hi Hall.
  assert (Hlen0 : Z.of_nat (length (escSensorData (initial_state MAX_SUPPORTED_MOTORS))) =
                  MAX_SUPPORTED_MOTORS).
  { simpl. rewrite repeat_length. lia. }
  assert (Hwf0 : Forall wf_data (escSensorData (initial_state MAX_SUPPORTED_MOTORS))).
  { simpl. apply List.Forall_forall. intros r Hr. apply repeat_spec in Hr. subst r.
    unfold wf_data, is_u8, is_u16. simpl. lia. }
  assert (Hinit : exists b s0,
            escSensorInit MAX_SUPPORTED_MOTORS e0 portConfig openSerialPort
              (initial_state MAX_SUPPORTED_MOTORS) = Done (b, s0) /\
            sched_ok MAX_SUPPORTED_MOTORS count s0 /\ cursor_ok s0 /\
            requests_below count s0 /\ Forall wf_data (escSensorData s0)).
  { destruct portConfig.
    - destruct (escSensorInit_open MAX_SUPPORTED_MOTORS e0 openSerialPort
                  (initial_state MAX_SUPPORTED_MOTORS) Hi)
        as (s0 & Hrun & _ & _ & Hlen & Hpt & (Hb1 & Hb2) & _ & _ & Hm & Hrq); [lia|].
      eexists. exists s0. split; [exact Hrun|]. split; [|split; [|split]].
      + split; [rewrite Hlen; exact Hlen0 | rewrite Hm; simpl; lia].
      + split; [rewrite Hb2; simpl; lia | rewrite Hb1; reflexivity].
      + unfold requests_below. rewrite Hrq. apply Forall_nil_2.
      + apply Forall_lookup. intros k r' Hr'.
        assert (Hlt : (k < length (escSensorData (initial_state MAX_SUPPORTED_MOTORS)))%nat).
        { rewrite <- Hlen. apply lookup_lt_is_Some_1. eauto. }
        destruct (lookup_lt_is_Some_2 _ _ Hlt) as [r Hr].
        rewrite (Hpt k r Hr) in Hr'. injection Hr' as <-.
        pose proof (Forall_lookup_1 _ _ _ _ Hwf0 Hr) as Hw.
        destruct (_ && _); exact Hw.
    - exists false, (initial_state MAX_SUPPORTED_MOTORS). split; [reflexivity|].
      split; [|split; [|split]].
      + split; [exact Hlen0 | simpl; lia].
      + apply initial_state_cursor.
      + apply Forall_nil_2.
      + exact Hwf0. }
  destruct Hinit as (b & s0 & Hrun0 & Hok0 & Hcur0 & Hreq0 & Hw0).
  destruct (steady_run_invariant MAX_SUPPORTED_MOTORS count evs s0 Hc Hall Hok0 Hcur0 Hreq0 Hw0)
    as (s' & Hrun & Hpost).
  exists b, s'. split; [|exact Hpost].
  unfold bind, ret. rewrite Hrun0, Hrun. reflexivity.
Qed.

Lemma power_up_run_stays_in_bounds_witness :
  exists (b : bool) (s' : esc_state),
    (do b <- escSensorInit 4 env_garbage true (Some 1) ;;
     do _ <- run 4 (silent_link_run ++ [Rx 1; tick 4 0 15002000]) ;;
     ret b) (initial_state 4) = Done (b, s') /\
    sched_ok 4 4 s' /\ cursor_ok s' /\ requests_below 4 s' /\
    Forall wf_data (escSensorData s').
Proof.
  apply (power_up_run_stays_in_bounds 4 4 env_garbage true (Some 1)).
  - lia.
  - simpl. lia.
  - repeat (apply Forall_cons_2; [simpl; try lia; exact I|]). apply Forall_nil_2.
Defined.

(** ** Polling and the combined reading at its edges *)

(** X15. Polling inside the timeout window has no effect: in PENDING with
    no complete frame, any number of ticks that come after the boot time,
    not later than [ESC_REQUEST_TIMEOUT] ms after the trigger time and not
    later than 10000 ms after the last response leave every variable of
    the file as it is; in particular the request is not raised again. *)
Theorem polling_within_timeout_changes_nothing (MAX_SUPPORTED_MOTORS : Z)
    (evs : list event) (s : esc_state) :
  escSensorEnabled s = true ->
  escSensorTriggerState s = ESC_SENSOR_TRIGGER_PENDING ->
  tlmFrameDone s = false ->
  Forall (quiet_poll s) evs ->
  run MAX_SUPPORTED_MOTORS evs s = Done (tt, s).
Proof.
  intros Hen Hst Hdone Hall. induction Hall as [|ev evs Hev _ IH].
  - reflexivity.
  - destruct ev as [e t | c]; [|destruct Hev].
    destruct Hev as (Hboot & Hto & Hlink).
    cbn [run step]. unfold bind. cbn [step].
    rewrite (escSensorProcess_idle MAX_SUPPORTED_MOTORS e t s Hen Hboot Hst Hto Hlink Hdone).
    exact IH.
Qed.

Lemma polling_within_timeout_changes_nothing_witness :
  run 4 [tick 4 0 5001000; tick 4 0 5050000; tick 4 0 5100000] (silent_state 0) =
  Done (tt, silent_state 0).
Proof.
  apply (polling_within_timeout_changes_nothing 4).
  - reflexivity.
  - reflexivity.
  - reflexivity.
  - repeat (apply Forall_cons_2;
            [split; [vm_compute; discriminate | split; vm_compute; discriminate]|]).
    apply Forall_nil_2.
Defined.

Section CombinedEdges.

Variable ESC_SENSOR_COMBINED : Z.

(** X16. The combined reading at its two edges. With no fresh reading
    among the motors it is the stale all-zero reading; with exactly one
    fresh reading it is that reading, field for field: the maximum, the
    sums and the two averages over a single motor return the motor's own
    values. *)
Theorem combined_reading_of_none_or_one (e : env) (s : esc_state) :
  getMotorCount e <= Z.of_nat (length (escSensorData s)) ->
  getMotorCount e <= ESC_SENSOR_COMBINED ->
  Forall wf_data (escSensorData s) ->
  (contributing e s = [] ->
   getEscSensorData ESC_SENSOR_COMBINED e ESC_SENSOR_COMBINED s =
     Done (mkData true 0 0 0 0 0, s)) /\
  (forall r : escSensorData_t,
     contributing e s = [r] ->
     getEscSensorData ESC_SENSOR_COMBINED e ESC_SENSOR_COMBINED s = Done (r, s)).
Proof.
  intros Hlen Hcomb Hwf.
  destruct (combined_reading_wrapped ESC_SENSOR_COMBINED e s Hlen Hcomb Hwf)
    as (r0 & Hrun & Hstale & Ht & Hv & Hc & Hm & Hr).
  pose proof (contributing_wf e s Hwf) as Hcw.
  split.
  - intros Hnone. rewrite Hnone in *.
    rewrite Hrun. f_equal. f_equal.
    destruct r0 as [st te vo cu co rp]. simpl in *.
    assert (st = true) by (apply Hstale; reflexivity).
    subst. reflexivity.
  - intros r Hone. rewrite Hone in *.
    apply Forall_cons_1 in Hcw. destruct Hcw as [(Hw1 & Hw2 & Hw3 & Hw4 & Hw5) _].
    assert (Hfresh : stale r = false).
    { assert (Hin : In r (contributing e s)) by (rewrite Hone; left; reflexivity).
      unfold contributing in Hin. apply filter_In in Hin. destruct Hin as [_ Hn].
      destruct (stale r); [discriminate | reflexivity]. }
    rewrite Hrun. f_equal. f_equal.
    destruct r0 as [st te vo cu co rp]. destruct r as [st1 te1 vo1 cu1 co1 rp1].
    simpl in *. unfold Zsum, Zmax in *. simpl in *.
    rewrite Z.add_0_r in Hv, Hc, Hm, Hr.
    rewrite u16_small in Hv, Hc, Hm, Hr by assumption.
    rewrite Z.div_1_r in Hv, Hr.
    assert (st = false).
    { destruct st; [|reflexivity]. destruct Hstale as [Hs _].
      specialize (Hs eq_refl). discriminate. }
    unfold is_u8 in Hw1.
    subst. f_equal. lia.
Qed.

End CombinedEdges.

Lemma combined_reading_of_none_or_one_witness :
  getEscSensorData 255 (mkEnv 1 0 0 false) 255 fading_link_state =
  Done (mkData false 20 1500 100 10 50, fading_link_state).
Proof.
  assert (H := combined_reading_of_none_or_one 255 (mkEnv 1 0 0 false) fading_link_state).
  destruct H as [_ Hone].
  - simpl. lia.
  - simpl. lia.
  - repeat (apply Forall_cons_2; [unfold wf_data, is_u8, is_u16; simpl; lia|]).
    apply Forall_nil_2.
  - apply Hone. reflexivity.
Defined.

(** ** Byte streams of any length *)

(** X17. The write cursor counts received bytes modulo the buffer size:
    outside the WAIT phase, after [n] bytes received from cursor [p] the
    cursor is [(p + n) mod 10], and the completion flag is set if it was
    set before or if the stream reached the end of the buffer
    ([p + n >= 10]); the callback itself never clears the flag. *)
Theorem cursor_counts_bytes_modulo_ten (MAX_SUPPORTED_MOTORS : Z) (bs : list Z)
    (s : esc_state) :
  escSensorTriggerState s <> ESC_SENSOR_TRIGGER_WAIT ->
  cursor_ok s ->
  exists s',
    run MAX_SUPPORTED_MOTORS (map Rx bs) s = Done (tt, s') /\
    tlmFramePosition s' = (tlmFramePosition s + Z.of_nat (length bs)) mod 10 /\
    tlmFrameDone s' =
      tlmFrameDone s || (10 <=? tlmFramePosition s + Z.of_nat (length bs)) /\
    cursor_ok s' /\
    same_scheduler s s'.
Proof.
  revert s. induction bs as [|c bs IH]; intros s Hst Hok.
  - exists s. pose proof Hok as [Hpos _]. split; [reflexivity|]. cbn [length].
    split; [rewrite Z.add_0_r, Z.mod_small by lia; reflexivity|].
    split; [|split; [exact Hok | apply same_scheduler_refl]].
    assert (H : (10 <=? tlmFramePosition s + Z.of_nat 0) = false) by (apply Z.leb_gt; lia).
    rewrite H, orb_false_r. reflexivity.
  - destruct (escSensorDataReceive_step c s Hst Hok)
      as (s1 & Hrx & Htlm & Hpos1 & Hdone1 & Hsch).
    pose proof Hok as [Hpos Hlen].
    assert (Hok1 : cursor_ok s1).
    { split; [|rewrite Htlm, length_insert; exact Hlen].
      rewrite Hpos1. destruct (tlmFramePosition s =? 9) eqn:E; [lia|].
      apply Z.eqb_neq in E. lia. }
    assert (Hst1 : escSensorTriggerState s1 <> ESC_SENSOR_TRIGGER_WAIT).
    { destruct Hsch as (_ & _ & _ & _ & _ & _ & _ & _ & E & _). rewrite E. exact Hst. }
    destruct (IH s1 Hst1 Hok1) as (s' & Hrun & Hpos' & Hdone' & Hok' & Hsch').
    exists s'. split.
    { cbn [map run step]. unfold bind. cbn [step]. rewrite Hrx. exact Hrun. }
    cbn [length]. rewrite Nat2Z.inj_succ.
    split; [|split; [|split; [exact Hok' | eapply same_scheduler_trans; eassumption]]].
    + rewrite Hpos', Hpos1. destruct (tlmFramePosition s =? 9) eqn:E.
      * apply Z.eqb_eq in E. rewrite E.
        replace (9 + Z.succ (Z.of_nat (length bs))) with (0 + Z.of_nat (length bs) + 1 * 10)
          by lia.
        rewrite Z.mod_add by lia. reflexivity.
      * f_equal. lia.
    + rewrite Hdone', Hdone1, Hpos1. destruct (tlmFramePosition s =? 9) eqn:E.
      * apply Z.eqb_eq in E. rewrite E.
        assert (H : (10 <=? 9 + Z.succ (Z.of_nat (length bs))) = true)
          by (apply Z.leb_le; lia).
        rewrite H, orb_true_r. reflexivity.
      * replace (tlmFramePosition s + 1 + Z.of_nat (length bs))
          with (tlmFramePosition s + Z.succ (Z.of_nat (length bs))) by lia.
        reflexivity.
Qed.

Lemma cursor_counts_bytes_modulo_ten_witness :
  exists s',
    run 4 (map Rx (repeat 1 25)) mid_frame_state = Done (tt, s') /\
    tlmFramePosition s' = 8 /\
    tlmFrameDone s' = true.
Proof.
  destruct (cursor_counts_bytes_modulo_ten 4 (repeat 1 25) mid_frame_state)
    as (s' & Hrun & Hpos & Hdone & _).
  - discriminate.
  - split; [simpl; lia | reflexivity].
  - exists s'. split; [exact Hrun|]. split; [exact Hpos | exact Hdone].
Defined.

(** ** A frame that is complete before the request *)

(** X18. The request does not clear the completion flag, so a valid frame
    that was completed before the request is taken as the answer to it:
    from READY with such a frame waiting, the tick that raises the request
    for the targeted motor and the next tick (within the timeout, no byte
    received in between) store the decoded old frame as the fresh reading
    of the motor just asked and move on to the next motor. *)
Theorem frame_completed_before_request_is_taken_as_answer (MAX_SUPPORTED_MOTORS : Z)
    (e1 e2 : env) (t1 t2 : Z) (s : esc_state) :
  escSensorEnabled s = true ->
  escSensorTriggerState s = ESC_SENSOR_TRIGGER_READY ->
  tlmFrameDone s = true ->
  get_crc8 (tlm s) (ESC_SENSOR_BUFFSIZE - 1) = tlm_at s 9 ->
  ESC_BOOTTIME <= t1 / 1000 ->
  t1 <= t2 ->
  is_u32 t2 ->
  t1 / 1000 <= u32 (escLastResponseTimestamp s + 10000) ->
  t2 / 1000 <= u32 (escTriggerTimestamp s + ESC_REQUEST_TIMEOUT) ->
  motor_in_store s ->
  exists s',
    run MAX_SUPPORTED_MOTORS [Tick e1 t1; Tick e2 t2] s = Done (tt, s') /\
    escSensorData s' =
      <[Z.to_nat (escSensorMotor s) := decodeFrame s]> (escSensorData s) /\
    stale (decodeFrame s) = false /\
    telemetryRequests s' = escSensorMotor s :: telemetryRequests s /\
    escSensorMotor s' = (if u8 (escSensorMotor s + 1) =? getMotorCount e2
                         then 0 else u8 (escSensorMotor s + 1)) /\
    escSensorTriggerState s' = ESC_SENSOR_TRIGGER_READY /\
    escLastResponseTimestamp s' = t2 / 1000 /\
    tlmFrameDone s' = false.
Proof.
  intros Hen Hst Hdone Hcrc Hboot Ht12 Ht2 Hlink Hto Hm.
  set (s1 := set_escSensorTriggerState ESC_SENSOR_TRIGGER_PENDING
               (set_telemetryRequests (escSensorMotor s :: telemetryRequests s) s)).
  assert (Hrun1 : escSensorProcess MAX_SUPPORTED_MOTORS e1 t1 s = Done (tt, s1))
    by (apply escSensorProcess_ready; assumption).
  assert (Hboot2 : ESC_BOOTTIME <= t2 / 1000).
  { unfold ESC_BOOTTIME in *. Z.to_euclidean_division_equations. lia. }
  assert (Hrun2 := escSensorProcess_accept MAX_SUPPORTED_MOTORS e2 t2 s1 Ht2 Hen Hboot2
                     eq_refl Hto Hdone Hcrc Hm).
  eexists. split.
  { cbn [run step]. unfold bind, ret. cbn [step]. rewrite Hrun1, Hrun2. reflexivity. }
  cbn. repeat split; reflexivity.
Qed.

Lemma frame_completed_before_request_is_taken_as_answer_witness :
  exists s',
    run 4 [tick 4 0 5001000; tick 4 0 5002000] early_frame_state = Done (tt, s') /\
    escSensorData s' !! 2%nat = Some (mkData false 25 1600 200 300 120) /\
    telemetryRequests s' = [2] /\
    escSensorMotor s' = 3.
Proof.
  destruct (frame_completed_before_request_is_taken_as_answer 4 (env_at 4 0 5001000)
              (env_at 4 0 5002000) 5001000 5002000 early_frame_state)
    as (s' & Hrun & Hdata & _ & Hreq & Hmot & _).
  - reflexivity.
  - reflexivity.
  - reflexivity.
  - vm_compute. reflexivity.
  - vm_compute. discriminate.
  - lia.
  - unfold is_u32. lia.
  - vm_compute. discriminate.
  - vm_compute. discriminate.
  - unfold motor_in_store. simpl. lia.
  - exists s'. split; [exact Hrun|]. rewrite Hdata, Hreq, Hmot.
    repeat split; reflexivity.
Defined.

(** ** Reading the store *)

Lemma combine_fold_wf (m : list escSensorData_t) :
  forall c : escSensorData_t,
  wf_data c -> wf_data (fold_left (fun c r => combine_one r c) m c).
Proof.
  induction m as [|r m IH]; intros c Hc; cbn [fold_left].
  - exact Hc.
  - apply IH, combine_one_wf.
Qed.

Section Getter.

Variable ESC_SENSOR_COMBINED : Z.

(** X19. [getEscSensorData] is total and read-only for every index, as
    long as the motor count does not exceed the size of the store: an
    index below the motor count returns that entry of the store; an index
    at or above the count that is not [ESC_SENSOR_COMBINED] returns the
    stale all-zero reading; no call changes the state, and what is
    returned is within the widths of its fields whenever the stored
    readings are. *)
Theorem getEscSensorData_total_and_read_only (e : env) (motorNumber : Z) (s : esc_state) :
  0 <= motorNumber ->
  getMotorCount e <= Z.of_nat (length (escSensorData s)) ->
  exists r,
    getEscSensorData ESC_SENSOR_COMBINED e motorNumber s = Done (r, s) /\
    (motorNumber < getMotorCount e ->
     escSensorData s !! Z.to_nat motorNumber = Some r) /\
    (getMotorCount e <= motorNumber -> motorNumber <> ESC_SENSOR_COMBINED ->
     r = mkData true 0 0 0 0 0) /\
    (Forall wf_data (escSensorData s) -> wf_data r).
Proof.
  intros Hm Hlen.
  assert (Hwf0 : wf_data (mkData true 0 0 0 0 0))
    by (unfold wf_data, is_u8, is_u16; simpl; lia).
  unfold getEscSensorData. unfold_m.
  destruct (motorNumber <? getMotorCount e) eqn:Hlt.
  - apply Z.ltb_lt in Hlt.
    assert (Hin : (Z.to_nat motorNumber < length (escSensorData s))%nat) by lia.
    destruct (lookup_lt_is_Some_2 _ _ Hin) as [r Hr].
    assert (Hget : array_get (escSensorData s) motorNumber = Some r).
    { unfold array_get. assert (H : (motorNumber <? 0) = false) by (apply Z.ltb_ge; lia).
      rewrite H. exact Hr. }
    rewrite Hget. exists r. split; [reflexivity|].
    split; [intros _; exact Hr|]. split; [intros Hge; lia|].
    intros Hwf. exact (Forall_lookup_1 _ _ _ _ Hwf Hr).
  - apply Z.ltb_ge in Hlt.
    destruct (motorNumber =? ESC_SENSOR_COMBINED) eqn:Hc.
    + assert (Hn : (Z.to_nat (getMotorCount e) <= length (escSensorData s))%nat) by lia.
      pose proof (combine_loop_segment (take (Z.to_nat (getMotorCount e)) (escSensorData s))
                    [] (drop (Z.to_nat (getMotorCount e)) (escSensorData s))
                    (mkData true 0 0 0 0 0) 0) as Hloop.
      cbn [app length] in Hloop. rewrite take_drop, length_take_le in Hloop by exact Hn.
      change (Z.of_nat 0) with 0 in Hloop. rewrite Hloop, combine_fold_filter.
      set (c := fold_left (fun c r => combine_one r c) _ _).
      assert (Hwc : wf_data c) by (apply combine_fold_wf; exact Hwf0).
      apply Z.eqb_eq in Hc.
      destruct (_ >? 0).
      * eexists. split; [reflexivity|]. split; [intros; lia|].
        split; [intros _ Hne; contradiction|].
        intros _. destruct Hwc as (H1 & H2 & H3 & H4 & H5).
        unfold wf_data. simpl.
        repeat split; try apply u16_range; try apply H1; try apply H3; apply H4.
      * exists c. split; [reflexivity|]. split; [intros; lia|].
        split; [intros _ Hne; contradiction | intros _; exact Hwc].
    + apply Z.eqb_neq in Hc. eexists. split; [reflexivity|].
      split; [intros; lia|]. split; [reflexivity | intros _; exact Hwf0].
Qed.

End Getter.

Lemma getEscSensorData_total_and_read_only_witness :
  exists r,
    getEscSensorData 255 (mkEnv 4 0 0 false) 7 fading_link_state = Done (r, fading_link_state) /\
    r = mkData true 0 0 0 0 0.
Proof.
  destruct (getEscSensorData_total_and_read_only 255 (mkEnv 4 0 0 false) 7 fading_link_state)
    as (r & Hrun & _ & Hout & _).
  - lia.
  - simpl. lia.
  - exists r. split; [exact Hrun|]. apply Hout; simpl; lia.
Defined.

(** ** The decoder loses nothing *)

Lemma be16_unsplit (hi lo : Z) :
  is_u8 hi -> is_u8 lo ->
  (256 * hi + lo) / 256 = hi /\ (256 * hi + lo) mod 256 = lo.
Proof. unfold is_u8. intros Hh Hl. Z.to_euclidean_division_equations. lia. Qed.

(** X20. Decoding is lossless: for a buffer of ten bytes, laying the
    decoded reading out again by the protocol table gives back the nine
    payload bytes of the buffer, so two buffers whose payloads differ
    decode to different readings. *)
Theorem decoded_reading_determines_payload (s : esc_state) :
  length (tlm s) = 10%nat ->
  Forall is_u8 (tlm s) ->
  frame_payload (decodeFrame s) = take 9 (tlm s).
Proof.
  intros Hlen Hbytes.
  destruct (tlm s) as [|b0 [|b1 [|b2 [|b3 [|b4 [|b5 [|b6 [|b7 [|b8 [|b9 [|]]]]]]]]]]] eqn:Htlm;
    try discriminate.
  repeat (apply Forall_cons_1 in Hbytes; destruct Hbytes as [? Hbytes]).
  unfold frame_payload, decodeFrame, tlm_at. rewrite Htlm.
  cbn [nth temperature voltage current consumption rpm firstn].
  rewrite !be16_bytes by assumption.
  rewrite u8_small by assumption.
  destruct (be16_unsplit b1 b2) as [-> ->]; [assumption..|].
  destruct (be16_unsplit b3 b4) as [-> ->]; [assumption..|].
  destruct (be16_unsplit b5 b6) as [-> ->]; [assumption..|].
  destruct (be16_unsplit b7 b8) as [-> ->]; [assumption..|].
  reflexivity.
Qed.

Lemma decoded_reading_determines_payload_witness :
  frame_payload (decodeFrame early_frame_state) = take 9 (tlm early_frame_state).
Proof.
  apply decoded_reading_determines_payload.
  - reflexivity.
  - repeat (apply Forall_cons_2; [unfold is_u8; lia|]). apply Forall_nil_2.
Defined.

(** ** Bookkeeping of the scheduler over runs *)

(** X21. Two invariants of the scheduler's bookkeeping, over every
    sequence of ticks and received bytes with a constant motor count: once
    the scheduler has left the WAIT phase it never returns to it (so
    received bytes are never again discarded), and a per-motor retry
    counter that is at most 3 stays at most 3 (the fourth timeout in a row
    always moves on to the next motor). *)
Theorem scheduler_never_rearms_wait_nor_overruns_retries (MAX_SUPPORTED_MOTORS count : Z)
    (evs : list event) (s : esc_state) :
  0 < count <= MAX_SUPPORTED_MOTORS ->
  Forall (steady count) evs ->
  sched_ok MAX_SUPPORTED_MOTORS count s ->
  cursor_ok s ->
  exists s',
    run MAX_SUPPORTED_MOTORS evs s = Done (tt, s') /\
    (escSensorTriggerState s <> ESC_SENSOR_TRIGGER_WAIT ->
     escSensorTriggerState s' <> ESC_SENSOR_TRIGGER_WAIT) /\
    (0 <= timeoutRetryCount s <= 3 -> 0 <= timeoutRetryCount s' <= 3).
Proof.
  intros [Hc1 Hc2] Hall. revert s.
  induction Hall as [|ev evs Hev _ IH]; intros s Hok Hcur.
  - exists s. split; [reflexivity|]. split; intros H; exact H.
  - assert (Hstep : exists s1,
              step MAX_SUPPORTED_MOTORS ev s = Done (tt, s1) /\
              sched_ok MAX_SUPPORTED_MOTORS count s1 /\ cursor_ok s1 /\
              phase_step (escSensorTriggerState s) (escSensorTriggerState s1) /\
              (0 <= timeoutRetryCount s <= 3 -> 0 <= timeoutRetryCount s1 <= 3)).
    { destruct ev as [e t | c]; cbn [step steady] in *.
      - destruct Hev as [Hec Hei].
        destruct (escSensorProcess_total MAX_SUPPORTED_MOTORS count e t Hc1 Hc2 Hec Hei s Hok)
          as (s1 & Hrun & Hok1 & (Hb1 & Hb2) & _ & _ & _ & _ & _ & _ & Hph & Hrt).
        exists s1. split; [exact Hrun|]. split; [exact Hok1|]. split; [|split; assumption].
        destruct Hcur as [Hp Hl]. split; [rewrite Hb2; exact Hp | rewrite Hb1; exact Hl].
      - destruct (escSensorDataReceive_total c s Hcur) as (s1 & Hrx & Hcur1 & Hsch).
        destruct Hsch as (_ & Ed & _ & _ & Ec & _ & Em & _ & Est & _).
        exists s1. split; [exact Hrx|]. split; [|split; [exact Hcur1|split]].
        + unfold sched_ok. rewrite Ed, Em. exact Hok.
        + rewrite Est. destruct (escSensorTriggerState s); exact I.
        + rewrite Ec. intros H; exact H. }
    destruct Hstep as (s1 & Hs1 & Hok1 & Hcur1 & Hph & Hrt).
    destruct (IH s1 Hok1 Hcur1) as (s' & Hrun & Hph' & Hrt').
    exists s'. split; [|split].
    + cbn [run]. unfold bind. rewrite Hs1. exact Hrun.
    + intros Hne. apply Hph'. intros Hw. rewrite Hw in Hph.
      destruct (escSensorTriggerState s); [contradiction | exact Hph | exact Hph].
    + intros H. apply Hrt', Hrt, H.
Qed.

Lemma scheduler_never_rearms_wait_nor_overruns_retries_witness :
  exists s',
    run 4 [tick 4 0 5200000; tick 4 0 5201000; Rx 9; tick 4 0 5400000; tick 4 0 20000000]
      (silent_state 3) = Done (tt, s') /\
    escSensorTriggerState s' <> ESC_SENSOR_TRIGGER_WAIT /\
    0 <= timeoutRetryCount s' <= 3.
Proof.
  destruct (scheduler_never_rearms_wait_nor_overruns_retries 4 4
              [tick 4 0 5200000; tick 4 0 5201000; Rx 9; tick 4 0 5400000; tick 4 0 20000000]
              (silent_state 3)) as (s' & Hrun & Hph & Hrt).
  - lia.
  - repeat (apply Forall_cons_2; [simpl; try lia; exact I|]). apply Forall_nil_2.
  - split; simpl; lia.
  - split; [simpl; lia | reflexivity].
  - exists s'. split; [exact Hrun|]. split; [apply Hph; discriminate | apply Hrt; simpl; lia].
Defined.

(** ** Rounds of cycles *)

Lemma u32_small (x : Z) : is_u32 x -> u32 x = x.
Proof. unfold is_u32, u32. intros H. apply Z.mod_small. exact H. Qed.

(** X22. Round-robin acquisition. Starting in READY on motor [m], a cycle
    every two milliseconds for each of [k] readings ([m + k] not above the
    motor count) asks the motors [m], [m + 1], ... in this order, one
    request each, and stores the [k] readings, fresh and in the same
    order, in the entries [m .. m + k - 1]; the other entries are
    untouched, and the scheduler ends in READY on motor [m + k], or on
    motor 0 when the round is complete ([m + k] equal to the count). *)
Theorem cycles_fill_store_in_motor_order (MAX_SUPPORTED_MOTORS count : Z)
    (ds : list escSensorData_t) :
  forall (t : Z) (s : esc_state),
  0 < count <= 255 ->
  Forall wf_data ds ->
  escSensorEnabled s = true ->
  escSensorTriggerState s = ESC_SENSOR_TRIGGER_READY ->
  0 <= escSensorMotor s < count ->
  escSensorMotor s + Z.of_nat (length ds) <= count ->
  count <= Z.of_nat (length (escSensorData s)) ->
  cursor_ok s ->
  tlmFramePosition s = 0 ->
  ESC_BOOTTIME <= t / 1000 ->
  t + 2000 * Z.of_nat (length ds) < 4294967296 ->
  t / 1000 <= u32 (escLastResponseTimestamp s + 10000) ->
  (t + 1000) / 1000 <= u32 (escTriggerTimestamp s + ESC_REQUEST_TIMEOUT) ->
  exists s',
    run MAX_SUPPORTED_MOTORS (cycles count t ds) s = Done (tt, s') /\
    escSensorData s' =
      take (Z.to_nat (escSensorMotor s)) (escSensorData s) ++
      map (set_stale false) ds ++
      drop (Z.to_nat (escSensorMotor s) + length ds) (escSensorData s) /\
    telemetryRequests s' =
      rev (seqZ (escSensorMotor s) (Z.of_nat (length ds))) ++ telemetryRequests s /\
    escSensorMotor s' = (escSensorMotor s + Z.of_nat (length ds)) mod count /\
    escSensorTriggerState s' = ESC_SENSOR_TRIGGER_READY /\
    escSensorEnabled s' = true.
Proof.
  induction ds as [|d ds IH];
    intros t s Hc Hwf Hen Hst Hm Hfit Hlen Hcur Hpos Hboot Hend Hlink Hto.
  - exists s. split; [reflexivity|]. cbn [length map app]. rewrite Nat.add_0_r.
    split; [symmetry; apply take_drop|]. split; [reflexivity|].
    split; [rewrite Z.add_0_r, Z.mod_small by lia; reflexivity|].
    split; assumption.
  - apply Forall_cons_1 in Hwf. destruct Hwf as [Hd Hwf].
    cbn [length] in Hfit, Hend. rewrite Nat2Z.inj_succ in Hfit, Hend.
    assert (Ht0 : 0 <= t).
    { unfold ESC_BOOTTIME in Hboot. Z.to_euclidean_division_equations. lia. }
    assert (Hms : motor_in_store s) by (unfold motor_in_store; lia).
    destruct (cycle_run MAX_SUPPORTED_MOTORS (env_at count 0 t) (env_at count 0 (t + 1000))
                t (t + 1000) d s Hen Hst Hboot)
      as (s1 & Hrun1 & Hdata1 & Hreq1 & Hmot1 & Hst1 & Hlast1 & Htrig1 & _ & _ & Hpos1 &
          Hen1 & Hbuf1 & _);
      [lia | unfold is_u32; lia | exact Hlink | exact Hto | exact Hcur | exact Hpos |
       exact Hms | exact Hd |].
    cbn [getMotorCount millis env_at] in Hmot1, Htrig1.
    assert (Hu : u8 (escSensorMotor s + 1) = escSensorMotor s + 1)
      by (apply u8_small; unfold is_u8; lia).
    rewrite Hu in Hmot1.
    assert (Hlt : (Z.to_nat (escSensorMotor s) < length (escSensorData s))%nat) by lia.
    assert (Hstore1 : escSensorData s1 =
              take (Z.to_nat (escSensorMotor s)) (escSensorData s) ++
              set_stale false d :: drop (S (Z.to_nat (escSensorMotor s))) (escSensorData s)).
    { rewrite Hdata1.
      rewrite <- (take_drop (S (Z.to_nat (escSensorMotor s)))
                    (<[Z.to_nat (escSensorMotor s) := set_stale false d]> (escSensorData s))).
      erewrite take_S_r by (apply list_lookup_insert_eq; exact Hlt).
      rewrite take_insert_ge by lia. rewrite drop_insert_lt by lia.
      rewrite <- app_assoc. reflexivity. }
    destruct ds as [|d2 ds].
    + exists s1. split.
      { cbn [cycles]. rewrite app_nil_r. exact Hrun1. }
      cbn [length map app] in *.
      split; [rewrite Hstore1; f_equal; f_equal; f_equal; lia|].
      split; [rewrite Hreq1; reflexivity|].
      split; [|split; assumption].
      rewrite Hmot1. change (Z.of_nat 1) with 1.
      destruct (escSensorMotor s + 1 =? count) eqn:E.
      * apply Z.eqb_eq in E. rewrite E, Z_mod_same_full. reflexivity.
      * apply Z.eqb_neq in E. rewrite Z.mod_small by lia. reflexivity.
    + set (rest := d2 :: ds) in *.
      assert (Hk : 1 <= Z.of_nat (length rest)) by (unfold rest; cbn [length]; lia).
      assert (Hne : (escSensorMotor s + 1 =? count) = false) by (apply Z.eqb_neq; lia).
      rewrite Hne in Hmot1.
      assert (Hdiv : t / 1000 + 1 = (t + 1000) / 1000 /\ t / 1000 + 2 = (t + 2000) / 1000 /\
                     t / 1000 + 3 = (t + 2000 + 1000) / 1000 /\ t / 1000 < 4294968)
        by (Z.to_euclidean_division_equations; lia).
      destruct Hdiv as (Hd1 & Hd2 & Hd3 & Hd4).
      assert (Hboot' : 5000 <= t / 1000) by exact Hboot.
      destruct (IH (t + 2000) s1) as (s' & Hrun & Hdata & Hreq & Hmot & Hst' & Hen');
        try assumption.
      * rewrite Hmot1. lia.
      * rewrite Hmot1. lia.
      * rewrite Hdata1, length_insert. exact Hlen.
      * split; [rewrite Hpos1; lia | exact Hbuf1].
      * lia.
      * lia.
      * rewrite Hlast1, u32_small by (unfold is_u32; lia). lia.
      * rewrite Htrig1. unfold ESC_REQUEST_TIMEOUT.
        rewrite u32_small by (unfold is_u32; lia). lia.
      * exists s'. split.
        { cbn [cycles]. rewrite run_app. unfold cycle, tick. rewrite Hrun1. exact Hrun. }
        rewrite Hmot1 in Hdata, Hreq, Hmot.
        replace (Z.to_nat (escSensorMotor s + 1)) with (S (Z.to_nat (escSensorMotor s)))
          in Hdata by lia.
        cbn [length map]. rewrite Nat2Z.inj_succ.
        split; [|split; [|split; [|split; assumption]]].
        -- rewrite Hdata, Hdata1.
           erewrite take_S_r by (apply list_lookup_insert_eq; exact Hlt).
           rewrite take_insert_ge by lia. rewrite drop_insert_lt by lia.
           rewrite <- app_assoc. cbn [app].
           replace (Z.to_nat (escSensorMotor s) + S (length rest))%nat
             with (S (Z.to_nat (escSensorMotor s)) + length rest)%nat by lia.
           reflexivity.
        -- rewrite Hreq, Hreq1.
           rewrite (seqZ_cons (escSensorMotor s)) by lia.
           rewrite Z.pred_succ. cbn [rev]. rewrite <- app_assoc. cbn [app].
           replace (Z.succ (escSensorMotor s)) with (escSensorMotor s + 1) by lia.
           reflexivity.
        -- rewrite Hmot. f_equal. lia.
Qed.

Lemma cycles_fill_store_in_motor_order_witness :
  exists s',
    run 4 (cycles 4 5001000 round_readings) round_start_state = Done (tt, s') /\
    escSensorData s' = round_readings /\
    telemetryRequests s' = [3; 2; 1; 0] /\
    escSensorMotor s' = 0 /\
    escSensorTriggerState s' = ESC_SENSOR_TRIGGER_READY.
Proof.
  destruct (cycles_fill_store_in_motor_order 4 4 round_readings 5001000 round_start_state)
    as (s' & Hrun & Hdata & Hreq & Hmot & Hst & _).
  - lia.
  - repeat (apply Forall_cons_2; [unfold wf_data, is_u8, is_u16; simpl; lia|]).
    apply Forall_nil_2.
  - reflexivity.
  - reflexivity.
  - simpl. lia.
  - simpl. lia.
  - simpl. lia.
  - split; [simpl; lia | reflexivity].
  - reflexivity.
  - vm_compute. discriminate.
  - simpl. lia.
  - vm_compute. discriminate.
  - vm_compute. discriminate.
  - exists s'. split; [exact Hrun|]. split; [rewrite Hdata; reflexivity|].
    split; [rewrite Hreq; reflexivity|]. split; [rewrite Hmot; reflexivity | exact Hst].
Defined.

(** ** The frame validator consumes a frame once *)

(** X23. [escSensorFrameStatus] reports [ESC_SENSOR_FRAME_COMPLETE]
    exactly when a complete frame with the right checksum is waiting, and
    it always leaves the completion flag clear: called again without new
    bytes it reports [ESC_SENSOR_FRAME_PENDING] and changes nothing, so no
    frame is decoded twice. *)
Theorem frame_is_reported_once (s : esc_state) :
  motor_in_store s ->
  exists (a : Z) (s1 : esc_state),
    escSensorFrameStatus s = Done (a, s1) /\
    (a = ESC_SENSOR_FRAME_COMPLETE <->
     tlmFrameDone s = true /\
     get_crc8 (tlm s) (ESC_SENSOR_BUFFSIZE - 1) = tlm_at s 9) /\
    (a = ESC_SENSOR_FRAME_COMPLETE \/ a = ESC_SENSOR_FRAME_PENDING) /\
    tlmFrameDone s1 = false /\
    escSensorFrameStatus s1 = Done (ESC_SENSOR_FRAME_PENDING, s1).
Proof.
  intros Hm.
  destruct (tlmFrameDone s) eqn:Hdone.
  - destruct (Z.eq_dec (get_crc8 (tlm s) (ESC_SENSOR_BUFFSIZE - 1)) (tlm_at s 9))
      as [Hcrc | Hcrc].
    + eexists. eexists. split; [apply escSensorFrameStatus_valid; assumption|].
      split; [split; [intros _; split; [reflexivity | exact Hcrc] | intros _; reflexivity]|].
      split; [left; reflexivity|]. split; [reflexivity|].
      apply escSensorFrameStatus_no_frame. reflexivity.
    + eexists. eexists. split; [apply escSensorFrameStatus_bad_crc; assumption|].
      split; [split; [intros H; discriminate H | intros [_ H]; contradiction]|].
      split; [right; reflexivity|]. split; [reflexivity|].
      apply escSensorFrameStatus_no_frame. reflexivity.
  - exists ESC_SENSOR_FRAME_PENDING, s.
    split; [apply escSensorFrameStatus_no_frame; exact Hdone|].
    split; [split; [intros H; discriminate H | intros [H _]; discriminate H]|].
    split; [right; reflexivity|]. split; [exact Hdone|].
    apply escSensorFrameStatus_no_frame. exact Hdone.
Qed.

Lemma frame_is_reported_once_witness :
  exists (a : Z) (s1 : esc_state),
    escSensorFrameStatus early_frame_state = Done (a, s1) /\
    a = ESC_SENSOR_FRAME_COMPLETE /\
    escSensorFrameStatus s1 = Done (ESC_SENSOR_FRAME_PENDING, s1).
Proof.
  destruct (frame_is_reported_once early_frame_state) as (a & s1 & Hrun & Hiff & _ & _ & Hagain).
  - unfold motor_in_store. simpl. lia.
  - exists a, s1. split; [exact Hrun|]. split; [|exact Hagain].
    apply Hiff. split; [reflexivity | vm_compute; reflexivity].
Defined.

(** ** Frame assembly and ticks *)

(** X24. Frame assembly does not depend on the scheduler's ticks: once
    the scheduler is out of WAIT, however ticks (with a constant motor
    count) are interleaved with the received bytes, the frame buffer and
    its cursor end up exactly as if the bytes had been received with no
    tick in between. *)
Theorem frame_assembly_ignores_ticks (MAX_SUPPORTED_MOTORS count : Z) (evs : list event)
    (s : esc_state) :
  0 < count <= MAX_SUPPORTED_MOTORS ->
  Forall (steady count) evs ->
  sched_ok MAX_SUPPORTED_MOTORS count s ->
  cursor_ok s ->
  escSensorTriggerState s <> ESC_SENSOR_TRIGGER_WAIT ->
  exists s' sb,
    run MAX_SUPPORTED_MOTORS evs s = Done (tt, s') /\
    run MAX_SUPPORTED_MOTORS (map Rx (bytes_of evs)) s = Done (tt, sb) /\
    tlm s' = tlm sb /\
    tlmFramePosition s' = tlmFramePosition sb.
Proof.
  intros [Hc1 Hc2] Hall Hok Hcur Hst.
  assert (Hgen : forall sa sb0,
            same_buffer sa sb0 ->
            sched_ok MAX_SUPPORTED_MOTORS count sa ->
            cursor_ok sa ->
            escSensorTriggerState sa <> ESC_SENSOR_TRIGGER_WAIT ->
            escSensorTriggerState sb0 <> ESC_SENSOR_TRIGGER_WAIT ->
            exists s' sb,
              run MAX_SUPPORTED_MOTORS evs sa = Done (tt, s') /\
              run MAX_SUPPORTED_MOTORS (map Rx (bytes_of evs)) sb0 = Done (tt, sb) /\
              same_buffer s' sb).
  { clear s Hok Hcur Hst.
    induction Hall as [|ev evs Hev _ IH]; intros sa sb0 Hsame Hok Hcur Hsta Hstb.
    - exists sa, sb0. split; [reflexivity|]. split; [reflexivity | exact Hsame].
    - destruct ev as [e t | c]; cbn [steady] in Hev.
      + destruct Hev as [Hec Hei].
        destruct (escSensorProcess_total MAX_SUPPORTED_MOTORS count e t Hc1 Hc2 Hec Hei sa Hok)
          as (sa1 & Hrun & Hok1 & Hbuf & _ & _ & _ & _ & _ & _ & Hph & _).
        assert (Hcur1 : cursor_ok sa1).
        { destruct Hcur as [Hp Hl]. destruct Hbuf as [E1 E2].
          split; [rewrite E2; exact Hp | rewrite E1; exact Hl]. }
        assert (Hsta1 : escSensorTriggerState sa1 <> ESC_SENSOR_TRIGGER_WAIT).
        { intros Hw. rewrite Hw in Hph.
          destruct (escSensorTriggerState sa); [contradiction | exact Hph | exact Hph]. }
        assert (Hsame1 : same_buffer sa1 sb0).
        { destruct Hbuf as [E1 E2]. destruct Hsame as [E3 E4].
          split; congruence. }
        destruct (IH sa1 sb0 Hsame1 Hok1 Hcur1 Hsta1 Hstb) as (s' & sb & Hr1 & Hr2 & Hs).
        exists s', sb. split; [|split; [exact Hr2 | exact Hs]].
        cbn [run step]. unfold bind. cbn [step]. rewrite Hrun. exact Hr1.
      + assert (Hcurb : cursor_ok sb0).
        { destruct Hcur as [Hp Hl]. destruct Hsame as [E1 E2].
          split; [rewrite E2; exact Hp | rewrite E1; exact Hl]. }
        destruct (escSensorDataReceive_step c sa Hsta Hcur)
          as (sa1 & Hrxa & Htlma & Hposa & _ & Hscha).
        destruct (escSensorDataReceive_step c sb0 Hstb Hcurb)
          as (sb1 & Hrxb & Htlmb & Hposb & _ & Hschb).
        destruct Hsame as [E1 E2].
        assert (Hsame1 : same_buffer sa1 sb1).
        { split; [rewrite Htlma, Htlmb, E1, E2 | rewrite Hposa, Hposb, E2]; reflexivity. }
        pose proof Hcur as [Hp Hl].
        assert (Hcur1 : cursor_ok sa1).
        { split; [|rewrite Htlma, length_insert; exact Hl].
          rewrite Hposa. destruct (tlmFramePosition sa =? 9) eqn:E; [lia|].
          apply Z.eqb_neq in E. lia. }
        destruct Hscha as (_ & Ed & _ & _ & _ & _ & Em & _ & Esta & _).
        destruct Hschb as (_ & _ & _ & _ & _ & _ & _ & _ & Estb & _).
        assert (Hok1 : sched_ok MAX_SUPPORTED_MOTORS count sa1)
          by (unfold sched_ok; rewrite Ed, Em; exact Hok).
        destruct (IH sa1 sb1 Hsame1 Hok1 Hcur1) as (s' & sb & Hr1 & Hr2 & Hs);
          [rewrite Esta; exact Hsta | rewrite Estb; exact Hstb |].
        exists s', sb. split; [|split; [|exact Hs]].
        * cbn [run step]. unfold bind. cbn [step]. rewrite Hrxa. exact Hr1.
        * cbn [bytes_of flat_map app map run step]. unfold bind. cbn [step].
          rewrite Hrxb. exact Hr2. }
  destruct (Hgen s s (same_buffer_refl s) Hok Hcur Hst Hst) as (s' & sb & Hr1 & Hr2 & E1 & E2).
  exists s', sb. split; [exact Hr1|]. split; [exact Hr2|].
  split; [symmetry; exact E1 | symmetry; exact E2].
Qed.

Lemma frame_assembly_ignores_ticks_witness :
  exists s' sb,
    run 4 [Rx 1; tick 4 0 5001000; Rx 2; Rx 3; tick 4 0 5200000; Rx 4] mid_frame_state =
      Done (tt, s') /\
    run 4 (map Rx [1; 2; 3; 4]) mid_frame_state = Done (tt, sb) /\
    tlm s' = tlm sb /\
    tlmFramePosition s' = tlmFramePosition sb.
Proof.
  apply (frame_assembly_ignores_ticks 4 4
           [Rx 1; tick 4 0 5001000; Rx 2; Rx 3; tick 4 0 5200000; Rx 4] mid_frame_state).
  - lia.
  - repeat (apply Forall_cons_2; [simpl; try lia; exact I|]). apply Forall_nil_2.
  - split; simpl; lia.
  - split; [simpl; lia | reflexivity].
  - discriminate.
Defined.
